(** * YAML line-length normalisation scripts: a shallow embedding

    The repository ships several Python scripts (under [scripts/]) that
    rewrite GitHub-workflow YAML files line by line.  This development
    embeds the text-rewriting functions of those scripts as Rocq functions
    over [string] and settles the properties the design document states
    about them.

    Characters are modelled as [ascii], read as the Unicode code points
    below 256; [Py.isspace] is Python's [str.isspace] on that range.
    The lines of a document come from [split] on the newline and hold no
    newline themselves, which the embeddings of the regular expressions
    rely on (a dot does not match a newline).  An iteration of a loop
    that would raise [IndexError] yields [None]; the batch runners work
    on a directory given as a list of named files, where opening a file
    can raise. *)

From Stdlib Require Import String Ascii List Arith Bool Lia.
Import ListNotations.
Open Scope list_scope.
Open Scope string_scope.

(* ================================================================== *)
(** * Python string primitives *)
(* ================================================================== *)

Module Py.

(** [str.isspace] on one character (code points below 256):
    U+0009..U+000D, U+001C..U+001F, U+0020, U+0085, U+00A0.  The regular
    expression class [\s] on [str] patterns tests the same set. *)
Definition isspace (c : ascii) : bool :=
  let n := nat_of_ascii c in
  (((9 <=? n) && (n <=? 13)) || ((28 <=? n) && (n <=? 32))
   || (n =? 133) || (n =? 160))%nat.

Definition is_empty (s : string) : bool :=
  match s with EmptyString => true | String _ _ => false end.

(** Truthiness of a string: [if s:] *)
Definition truthy (s : string) : bool := negb (is_empty s).

Definition len (s : string) : nat := String.length s.

(** [s.lstrip()] *)
Fixpoint lstrip (s : string) : string :=
  match s with
  | EmptyString => EmptyString
  | String c t => if isspace c then lstrip t else s
  end.

(** [s.rstrip()] *)
Fixpoint rstrip (s : string) : string :=
  match s with
  | EmptyString => EmptyString
  | String c t =>
      let t' := rstrip t in
      if isspace c && is_empty t' then EmptyString else String c t'
  end.

(** [s.strip()] *)
Definition strip (s : string) : string := lstrip (rstrip s).

(** [s.rstrip('\n')]: only the given character is removed. *)
Fixpoint rstrip_char (x : ascii) (s : string) : string :=
  match s with
  | EmptyString => EmptyString
  | String c t =>
      let t' := rstrip_char x t in
      if Ascii.eqb c x && is_empty t' then EmptyString else String c t'
  end.

(** [s.startswith(p)] *)
Fixpoint startswith (s p : string) : bool :=
  match p, s with
  | EmptyString, _ => true
  | String _ _, EmptyString => false
  | String a p', String b s' => Ascii.eqb a b && startswith s' p'
  end.

(** [s[:n]] and [s[n:]] for [0 <= n]. *)
Fixpoint take (n : nat) (s : string) : string :=
  match n, s with
  | O, _ => EmptyString
  | S _, EmptyString => EmptyString
  | S k, String c t => String c (take k t)
  end.

Fixpoint drop (n : nat) (s : string) : string :=
  match n, s with
  | O, _ => s
  | S _, EmptyString => EmptyString
  | S k, String _ t => drop k t
  end.

(** [s.endswith(p)] *)
Definition endswith (s p : string) : bool :=
  (len p <=? len s)%nat && String.eqb (drop (len s - len p) s) p.

(** [p in s] *)
Fixpoint contains (s p : string) : bool :=
  startswith s p ||
  match s with
  | EmptyString => false
  | String _ t => contains t p
  end.

(** [s.find(p)]; [None] stands for Python's [-1]. *)
Fixpoint find (s p : string) : option nat :=
  if startswith s p then Some 0
  else match s with
       | EmptyString => None
       | String _ t => option_map S (find t p)
       end.

(** [s.count(c)] for a one-character needle. *)
Fixpoint count_char (c : ascii) (s : string) : nat :=
  match s with
  | EmptyString => 0
  | String a t => (if Ascii.eqb a c then 1 else 0) + count_char c t
  end.

(** [s[n]] *)
Definition get (n : nat) (s : string) : option ascii := String.get n s.

(** [' ' * n] *)
Fixpoint spaces (n : nat) : string :=
  match n with
  | O => EmptyString
  | S k => String " " (spaces k)
  end.

(** [sep.join(parts)] *)
Definition join (sep : string) (parts : list string) : string :=
  String.concat sep parts.

(** [s.split(sep)] for a one-character separator: never the empty list. *)
Fixpoint split_char (sep : ascii) (s : string) : list string :=
  match s with
  | EmptyString => [EmptyString]
  | String c t =>
      if Ascii.eqb c sep then EmptyString :: split_char sep t
      else match split_char sep t with
           | [] => [String c EmptyString]
           | h :: r => String c h :: r
           end
  end.

(** [s.split(sep)] for a non-empty separator string: matches are taken
    left to right without overlap; [skip] counts the characters of a
    separator occurrence still to be passed over. *)
Fixpoint split_str_aux (sep : string) (skip : nat) (s : string)
  : list string :=
  match s with
  | EmptyString => [EmptyString]
  | String c t =>
      match skip with
      | S k => split_str_aux sep k t
      | O =>
          if startswith s sep
          then match len sep with
               | S (S k) => EmptyString :: split_str_aux sep (S k) t
               | _ => EmptyString :: split_str_aux sep 0 t
               end
          else match split_str_aux sep 0 t with
               | [] => [String c EmptyString]
               | h :: r => String c h :: r
               end
      end
  end.

Definition split_str (sep s : string) : list string :=
  split_str_aux sep 0 s.

(** [s.split()]: the maximal runs of non-whitespace characters.
    [words_aux s] is the word [s] starts with (empty when [s] starts with
    whitespace or is empty) and the words after it. *)
Fixpoint words_aux (s : string) : string * list string :=
  match s with
  | EmptyString => (EmptyString, [])
  | String c t =>
      let '(w, ws) := words_aux t in
      if isspace c
      then (EmptyString, if is_empty w then ws else w :: ws)
      else (String c w, ws)
  end.

Definition split_ws (s : string) : list string :=
  let '(w, ws) := words_aux s in
  if is_empty w then ws else w :: ws.

(** Width of the leading whitespace: [len(s) - len(s.lstrip())]. *)
Definition indent_of (s : string) : nat := len s - len (lstrip s).

(** [all(c.isspace() for c in s)] *)
Fixpoint all_space (s : string) : bool :=
  match s with
  | EmptyString => true
  | String c t => isspace c && all_space t
  end.

(** The maximal leading whitespace run, as text. *)
Fixpoint leading_ws (s : string) : string :=
  match s with
  | EmptyString => EmptyString
  | String c t => if isspace c then String c (leading_ws t) else EmptyString
  end.

(** Last character of a string. *)
Fixpoint last_char (s : string) : option ascii :=
  match s with
  | EmptyString => None
  | String c EmptyString => Some c
  | String _ t => last_char t
  end.

(** [list.index(x)]: position of the first element equal to [x]. *)
Fixpoint list_index (x : string) (l : list string) : option nat :=
  match l with
  | [] => None
  | y :: r => if String.eqb y x then Some 0 else option_map S (list_index x r)
  end.

(** [x in l] for a list of strings. *)
Definition mem (x : string) (l : list string) : bool :=
  existsb (String.eqb x) l.

(** [s.lower()] on the letters A..Z. *)
Definition lower_char (c : ascii) : ascii :=
  let n := nat_of_ascii c in
  if ((65 <=? n) && (n <=? 90))%nat then ascii_of_nat (n + 32) else c.

Fixpoint lower (s : string) : string :=
  match s with
  | EmptyString => EmptyString
  | String c t => String (lower_char c) (lower t)
  end.

(** [s.rsplit(c, 1)] when [c] occurs in [s]: the text before and after
    the last occurrence. *)
Fixpoint rsplit1 (x : ascii) (s : string) : option (string * string) :=
  match s with
  | EmptyString => None
  | String c t =>
      match rsplit1 x t with
      | Some (a, b) => Some (String c a, b)
      | None => if Ascii.eqb c x then Some (EmptyString, t) else None
      end
  end.

(** [s.rfind(c, 0, stop)]: the last position of [c] below [stop]. *)
Definition rfind_char (x : ascii) (s : string) (stop : nat) : option nat :=
  option_map (fun ab => len (fst ab)) (rsplit1 x (take stop s)).

(** [f.readlines()] on the text of a file: the lines, each with its
    newline. *)
Fixpoint readlines (s : string) : list string :=
  match s with
  | EmptyString => []
  | String c t =>
      if Ascii.eqb c (ascii_of_nat 10)
      then String c EmptyString :: readlines t
      else match readlines t with
           | [] => [String c EmptyString]
           | h :: r => String c h :: r
           end
  end.

(** [parts[k]] *)
Definition item (k : nat) (parts : list string) : option string :=
  nth_error parts k.

End Py.

(** Characters that a string literal cannot hold conveniently. *)
Definition nl : string := String (ascii_of_nat 10) EmptyString.
Definition dquote : string := String (ascii_of_nat 34) EmptyString.
Definition backslash : string := String (ascii_of_nat 92) EmptyString.

(** A document given by its lines: the lines joined by newlines. *)
Definition doc (lines : list string) : string := Py.join nl lines.

(* ================================================================== *)
(** * Regular-expression fragments shared by the scripts *)
(* ================================================================== *)

Module Re.

(** [\s+(.+)$] anchored at the start of [s], on text without a newline:
    the captured group.  [\s+] is greedy and gives one character back
    when nothing but whitespace follows. *)
Definition ws_plus_rest (s : string) : option string :=
  let w := Py.leading_ws s in
  let r := Py.lstrip s in
  if Py.is_empty w then None
  else if negb (Py.is_empty r) then Some r
  else match Py.last_char w with
       | Some c => if (2 <=? Py.len w)%nat then Some (String c EmptyString)
                   else None
       | None => None
       end.

(** [\s*(.+)$] anchored at the start of [s], on text without a newline. *)
Definition ws_star_rest (s : string) : option string :=
  let w := Py.leading_ws s in
  let r := Py.lstrip s in
  if negb (Py.is_empty r) then Some r
  else match Py.last_char w with
       | Some c => Some (String c EmptyString)
       | None => None
       end.

(** [re.match] of a list item: leading [\s*] and [- ] (group 1), then
    [(.+)$] (group 2): the groups (list prefix, list content). *)
Definition list_item (line : string) : option (string * string) :=
  let rest := Py.lstrip line in
  if Py.startswith rest "- " && negb (Py.is_empty (Py.drop 2 rest))
  then Some (Py.leading_ws line ++ "- ", Py.drop 2 rest)
  else None.

(** The text before the first occurrence of character [x], when there
    is one. *)
Fixpoint until_char (x : ascii) (s : string) : option string :=
  match s with
  | EmptyString => None
  | String c t =>
      if Ascii.eqb c x then Some EmptyString
      else option_map (String c) (until_char x t)
  end.

(** The maximal leading run of characters satisfying [p]. *)
Fixpoint span (p : ascii -> bool) (s : string) : string :=
  match s with
  | EmptyString => EmptyString
  | String c t => if p c then String c (span p t) else EmptyString
  end.

Definition is_upper (c : ascii) : bool :=
  let n := nat_of_ascii c in ((65 <=? n) && (n <=? 90))%nat.

Definition is_digit (c : ascii) : bool :=
  let n := nat_of_ascii c in ((48 <=? n) && (n <=? 57))%nat.

(** [[A-Z_]] and [[A-Z0-9_]] *)
Definition upper_us (c : ascii) : bool := is_upper c || Ascii.eqb c "_".
Definition upper_digit_us (c : ascii) : bool :=
  is_upper c || is_digit c || Ascii.eqb c "_".

End Re.

(* ================================================================== *)
(** * scripts/fix-yaml-lint.py : [fix_yaml_content] *)
(* ================================================================== *)

Module Lint.

(** Line 18: the guard of the document-start marker. *)
Definition needs_marker (i : nat) (line : string) : bool :=
  (i =? 0)%nat && Py.truthy (Py.strip line)
  && negb (Py.startswith (Py.strip line) "---").

(** Line 27, [re.match]: leading [\s*] (group 1), then [on:], then
    [\s*$]. *)
Definition match_on_key (line : string) : bool :=
  let rest := Py.lstrip line in
  Py.startswith rest "on:" && Py.all_space (Py.drop 3 rest).

(** Line 31, [re.match]: leading [\s*] (group 1), then [on:], then
    [\s+], then [(.+)$] (group 2): the groups (indent, value). *)
Definition match_on_inline (line : string) : option (string * string) :=
  let rest := Py.lstrip line in
  if Py.startswith rest "on:" then
    match Re.ws_plus_rest (Py.drop 3 rest) with
    | Some v => Some (Py.leading_ws line, v)
    | None => None
    end
  else None.

Definition trigger_names : list string :=
  ["push"; "pull_request"; "schedule"; "workflow_dispatch"].

(** Lines 31-39: quote the value of an inline [on: value]. *)
Definition quote_on (line : string) : string :=
  match match_on_inline line with
  | Some (indent, value) =>
      if negb (Py.startswith value dquote || Py.startswith value "'"
               || Py.startswith value "[")
      then if Py.mem value trigger_names
           then indent ++ "on: " ++ dquote ++ value ++ dquote
           else line
      else line
  | None => line
  end.

(** The loop of lines 50-55: number of [' '] characters that end [s]. *)
Definition trailing_blanks (s : string) : nat :=
  Py.len s - Py.len (Py.rstrip_char " " s).

(** Lines 42-58: at least two spaces before a trailing comment. *)
Definition fix_comment_spacing (line : string) : string :=
  if Py.contains line "#" && negb (Py.startswith (Py.strip line) "#") then
    match Py.find line "#" with
    | Some comment_pos =>
        let before_comment := Py.take comment_pos line in
        let comment := Py.drop comment_pos line in
        if Py.endswith before_comment " "
        then if (trailing_blanks before_comment =? 1)%nat
             then before_comment ++ " " ++ comment
             else line
        else line
    | None => line
    end
  else line.

(** The word loops of lines 87-95 and 114-122: [cur] is [current_line];
    the result is the lines appended by the loop and the final
    [current_line]. *)
Fixpoint wrap_loop (continuation_indent cur : string) (ws : list string)
  : list string * string :=
  match ws with
  | [] => ([], cur)
  | word :: r =>
      if (Py.len (cur ++ " " ++ word) <=? 80)%nat
      then wrap_loop continuation_indent (cur ++ " " ++ word) r
      else let '(out, last) :=
             wrap_loop continuation_indent (continuation_indent ++ word) r in
           (cur :: out, last)
  end.

Definition wrap_words (continuation_indent first : string)
           (ws : list string) : list string :=
  let '(out, last) := wrap_loop continuation_indent first ws in
  if Py.truthy (Py.strip last) then (out ++ [last])%list else out.

(** What the long-line block does with a line: it appends lines and
    continues with the next line, falls through to the bracket fix, or
    fails on [words[0]]. *)
Inductive outcome : Type :=
| Continue (emitted : list string)
| Fallthrough
| IndexError.

(** Lines 62-66 *)
Definition expr_protected (line : string) : bool :=
  Py.contains line "${{" && Py.contains line "}}".

(** Lines 68-71 *)
Definition shell_protected (line : string) : bool :=
  Py.contains line "|" && (Py.contains line "bash" || Py.contains line "shell").

(** Lines 74-96: key-value pairs. *)
Definition split_mapping (line : string) : outcome :=
  if Py.contains line ": " && negb (Py.startswith (Py.lstrip line) "- ") then
    match Py.find line ": " with
    | Some colon_pos =>
        if (0 <? colon_pos)%nat && (colon_pos <? 60)%nat then
          let key := Py.take (colon_pos + 1) line in
          let value := Py.drop (colon_pos + 2) line in
          if (40 <? Py.len value)%nat && Py.contains value " " then
            match Py.split_ws value with
            | [] => IndexError
            | w0 :: ws =>
                let indent := Py.indent_of line in
                Continue (wrap_words (Py.spaces (indent + 2))
                                     (key ++ " " ++ w0) ws)
            end
          else Fallthrough
        else Fallthrough
    | None => Fallthrough
    end
  else Fallthrough.

(** Line 106, [re.match]: [[^:]+] and [: ] (group 1), then [(.+)$]
    (group 2): the groups (key_part, val_part). *)
Definition match_key_val (s : string) : option (string * string) :=
  match Re.until_char ":" s with
  | Some k =>
      let after := Py.drop (Py.len k) s in
      if negb (Py.is_empty k) && Py.startswith after ": "
         && negb (Py.is_empty (Py.drop 2 after))
      then Some (k ++ ": ", Py.drop 2 after)
      else None
  | None => None
  end.

(** Lines 99-123: list items. *)
Definition split_list_item (line : string) : outcome :=
  if Py.startswith (Py.lstrip line) "- " && (80 <? Py.len line)%nat then
    match Re.list_item line with
    | Some (list_prefix, list_content) =>
        if Py.contains list_content ": " then
          match match_key_val list_content with
          | Some (key_part, val_part) =>
              if (40 <? Py.len val_part)%nat then
                if Py.contains val_part " " then
                  match Py.split_ws val_part with
                  | [] => IndexError
                  | w0 :: ws =>
                      Continue
                        (wrap_words
                           (Py.spaces (Py.len list_prefix) ++ " ")
                           (list_prefix ++ key_part ++ w0) ws)
                  end
                else Fallthrough
              else Fallthrough
          | None => Fallthrough
          end
        else Fallthrough
    | None => Fallthrough
    end
  else Fallthrough.

(** Lines 61-123 *)
Definition handle_long (line : string) : outcome :=
  if (80 <? Py.len line)%nat && negb (Py.startswith (Py.strip line) "#") then
    if expr_protected line then Continue [line]
    else if shell_protected line then Continue [line]
    else match split_mapping line with
         | Fallthrough => split_list_item line
         | o => o
         end
  else Fallthrough.

(** The replacement function of line 127, applied to group 1. *)
Definition bracket_repl (group1 : string) : string :=
  "[" ++ Py.join ", " (map Py.strip (Py.split_char "," group1)) ++ "]".

(** Group 1 of the pattern of line 127 (an opening bracket, [\s*], the
    group [[^]]+], [\s*], a closing bracket) when [t] is the text between the
    bracket and the next closing bracket: the leading whitespace goes to
    [\s*], except that one character is kept when [t] is all
    whitespace. *)
Definition bracket_group (t : string) : string :=
  if Py.is_empty (Py.lstrip t) then
    match Py.last_char t with
    | Some c => String c EmptyString
    | None => EmptyString
    end
  else Py.lstrip t.

(** Line 127, [re.sub] with that pattern; [skip] counts the
    characters of the current match still to be passed over. *)
Fixpoint bracket_sub (skip : nat) (s : string) : string :=
  match s with
  | EmptyString => EmptyString
  | String c t =>
      match skip with
      | S k => bracket_sub k t
      | O =>
          if Ascii.eqb c "[" then
            match Re.until_char "]" t with
            | Some inner =>
                if Py.is_empty inner then String c (bracket_sub 0 t)
                else bracket_repl (bracket_group inner)
                     ++ bracket_sub (S (Py.len inner)) t
            | None => String c (bracket_sub 0 t)
            end
          else String c (bracket_sub 0 t)
      end
  end.

(** Lines 126-127 *)
Definition fix_brackets (line : string) : string :=
  if Py.contains line "[" && Py.contains line "]"
     && negb (Py.startswith (Py.strip line) "#")
  then bracket_sub 0 line
  else line.

(** One iteration of the loop of lines 14-129: the lines appended to
    [fixed_lines], or [None] when the iteration raises. *)
Definition process_line (i : nat) (line : string) : option (list string) :=
  if needs_marker i line then Some ["---"; line]
  else
    let line := Py.rstrip line in
    if match_on_key line then Some [line]
    else
      let line := quote_on line in
      let line := fix_comment_spacing line in
      match handle_long line with
      | Continue out => Some out
      | IndexError => None
      | Fallthrough => Some [fix_brackets line]
      end.

Fixpoint process_lines (i : nat) (lines : list string)
  : option (list string) :=
  match lines with
  | [] => Some []
  | line :: rest =>
      match process_line i line, process_lines (S i) rest with
      | Some out, Some outs => Some (out ++ outs)%list
      | _, _ => None
      end
  end.

(** Lines 131-136 *)
Definition finish (fixed_lines : list string) : string :=
  let result := Py.join nl fixed_lines in
  if negb (Py.endswith result nl) then result ++ nl
  else if Py.endswith result (nl ++ nl)
       then Py.rstrip_char (ascii_of_nat 10) result ++ nl
       else result.

(** [fix_yaml_content(content)] *)
Definition fix_yaml_content (content : string) : option string :=
  option_map finish (process_lines 0 (Py.split_char (ascii_of_nat 10) content)).

End Lint.

(* ================================================================== *)
(** * scripts/fix-yaml-lint-v2.py : [fix_yaml_content] *)
(* ================================================================== *)

Module LintV2.

(** Line 19 *)
Definition needs_marker (i : nat) (line : string) : bool :=
  (i =? 0)%nat && Py.truthy (Py.strip line)
  && negb (Py.startswith (Py.strip line) "---").

Definition truthy_keys : list string :=
  ["on"; "push"; "pull_request"; "schedule"; "workflow_dispatch"].

(** Line 29, [re.match]: leading [\s*], one of the five keys, a colon,
    then [\s*$]. *)
Definition truthy_match (line : string) : bool :=
  let rest := Py.lstrip line in
  existsb (fun k => Py.startswith rest (k ++ ":")
                    && Py.all_space (Py.drop (Py.len k + 1) rest))
          truthy_keys.

(** Lines 37-54: the corrected line and the number of fixes counted. *)
Definition fix_comment_spacing (line : string) : string * nat :=
  if Py.contains line "#" && negb (Py.startswith (Py.strip line) "#") then
    match Py.find line "#" with
    | Some comment_pos =>
        let before_comment := Py.take comment_pos line in
        let comment := Py.drop comment_pos line in
        if Py.endswith before_comment " "
           && negb (Py.endswith before_comment "  ")
        then if (Lint.trailing_blanks before_comment =? 1)%nat
             then (before_comment ++ " " ++ comment, 1)
             else (line, 0)
        else (line, 0)
    | None => (line, 0)
    end
  else (line, 0).

(** Line 61 *)
Definition expr_protected (line : string) : bool :=
  Py.contains line "${{" && Py.contains line "}}".

(** Line 66 *)
Definition shell_protected (line : string) : bool :=
  existsb (Py.contains line) ["|"; "&&"; "||"; "bash -c"; "shell:"].

(** Line 82: [any(char in value for char in ...)] *)
Definition has_risky (value : string) : bool :=
  existsb (Py.contains value) ["${{"; "}}"; "|"; "&"].

(** Lines 97-102: the first line and [remaining_words]. *)
Fixpoint first_loop (words : list string) (cur : string) (ws : list string)
  : string * list string :=
  match ws with
  | [] => (cur, [])
  | word :: r =>
      if (Py.len (cur ++ " " ++ word) <=? 80)%nat
      then first_loop words (cur ++ " " ++ word) r
      else match Py.list_index word words with
           | Some k => (cur, skipn k words)
           | None => (cur, [])
           end
  end.

(** Lines 107-116: the continuation lines. *)
Fixpoint cont_loop (continuation_indent cont : string) (ws : list string)
  : list string :=
  match ws with
  | [] => if Py.truthy (Py.strip cont) then [Py.rstrip cont] else []
  | word :: r =>
      if (Py.len (cont ++ word ++ " ") <=? 80)%nat
      then cont_loop continuation_indent (cont ++ word ++ " ") r
      else ((if Py.truthy (Py.strip cont) then [Py.rstrip cont] else [])
            ++ cont_loop continuation_indent
                         (continuation_indent ++ word ++ " ") r)%list
  end.

(** What the long-line block does with a line (emitted lines and fixes
    counted), as in [Lint.outcome]. *)
Inductive outcome : Type :=
| Continue (emitted : list string) (fixes : nat)
| Fallthrough
| IndexError.

(** Lines 81-88: strategy 1, the folded scalar. *)
Definition fold_applies (value : string) : bool :=
  (50 <? Py.len value)%nat && negb (has_risky value)
  && Py.contains value " " && negb (Py.startswith value dquote).

Definition fold_lines (indent : nat) (key value : string) : list string :=
  [ Py.spaces indent ++ Py.strip key ++ ": >";
    Py.spaces (indent + 2) ++ Py.strip value ].

(** Lines 71-121 *)
Definition split_mapping (line : string) : outcome :=
  if Py.contains line ": " && negb (Py.startswith (Py.lstrip line) "- ") then
    match Py.find line ": " with
    | Some colon_pos =>
        if (0 <? colon_pos)%nat && (colon_pos <? 60)%nat then
          let key := Py.take (colon_pos + 1) line in
          let value := Py.drop (colon_pos + 2) line in
          let indent := Py.indent_of line in
          if fold_applies value then Continue (fold_lines indent key value) 1
          else if Py.contains value " " && (40 <? Py.len value)%nat then
            match Py.split_ws value with
            | [] => IndexError
            | w0 :: ws =>
                let continuation_indent := Py.spaces (indent + 2) in
                let '(current_line, remaining_words) :=
                  first_loop (w0 :: ws) (key ++ " " ++ w0) ws in
                match remaining_words with
                | [] => Fallthrough
                | _ :: _ =>
                    Continue (current_line ::
                              cont_loop continuation_indent
                                        continuation_indent remaining_words) 1
                end
            end
          else Fallthrough
        else Fallthrough
    | None => Fallthrough
    end
  else Fallthrough.

(** Lines 124-141 *)
Definition split_list_item (line : string) : outcome :=
  if Py.startswith (Py.lstrip line) "- " && (80 <? Py.len line)%nat then
    match Re.list_item line with
    | Some (list_prefix, list_content) =>
        if Py.contains list_content ": " && Py.contains list_content " " then
          match Py.find list_content ": " with
          | Some key_val_pos =>
              if (0 <? key_val_pos)%nat then
                let key_part := Py.take (key_val_pos + 1) list_content in
                let val_part := Py.drop (key_val_pos + 2) list_content in
                if (30 <? Py.len val_part)%nat && Py.contains val_part " "
                then Continue
                       [ list_prefix ++ key_part;
                         Py.spaces (Py.len list_prefix) ++ " " ++ val_part ] 1
                else Fallthrough
              else Fallthrough
          | None => Fallthrough
          end
        else Fallthrough
    | None => Fallthrough
    end
  else Fallthrough.

(** Lines 57-141 *)
Definition handle_long (line : string) : outcome :=
  if (80 <? Py.len line)%nat && negb (Py.startswith (Py.strip line) "#") then
    if expr_protected line then Continue [line] 0
    else if shell_protected line then Continue [line] 0
    else match split_mapping line with
         | Fallthrough => split_list_item line
         | o => o
         end
  else Fallthrough.

(** What one iteration appends after the marker decision (lines 24-143):
    the lines and the fixes counted.  The comparison of line 25 is between
    [line.rstrip()] and [original_line.rstrip()], two equal strings, and
    never counts. *)
Definition rewrite_line (line0 : string) : option (list string * nat) :=
  let line := Py.rstrip line0 in
  let c0 := if String.eqb line (Py.rstrip line0) then 0 else 1 in
  if truthy_match line then Some ([line], c0)
  else
    let '(line, c1) := fix_comment_spacing line in
    match handle_long line with
    | Continue out c2 => Some (out, c0 + c1 + c2)
    | IndexError => None
    | Fallthrough => Some ([line], c0 + c1)
    end.

(** One iteration of the loop of lines 15-143. *)
Definition process_line (i : nat) (line : string)
  : option (list string * nat) :=
  match rewrite_line line with
  | Some (out, c) =>
      if needs_marker i line then Some ("---" :: out, S c) else Some (out, c)
  | None => None
  end.

Fixpoint process_lines (i : nat) (lines : list string)
  : option (list string * nat) :=
  match lines with
  | [] => Some ([], 0)
  | line :: rest =>
      match process_line i line, process_lines (S i) rest with
      | Some (out, c), Some (outs, cs) => Some ((out ++ outs)%list, c + cs)
      | _, _ => None
      end
  end.

(** Lines 146-152 *)
Definition finish (fixed_lines : list string) : string * nat :=
  let result := Py.join nl fixed_lines in
  if negb (Py.endswith result nl) then (result ++ nl, 1)
  else if Py.endswith result (nl ++ nl)
       then (Py.rstrip_char (ascii_of_nat 10) result ++ nl, 1)
       else (result, 0).

(** [fix_yaml_content(content)]: the result and [issues_fixed]. *)
Definition fix_yaml_content (content : string) : option (string * nat) :=
  match process_lines 0 (Py.split_char (ascii_of_nat 10) content) with
  | Some (fixed_lines, c) =>
      let '(result, c') := finish fixed_lines in Some (result, c + c')
  | None => None
  end.

End LintV2.

(* ================================================================== *)
(** * scripts/fix-yaml-aggressive.py : [aggressively_fix_line_lengths] *)
(* ================================================================== *)

Module Aggressive.

(** Line 27 *)
Definition skipped (line : string) : bool :=
  Py.startswith (Py.strip line) "#"
  || (Py.contains line "${{" && Py.contains line "}}").

(** Lines 74-81: the word loop of a simple list item. *)
Definition wrap_words (continuation_indent first : string)
           (ws : list string) : list string :=
  let '(out, last) := Lint.wrap_loop continuation_indent first ws in
  (out ++ [last])%list.

(** Lines 86-87, [re.match]: leading [\s+] (group 1), then
    [[A-Z_][A-Z0-9_]*:] (group 2), then [\s+], then [(.+)$] (group 3). *)
Definition match_env_var (line : string)
  : option (string * string * string) :=
  let sp := Py.leading_ws line in
  let rest := Py.lstrip line in
  match rest with
  | String c t =>
      if negb (Py.is_empty sp) && Re.upper_us c then
        let name := String c (Re.span Re.upper_digit_us t) in
        let after := Py.drop (Py.len name) rest in
        if Py.startswith after ":" then
          match Re.ws_plus_rest (Py.drop 1 after) with
          | Some value => Some (sp, name ++ ":", value)
          | None => None
          end
        else None
      else None
  | EmptyString => None
  end.

(** Lines 125-128: the last blank among the positions
    [range(70, min(80, len(line)))]; [pos] runs over the range. *)
Fixpoint scan_break (line : string) (pos n : nat) (break_pos : option nat)
  : option nat :=
  match n with
  | O => break_pos
  | S k =>
      scan_break line (S pos) k
        (match Py.get pos line with
         | Some c => if Ascii.eqb c " " then Some pos else break_pos
         | None => break_pos
         end)
  end.

Definition find_break (line : string) : option nat :=
  scan_break line 70 (Nat.min 80 (Py.len line) - 70) None.

(** Lines 39-120, the pattern chain: [Fixed] when [fixed] is set, with
    the lines appended; [IndexError] for the failure of [words[0]]. *)
Inductive outcome : Type :=
| Fixed (emitted : list string)
| NotFixed
| IndexError.

Definition patterns (line : string) : outcome :=
  let indent := Py.indent_of line in
  let indent_str := Py.spaces indent in
  if Py.contains line ": " && negb (Py.startswith (Py.lstrip line) "- ") then
    (* Pattern 1 *)
    match Py.find line ": " with
    | Some colon_pos =>
        if (colon_pos <? 60)%nat then
          let key := Py.take colon_pos line in
          let value := Py.drop (colon_pos + 2) line in
          if (30 <? Py.len value)%nat
          then Fixed [key ++ ": >"; indent_str ++ "  " ++ value]
          else NotFixed
        else NotFixed
    | None => NotFixed
    end
  else if Py.startswith (Py.lstrip line) "- " then
    (* Pattern 2 *)
    match Re.list_item line with
    | Some (list_marker, content) =>
        if Py.contains content ": " then
          match Py.find content ": " with
          | Some colon_pos =>
              let key_part := Py.take (colon_pos + 1) content in
              let value_part := Py.drop (colon_pos + 2) content in
              if (30 <? Py.len value_part)%nat
              then Fixed [ list_marker ++ key_part;
                           Py.spaces (Py.len list_marker) ++ "  "
                           ++ value_part ]
              else NotFixed
          | None => NotFixed
          end
        else
          match Py.split_ws content with
          | [] => IndexError
          | w0 :: ws =>
              Fixed (wrap_words (Py.spaces (Py.len list_marker))
                                (list_marker ++ w0) ws)
          end
    | None => NotFixed
    end
  else match match_env_var line with
  | Some (sp, var_name, value) =>
      (* Pattern 3 *)
      Fixed [sp ++ var_name ++ " >"; sp ++ "  " ++ value]
  | None =>
      if Py.contains line "http" || Py.contains line "arn:aws:" then
        (* Pattern 4 *)
        if Py.contains line ": " then
          match Py.find line ": " with
          | Some colon_pos =>
              let key := Py.take colon_pos line in
              let value := Py.drop (colon_pos + 2) line in
              if Py.contains value "://" || Py.contains value "arn:aws:"
              then Fixed [key ++ ": >"; indent_str ++ "  " ++ value]
              else NotFixed
          | None => NotFixed
          end
        else NotFixed
      else if Py.contains line "run:" then
        (* Pattern 5 *)
        match Py.find line "run:" with
        | Some run_pos =>
            let prefix := Py.take run_pos line in
            let run_content := Py.strip (Py.drop (run_pos + 4) line) in
            if (40 <? Py.len run_content)%nat
            then Fixed [prefix ++ "run: >"; indent_str ++ "  " ++ run_content]
            else NotFixed
        | None => NotFixed
        end
      else NotFixed
  end.

(** Lines 123-136: the fallback. *)
Definition fallback (line : string) : option (list string) :=
  if Py.contains line " " && (80 <? Py.len line)%nat then
    match find_break line with
    | Some break_pos =>
        if (0 <? break_pos)%nat
        then Some [ Py.take break_pos line;
                    Py.spaces (Py.indent_of line) ++ "  "
                    ++ Py.drop (break_pos + 1) line ]
        else None
    | None => None
    end
  else None.

(** One iteration of the loop of lines 15-140: the lines appended and
    the increment of [issues_fixed]. *)
Definition process_line (line0 : string) : option (list string * nat) :=
  let line := Py.rstrip line0 in
  if (Py.len line <=? 80)%nat then Some ([line], 0)
  else if skipped line then Some ([line], 0)
  else match patterns line with
       | Fixed out => Some (out, 1)
       | IndexError => None
       | NotFixed =>
           match fallback line with
           | Some out => Some (out, 1)
           | None => Some ([line], 0)
           end
       end.

Fixpoint process_lines (lines : list string) : option (list string * nat) :=
  match lines with
  | [] => Some ([], 0)
  | line :: rest =>
      match process_line line, process_lines rest with
      | Some (out, c), Some (outs, cs) => Some ((out ++ outs)%list, c + cs)
      | _, _ => None
      end
  end.

(** Lines 142-144 *)
Definition finish (fixed_lines : list string) : string :=
  let result := Py.join nl fixed_lines in
  if negb (Py.endswith result nl) then result ++ nl else result.

(** [aggressively_fix_line_lengths(content)]: the result and
    [issues_fixed]. *)
Definition aggressively_fix_line_lengths (content : string)
  : option (string * nat) :=
  match process_lines (Py.split_char (ascii_of_nat 10) content) with
  | Some (fixed_lines, c) => Some (finish fixed_lines, c)
  | None => None
  end.

End Aggressive.

(* ================================================================== *)
(** * scripts/fix-yaml-comprehensive.py : [fix_yaml_file] *)
(* ================================================================== *)

Module Comprehensive.

(** Line 41, [re.sub]: an opening bracket, [\s+], a closing bracket
    becomes [[]]. *)
Fixpoint empty_brackets (skip : nat) (s : string) : string :=
  match s with
  | EmptyString => EmptyString
  | String c t =>
      match skip with
      | S k => empty_brackets k t
      | O =>
          let w := Py.leading_ws t in
          if Ascii.eqb c "[" && negb (Py.is_empty w)
             && Py.startswith (Py.lstrip t) "]"
          then "[]" ++ empty_brackets (S (Py.len w)) t
          else String c (empty_brackets 0 t)
      end
  end.

Definition truthy_words : list string :=
  ["on"; "off"; "yes"; "no"; "On"; "Off"; "Yes"; "No";
   "ON"; "OFF"; "YES"; "NO"].

(** Lines 44-46: [truthy_map.get(w.lower(), w.lower())]. *)
Definition truthy_map (w : string) : string :=
  let k := Py.lower w in
  if String.eqb k "on" then "true"
  else if String.eqb k "off" then "false"
  else if String.eqb k "yes" then "true"
  else if String.eqb k "no" then "false"
  else k.

(** The pattern of line 47 anchored at a colon, [after] being the text
    that follows the colon: [\s+], one of the twelve words, [\s*$]. *)
Definition truthy_tail (after : string) : option string :=
  if Py.is_empty (Py.leading_ws after) then None
  else
    let rest := Py.lstrip after in
    find (fun w => Py.startswith rest w
                   && Py.all_space (Py.drop (Py.len w) rest))
         truthy_words.

(** Line 47, [re.sub]: the leftmost colon at which the pattern matches
    is replaced, with the rest of the line. *)
Fixpoint fix_truthy (s : string) : string :=
  match s with
  | EmptyString => EmptyString
  | String c t =>
      if Ascii.eqb c ":" then
        match truthy_tail t with
        | Some w => ": " ++ truthy_map w
        | None => String c (fix_truthy t)
        end
      else String c (fix_truthy t)
  end.

(** Lines 50-68 *)
Definition handle_long (line : string) : list string :=
  if (80 <? Py.len line)%nat && Py.contains line ":"
     && negb (Py.startswith (Py.strip line) "#") then
    if Py.contains line " - " || Py.contains line "run: |" then [line]
    else if (Py.count_char ":" line =? 1)%nat
            && negb (Py.contains line "|") && negb (Py.contains line ">")
    then
      match Py.find line ":" with
      | Some p =>
          let key := Py.take p line in
          let value := Py.strip (Py.drop (p + 1) line) in
          if (60 <? Py.len value)%nat then
            let indent := Py.indent_of key in
            [key ++ ": >"; Py.spaces (indent + 2) ++ value]
          else [line]
      | None => [line]
      end
    else [line]
  else [line].

(** One iteration of the loop of lines 31-68. *)
Definition process_line (i : nat) (line : string) : list string :=
  if (i =? 0)%nat && String.eqb (Py.strip line) "---" then [line]
  else
    let line := Py.rstrip line in
    let line := empty_brackets 0 line in
    let line := fix_truthy line in
    handle_long line.

Fixpoint process_lines (i : nat) (lines : list string) : list string :=
  match lines with
  | [] => []
  | line :: rest => (process_line i line ++ process_lines (S i) rest)%list
  end.

(** Line 28 *)
Definition marker_missing (content : string) : bool :=
  negb (Py.startswith (Py.strip content) "---").

(** Lines 24-68: [fixed_lines] at the end of the loop. *)
Definition fixed_lines (content : string) : list string :=
  ((if marker_missing content then ["---"] else [])
   ++ process_lines 0 (Py.split_char (ascii_of_nat 10) content))%list.

(** Lines 71-73: the text written back to the file. *)
Definition fixed_content (content : string) : string :=
  let result := Py.join nl (fixed_lines content) in
  if negb (Py.endswith result nl) then result ++ nl else result.

End Comprehensive.

(* ================================================================== *)
(** * scripts/fix-yaml-lint.py : [fix_yaml_file] *)
(* ================================================================== *)

Module LintFile.

(** The pattern of line 166 (an opening bracket, [\s+], the group
    [[^\]]*], [\s+], a closing bracket) on the text [t] between the
    bracket and the next closing bracket: group 1 when it matches.  The
    greedy group gives back exactly one whitespace character. *)
Definition padded_group (t : string) : option string :=
  if Py.is_empty (Py.leading_ws t) then None
  else
    let r := Py.lstrip t in
    if Py.is_empty r
    then if (2 <=? Py.len t)%nat then Some EmptyString else None
    else match Py.last_char r with
         | Some c => if Py.isspace c then Some (Py.take (Py.len r - 1) r)
                     else None
         | None => None
         end.

(** Line 166, [re.sub] with the replacement [[\1]]. *)
Fixpoint unpad_brackets (skip : nat) (s : string) : string :=
  match s with
  | EmptyString => EmptyString
  | String c t =>
      match skip with
      | S k => unpad_brackets k t
      | O =>
          if Ascii.eqb c "[" then
            match Re.until_char "]" t with
            | Some inner =>
                match padded_group inner with
                | Some g => "[" ++ g ++ "]"
                            ++ unpad_brackets (S (Py.len inner)) t
                | None => String c (unpad_brackets 0 t)
                end
            | None => String c (unpad_brackets 0 t)
            end
          else String c (unpad_brackets 0 t)
      end
  end.

(** Lines 165-166 *)
Definition fix_brackets (line : string) : string :=
  if negb (Py.contains line "if [") && negb (Py.contains line "elif [")
  then unpad_brackets 0 line
  else line.

(** Lines 178-210: the folded line and the changes recorded (a [split]
    on a separator that occurs in the line has at least two parts).  [None]
    stands for the [IndexError] of [split(...)[1]]. *)
Definition fold_long (line : string) : option (string * nat) :=
  if (80 <? Py.len (Py.rstrip line))%nat then
    let spaces := Py.spaces (Py.indent_of line) in
    if Py.contains line "role-to-assume:" && Py.contains line "arn:aws:iam::"
    then
      if negb (Py.contains line ">") then
        match Py.item 1 (Py.split_str "role-to-assume:" line) with
        | Some v => Some (spaces ++ "role-to-assume: >" ++ nl ++ spaces
                          ++ "  " ++ Py.strip v ++ nl, 1)
        | None => None
        end
      else Some (line, 0)
    else if Py.contains line "curl -" then
      if negb (Py.contains line backslash) then
        let line_content := Py.strip line in
        if Py.contains line_content "curl -sSfL" then
          let parts := Py.split_str "curl -sSfL " line_content in
          if (1 <? length parts)%nat then
            match Py.item 1 parts with
            | Some p1 => Some (spaces ++ "curl -sSfL " ++ backslash ++ nl
                               ++ spaces ++ "  " ++ p1 ++ nl, 1)
            | None => None
            end
          else Some (line, 0)
        else Some (line, 0)
      else Some (line, 0)
    else if Py.startswith (Py.strip line) "run:" then
      if negb (Py.contains line "|") && negb (Py.contains line ">") then
        match Py.item 1 (Py.split_str "run:" line) with
        | Some v => Some (spaces ++ "run: >" ++ nl ++ spaces ++ "  "
                          ++ Py.strip v ++ nl, 1)
        | None => None
        end
      else Some (line, 0)
    else Some (line, 0)
  else Some (line, 0).

(** One iteration of the loop of lines 155-212: the element appended to
    [fixed_lines] and the number of entries added to [changes_made]. *)
Definition process_line (original_line : string) : option (string * nat) :=
  let line := Py.rstrip original_line ++ nl in
  let c0 := if String.eqb line original_line then 0 else 1 in
  let line := fix_brackets line in
  match fold_long line with
  | Some (line, c1) => Some (line, c0 + c1)
  | None => None
  end.

Fixpoint process_lines (lines : list string) : option (list string * nat) :=
  match lines with
  | [] => Some ([], 0)
  | line :: rest =>
      match process_line line, process_lines rest with
      | Some (out, c), Some (outs, cs) => Some (out :: outs, c + cs)
      | _, _ => None
      end
  end.

(** Line 215: the guard of the document-start marker. *)
Definition marker_missing (fixed_lines : list string) : bool :=
  match fixed_lines with
  | [] => false
  | first :: _ => negb (Py.startswith first "---")
  end.

(** Lines 214-217 *)
Definition add_marker (fixed_lines : list string) : list string * nat :=
  if marker_missing fixed_lines
  then (("---" ++ nl) :: fixed_lines, 1)
  else (fixed_lines, 0).

(** Lines 220-222 *)
Fixpoint final_newline (fixed_lines : list string) : list string * nat :=
  match fixed_lines with
  | [] => ([], 0)
  | [l] => if Py.endswith l nl then ([l], 0) else ([l ++ nl], 1)
  | l :: r => let '(r', c) := final_newline r in (l :: r', c)
  end.

(** [fix_yaml_file] between reading the file and writing it back: the
    text written and the value returned, [len(changes_made)]. *)
Definition fix_yaml_text (content : string) : option (string * nat) :=
  match process_lines (Py.readlines content) with
  | Some (fixed_lines, c) =>
      let '(fixed_lines, c1) := add_marker fixed_lines in
      let '(fixed_lines, c2) := final_newline fixed_lines in
      Some (Py.join EmptyString fixed_lines, c + c1 + c2)
  | None => None
  end.

End LintFile.

(* ================================================================== *)
(** * scripts/fix-yaml-targeted.py : [fix_specific_issues] *)
(* ================================================================== *)

Module Targeted.

(** Lines 39-40, [re.match]: leading [\s+] (group 1), [[A-Z_]+]
    (group 2), a colon, [\s*], then [(.+)$] (group 3).  The pattern of
    line 39 matches the same lines. *)
Definition match_env_var (line : string)
  : option (string * string * string) :=
  let sp := Py.leading_ws line in
  let rest := Py.lstrip line in
  let name := Re.span Re.upper_us rest in
  let after := Py.drop (Py.len name) rest in
  if negb (Py.is_empty sp) && negb (Py.is_empty name)
     && Py.startswith after ":"
  then match Re.ws_star_rest (Py.drop 1 after) with
       | Some value => Some (sp, name, value)
       | None => None
       end
  else None.

(** Line 91 *)
Definition has_risky (value : string) : bool :=
  existsb (Py.contains value) ["${{"; "}}"; "|"; "&&"].

(** Lines 24-96: [Some] when the iteration appends lines, counts one
    fix and continues; [None] when it goes on to line 98.  A [split] on
    a separator that occurs in the line has at least two parts, so that
    the subscripts [0] and [1] are always defined. *)
Definition split_long (line : string) : option (list string) :=
  if (80 <? Py.len line)%nat then
    let indent := Py.indent_of line in
    if Py.contains line "role-to-assume:" && Py.contains line "arn:aws:iam::"
    then
      let parts := Py.split_str "role-to-assume:" line in
      match Py.item 0 parts, Py.item 1 parts with
      | Some p0, Some p1 =>
          Some [ p0 ++ "role-to-assume:";
                 Py.spaces (indent + 2) ++ Py.strip p1 ]
      | _, _ => None
      end
    else match match_env_var line with
    | Some (sp, var_name, value) =>
        if (50 <? Py.len value)%nat
        then Some [sp ++ var_name ++ ": >"; sp ++ "  " ++ value]
        else None
    | None =>
        if Py.contains line "with:" then None
        else if Py.startswith (Py.strip line) "run:" then
          match Py.item 1 (Py.split_str "run:" line) with
          | Some p1 =>
              let run_content := Py.strip p1 in
              if (50 <? Py.len run_content)%nat
                 && negb (Py.contains line "|" || Py.contains line ">")
              then Some [ Py.spaces indent ++ "run: >";
                          Py.spaces (indent + 2) ++ run_content ]
              else None
          | None => None
          end
        else if Py.contains line "uses:" then
          match Py.item 1 (Py.split_str "uses:" line) with
          | Some p1 =>
              let uses_content := Py.strip p1 in
              if Py.contains uses_content "@"
                 && (50 <? Py.len uses_content)%nat
              then match Py.rsplit1 "@" uses_content with
                   | Some (action, version) =>
                       Some [ Py.spaces indent ++ "uses: >";
                              Py.spaces (indent + 2) ++ action ++ "@"
                              ++ version ]
                   | None => None
                   end
              else None
          | None => None
          end
        else if Py.contains line ": " then
          match Py.find line ": " with
          | Some colon_pos =>
              if (colon_pos <? 60)%nat then
                let key := Py.take (colon_pos + 1) line in
                let value := Py.drop (colon_pos + 2) line in
                if (40 <? Py.len value)%nat && Py.contains value " "
                   && negb (has_risky value)
                then Some [ Py.spaces indent ++ Py.strip key ++ ": >";
                            Py.spaces (indent + 2) ++ value ]
                else None
              else None
          | None => None
          end
        else None
    end
  else None.

(** Line 101, [re.match]: exactly nine whitespace characters, then a
    character that is not whitespace. *)
Definition nine_spaces (line : string) : bool :=
  (Py.len (Py.leading_ws line) =? 9)%nat
  && negb (Py.is_empty (Py.lstrip line)).

(** Lines 98-105: the indentation fix, by file name. *)
Definition fix_indent (filename line : string) : string * nat :=
  if String.eqb filename "scan-to-securityhub.yml" then
    if nine_spaces line then
      let fixed_line := " " ++ line in
      if negb (String.eqb fixed_line line) then (fixed_line, 1) else (line, 0)
    else (line, 0)
  else (line, 0).

(** One iteration of the loop of lines 16-108. *)
Definition process_line (filename line : string) : list string * nat :=
  match split_long line with
  | Some out => (out, 1)
  | None =>
      let '(line, c) := fix_indent filename line in
      ([Py.rstrip line], c)
  end.

Fixpoint process_lines (filename : string) (lines : list string)
  : list string * nat :=
  match lines with
  | [] => ([], 0)
  | line :: rest =>
      let '(out, c) := process_line filename line in
      let '(outs, cs) := process_lines filename rest in
      ((out ++ outs)%list, c + cs)
  end.

(** [fix_specific_issues(content, filename)] *)
Definition fix_specific_issues (content filename : string) : string * nat :=
  let '(fixed_lines, c) :=
    process_lines filename (Py.split_char (ascii_of_nat 10) content) in
  let result := Py.join nl fixed_lines in
  if negb (Py.endswith result nl) then (result ++ nl, S c) else (result, c).

(** Lines 127-139 *)
Definition problem_files : list string :=
  [ "sign-and-push.yml"; "terraform-apply.yml"; "dependency-updates.yml";
    "scan-to-securityhub.yml"; "dependabot-guard.yml"; "sbom-sca.yml";
    "ci-build-deploy.yml"; "dast-zap.yml"; "demo-sbom-pipeline.yml";
    "canary-deploy.yml"; "AIsummary.yml" ].

End Targeted.

(* ================================================================== *)
(** * scripts/fix-yaml-final.py : [final_line_fixes] *)
(* ================================================================== *)

Module Final.

(** Lines 27-36: the word loop with shell line continuations. *)
Fixpoint wrap_loop (continuation_indent cur : string) (ws : list string)
  : list string * string :=
  match ws with
  | [] => ([], cur)
  | word :: r =>
      if (Py.len (cur ++ " " ++ word) <=? 75)%nat
      then wrap_loop continuation_indent (cur ++ " " ++ word) r
      else let '(out, last) :=
             wrap_loop continuation_indent (continuation_indent ++ word) r in
           ((cur ++ " " ++ backslash) :: out, last)
  end.

(** Lines 86-87, [re.match]: leading [\s+] (group 1), [[A-Z_]+]
    (group 2), a colon and a blank, then [(.+)$] (group 3). *)
Definition match_env_var (line : string)
  : option (string * string * string) :=
  let sp := Py.leading_ws line in
  let rest := Py.lstrip line in
  let name := Re.span Re.upper_us rest in
  let after := Py.drop (Py.len name) rest in
  if negb (Py.is_empty sp) && negb (Py.is_empty name)
     && Py.startswith after ": " && negb (Py.is_empty (Py.drop 2 after))
  then Some (sp, name, Py.drop 2 after)
  else None.

Inductive outcome : Type :=
| Continue (emitted : list string)
| Fallthrough
| IndexError.

(** Lines 16-93 *)
Definition split_long (line : string) : outcome :=
  if (80 <? Py.len line)%nat then
    let indent := Py.indent_of line in
    if Py.contains line "cosign sign" || Py.contains line "curl -"
       || Py.contains line "docker "
    then
      if negb (Py.contains line backslash) && Py.contains line " " then
        match Py.split_ws line with
        | [] => IndexError
        | w0 :: ws =>
            let '(out, last) := wrap_loop (Py.spaces (indent + 2)) w0 ws in
            Continue (if Py.truthy (Py.strip last)
                      then (out ++ [last])%list else out)
        end
      else Fallthrough
    else if Py.contains line "echo " then
      if negb (Py.contains line backslash) then
        match Py.find line "echo " with
        | Some echo_pos =>
            let prefix := Py.take (echo_pos + 5) line in
            let message := Py.drop (echo_pos + 5) line in
            if (50 <? Py.len message)%nat && Py.contains message " " then
              let mid_point := Nat.div (Py.len message) 2 in
              match Py.rfind_char " " message (mid_point + 20) with
              | Some break_pos =>
                  if (0 <? break_pos)%nat then
                    Continue
                      [ prefix ++ Py.take break_pos message ++ " "
                        ++ backslash;
                        Py.spaces (indent + 2)
                        ++ Py.drop (break_pos + 1) message ]
                  else Fallthrough
              | None => Fallthrough
              end
            else Fallthrough
        | None => Fallthrough
        end
      else Fallthrough
    else if (Py.contains line "http" || Py.contains line "arn:aws:")
            && Py.contains line ": " then
      match Py.find line ": " with
      | Some colon_pos =>
          if (0 <? colon_pos)%nat && (colon_pos <? 60)%nat then
            let key := Py.take (colon_pos + 1) line in
            let value := Py.drop (colon_pos + 2) line in
            Continue [ Py.spaces indent ++ Py.strip key ++ ": >";
                       Py.spaces (indent + 2) ++ value ]
          else Fallthrough
      | None => Fallthrough
      end
    else if Py.startswith (Py.strip line) "run: " then
      match Py.find line "run: " with
      | Some run_pos =>
          Continue [ Py.spaces indent ++ "run: >";
                     Py.spaces (indent + 2) ++ Py.drop (run_pos + 5) line ]
      | None => Fallthrough
      end
    else match match_env_var line with
         | Some (sp, var_name, value) =>
             Continue [sp ++ var_name ++ ": >"; sp ++ "  " ++ value]
         | None => Fallthrough
         end
  else Fallthrough.

Fixpoint process_lines (lines : list string) : option (list string * nat) :=
  match lines with
  | [] => Some ([], 0)
  | line :: rest =>
      match split_long line, process_lines rest with
      | Continue out, Some (outs, cs) => Some ((out ++ outs)%list, S cs)
      | Fallthrough, Some (outs, cs) => Some (line :: outs, cs)
      | _, _ => None
      end
  end.

(** [final_line_fixes(content, filename)]; the file name is not used. *)
Definition final_line_fixes (content filename : string)
  : option (string * nat) :=
  match process_lines (Py.split_char (ascii_of_nat 10) content) with
  | Some (fixed_lines, c) => Some (Py.join nl fixed_lines, c)
  | None => None
  end.

End Final.

(* ================================================================== *)
(** * The batch runners: the [main] functions *)
(* ================================================================== *)

(** The workflow directory is a list of named files.  Opening a file for
    reading raises when the file cannot be read (or decoded), opening it
    for writing raises when it cannot be written.  The runners receive the
    file names in the order in which their loop visits them. *)
Module Batch.

Record file : Type :=
  { content : string; readable : bool; writable : bool }.

Definition dir : Type := list (string * file).

Fixpoint lookup (name : string) (d : dir) : option file :=
  match d with
  | [] => None
  | (n, f) :: r => if String.eqb n name then Some f else lookup name r
  end.

Fixpoint store (name text : string) (d : dir) : dir :=
  match d with
  | [] => []
  | (n, f) :: r =>
      if String.eqb n name
      then (n, {| content := text; readable := readable f;
                  writable := writable f |}) :: r
      else (n, f) :: store name text r
  end.

(** [open(path, 'r')] and [f.read()]; [None] when an exception is
    raised. *)
Definition read_file (d : dir) (name : string) : option string :=
  match lookup name d with
  | Some f => if readable f then Some (content f) else None
  | None => None
  end.

(** [open(path, 'w')] and [f.write(text)]; [None] when an exception is
    raised. *)
Definition write_file (d : dir) (name text : string) : option dir :=
  match lookup name d with
  | Some f => if writable f then Some (store name text d) else None
  | None => None
  end.

(** What a runner prints for a file. *)
Inductive report : Type :=
| Fixed (name : string) (fixes : nat)
| NoFix (name : string)
| Failed (name : string).

(** How a run of [main] ends: it returns, or an exception leaves [main]
    and ends the process. *)
Inductive run : Type :=
| Returned (code : nat) (d : dir) (log : list report) (total : nat)
| Uncaught (d : dir) (log : list report).

Section Runner.

(** The rewrite of one file: its name and text to the new text and the
    number of fixes, [None] when it raises. *)
Variable rewrite : string -> string -> option (string * nat).

(** The body that reads a file, rewrites it and writes it back when
    there are fixes (v2 lines 181-194, final lines 112-121, targeted
    lines 155-167). *)
Definition process_file (d : dir) (name : string) : option (dir * nat) :=
  match read_file d name with
  | None => None
  | Some original =>
      match rewrite name original with
      | None => None
      | Some (fixed, fixes) =>
          if (0 <? fixes)%nat
          then match write_file d name fixed with
               | Some d' => Some (d', fixes)
               | None => None
               end
          else Some (d, 0)
      end
  end.

Definition report_of (name : string) (fixes : nat) : report :=
  if (0 <? fixes)%nat then Fixed name fixes else NoFix name.

(** A loop whose body is wrapped in [try: ... except Exception:]. *)
Fixpoint guarded_loop (names : list string) (d : dir)
         (log : list report) (total : nat) : dir * list report * nat :=
  match names with
  | [] => (d, log, total)
  | name :: rest =>
      match process_file d name with
      | Some (d', fixes) =>
          guarded_loop rest d' (log ++ [report_of name fixes])%list
                       (total + fixes)
      | None => guarded_loop rest d (log ++ [Failed name])%list total
      end
  end.

(** A loop whose body is not wrapped and prints a line for a file only
    when it has fixed something (final lines 111-121: the [print] is
    inside [if fixes > 0:], which has no [else]). *)
Fixpoint bare_loop (names : list string) (d : dir)
         (log : list report) (total : nat) : run :=
  match names with
  | [] => Returned 0 d log total
  | name :: rest =>
      match process_file d name with
      | Some (d', fixes) =>
          bare_loop rest d'
                    (if (0 <? fixes)%nat
                     then (log ++ [Fixed name fixes])%list else log)
                    (total + fixes)
      | None => Uncaught d log
      end
  end.

End Runner.

(** fix-yaml-lint-v2.py, [main], lines 164-211, for the sorted list
    [names] of the YAML files found. *)
Definition main_v2 (names : list string) (d : dir) : run :=
  match names with
  | [] => Returned 1 d [] 0
  | _ =>
      let '(d', log, total) :=
        guarded_loop (fun _ c => LintV2.fix_yaml_content c) names d [] 0 in
      Returned 0 d' log total
  end.

(** fix-yaml-final.py, [main], lines 104-123. *)
Definition main_final (names : list string) (d : dir) : run :=
  bare_loop (fun name c => Final.final_line_fixes c name) names d [] 0.

(** fix-yaml-lint.py, [fix_yaml_file], lines 149-150 and 225-226 around
    the rewrite: the file is always written back. *)
Definition lint_file (d : dir) (name : string) : option (dir * nat) :=
  match read_file d name with
  | None => None
  | Some text =>
      match LintFile.fix_yaml_text text with
      | None => None
      | Some (fixed, changes) =>
          match write_file d name fixed with
          | Some d' => Some (d', changes)
          | None => None
          end
      end
  end.

Fixpoint lint_loop (names : list string) (d : dir)
         (log : list report) (total : nat) : run :=
  match names with
  | [] => Returned 0 d log total
  | name :: rest =>
      match lint_file d name with
      | Some (d', changes) =>
          lint_loop rest d' (log ++ [report_of name changes])%list
                    (total + changes)
      | None => Uncaught d log
      end
  end.

(** fix-yaml-lint.py, [main], lines 247-268. *)
Definition main_lint (names : list string) (d : dir) : run :=
  match names with
  | [] => Returned 1 d [] 0
  | _ => lint_loop names d [] 0
  end.

Definition exists_in (d : dir) (name : string) : bool :=
  match lookup name d with Some _ => true | None => false end.

(** fix-yaml-targeted.py, [main], lines 147-170: the loop runs over the
    given names and skips those that do not exist. *)
Fixpoint targeted_loop (names : list string) (d : dir)
         (log : list report) (total : nat) : dir * list report * nat :=
  match names with
  | [] => (d, log, total)
  | filename :: rest =>
      if negb (exists_in d filename) then targeted_loop rest d log total
      else
        match process_file
                (fun name c => Some (Targeted.fix_specific_issues c name))
                d filename with
        | Some (d', fixes) =>
            targeted_loop rest d' (log ++ [report_of filename fixes])%list
                          (total + fixes)
        | None => targeted_loop rest d (log ++ [Failed filename])%list total
        end
  end.

(** fix-yaml-targeted.py, [main], lines 141-184. *)
Definition main_targeted (d : dir) : run :=
  let '(d', log, total) := targeted_loop Targeted.problem_files d [] 0 in
  Returned 0 d' log total.

(** fix-yaml-aggressive.py, [main], lines 156-196, for a workflow
    directory that exists and the sorted list [names] of its [*.yml]
    files. *)
Definition main_aggressive (names : list string) (d : dir) : run :=
  let '(d', log, total) :=
    guarded_loop (fun _ c => Aggressive.aggressively_fix_line_lengths c)
                 names d [] 0 in
  Returned 0 d' log total.

End Batch.

(* ================================================================== *)
(** * Notions used in the statements, and sample documents *)
(* ================================================================== *)

(** A string is tidy when it does not end with whitespace. *)
Definition tidy (s : string) : bool :=
  match Py.last_char s with
  | Some c => negb (Py.isspace c)
  | None => true
  end.

(** No character of the string is whitespace. *)
Fixpoint no_space (s : string) : bool :=
  match s with
  | EmptyString => true
  | String c t => negb (Py.isspace c) && no_space t
  end.

(** A token: a non-empty word without whitespace. *)
Definition token (w : string) : bool := negb (Py.is_empty w) && no_space w.

(** Every character of the string satisfies [p]. *)
Fixpoint chars_in (p : ascii -> bool) (s : string) : bool :=
  match s with
  | EmptyString => true
  | String c t => p c && chars_in p t
  end.

(** The number of changes a second pass reports on the output of a first
    pass. *)
Definition second_pass (rewrite : string -> option (string * nat))
           (D : string) : option nat :=
  match rewrite D with
  | Some (D1, _) => option_map snd (rewrite D1)
  | None => None
  end.

(** Every line of the document is within the budget of 80 columns once
    its trailing whitespace is removed. *)
Definition within_budget (D : string) : bool :=
  forallb (fun l => (Py.len (Py.rstrip l) <=? 80)%nat)
          (Py.split_char (ascii_of_nat 10) D).

(** A line that fix-yaml-lint-v2.py leaves as it is: it does not end
    with whitespace, is within the budget and needs no comment spacing. *)
Definition settled_line (l : string) : bool :=
  tidy l && (Py.len l <=? 80)%nat
  && (snd (LintV2.fix_comment_spacing l) =? 0)%nat.

(** A document that the rewrite of fix-yaml-lint-v2.py has nothing to do
    on: every line is settled, the first line is blank or begins with the
    marker, and the text ends with exactly one newline. *)
Definition settled_v2 (D : string) : bool :=
  let lines := Py.split_char (ascii_of_nat 10) D in
  forallb settled_line lines
  && negb (LintV2.needs_marker 0 (hd EmptyString lines))
  && Py.endswith D nl && negb (Py.endswith D (nl ++ nl)).

(** The text on which fix-yaml-lint.py tests the length and the
    protection of a line (lines 24-58). *)
Definition lint_normal (line : string) : string :=
  Lint.fix_comment_spacing (Lint.quote_on (Py.rstrip line)).

(** The same for fix-yaml-lint-v2.py (lines 24-54). *)
Definition v2_normal (line : string) : string :=
  fst (LintV2.fix_comment_spacing (Py.rstrip line)).

(** The characters of a line that is a bare [on:] key. *)
Definition on_key_char (c : ascii) : bool :=
  Py.isspace c || Ascii.eqb c "o" || Ascii.eqb c "n" || Ascii.eqb c ":".

(** A set of characters that holds those of a bare trigger key. *)
Definition truthy_key_char (c : ascii) : bool :=
  Py.isspace c || Ascii.eqb c ":" || Ascii.eqb c "_"
  || ((97 <=? nat_of_ascii c) && (nat_of_ascii c <=? 122))%nat.

(** The file a report is about. *)
Definition report_name (r : Batch.report) : string :=
  match r with
  | Batch.Fixed n _ => n
  | Batch.NoFix n => n
  | Batch.Failed n => n
  end.

(** The directory a run leaves behind. *)
Definition final_dir (r : Batch.run) : Batch.dir :=
  match r with
  | Batch.Returned _ d _ _ => d
  | Batch.Uncaught d _ => d
  end.

(** The reports a run has printed. *)
Definition run_log (r : Batch.run) : list Batch.report :=
  match r with
  | Batch.Returned _ _ log _ => log
  | Batch.Uncaught _ log => log
  end.

(** A value of 72 characters. *)
Definition long_value : string :=
  "This step performs a very long security scan across all repos in the org".

(** A mapping entry whose folded continuation line fits the budget ... *)
Definition fold_doc : string :=
  doc ["    description: " ++ long_value; ""].

(** ... and one whose folded continuation line does not. *)
Definition refold_doc : string :=
  doc ["    description: " ++ long_value ++ " and every fork"; ""].

(** A line of 104 characters whose value is 87 characters long. *)
Definition refold_line : string :=
  "    description: " ++ long_value ++ " and every fork".

(** A quoted value with a comment sign after a single blank. *)
Definition v2_comment_doc : string :=
  doc [ "---";
        "  description: " ++ dquote
        ++ "This step performs a very long security scan # across all repos and forks"
        ++ dquote;
        "" ].

(** A line of 94 characters that holds a templating expression. *)
Definition secret_line : string :=
  "        run: echo ${{ secrets.VERY_LONG_TOKEN_NAME_THAT_PUSHES_THIS_OVER_EIGHTY_CHARS_TOTAL }}".

(** A mapping entry whose value holds a run of two blanks. *)
Definition gap_line : string :=
  "    description: This step  performs a very long security scan across all repos in the org".

(** A document that ends with a blank line: its text is the line
    [name: x], a newline, and one more newline. *)
Definition blank_end_doc : string := doc ["name: x"; ""; ""].

(** A document whose first line is blank. *)
Definition blank_start_doc : string := doc [""; "name: x"; ""].

(** A mapping entry of 88 characters; the expression opened at offset 34
    is not closed. *)
Definition open_expr_line : string :=
  "    name: Deploy the service with ${{ format('{0} to {1} on cluster {2} at {3}', a, b, c".

(** A [run:] line of 105 characters. *)
Definition run_line : string :=
  "      run: echo build and push the multi arch container image to the registry now and wait for the result".

(** A directory of two workflow files: the first cannot be read, the
    second holds the long [run:] line. *)
Definition locked_dir : Batch.dir :=
  [ ("a.yml", {| Batch.content := "name: a";
                 Batch.readable := false; Batch.writable := true |});
    ("b.yml", {| Batch.content := doc ["---"; run_line; ""];
                 Batch.readable := true; Batch.writable := true |}) ].

(** A document with a line indented by nine blanks. *)
Definition nine_doc : string := doc ["steps:"; "         - name: scan"; ""].

(** A directory with a file that is not on the list of the script. *)
Definition other_dir : Batch.dir :=
  [ ("release.yml", {| Batch.content := doc ["name: release"; run_line];
                       Batch.readable := true; Batch.writable := true |});
    ("sbom-sca.yml", {| Batch.content := doc ["name: sbom"; run_line];
                        Batch.readable := true; Batch.writable := true |}) ].

(** The text ends with whitespace, or is empty. *)
Definition ends_blank (s : string) : bool :=
  match Py.last_char s with
  | Some c => Py.isspace c
  | None => true
  end.

(** A value whose words are pairwise distinct, in double quotes. *)
Definition quoted_line : string :=
  "  description: " ++ dquote
  ++ "This step performs a very long security scan across all repos and forks"
  ++ dquote.

(** A list item of 91 characters with a key. *)
Definition item_line : string := "  - description: " ++ long_value ++ ".".

(** The character is not the comment sign. *)
Definition not_hash (c : ascii) : bool := negb (Ascii.eqb c "#").

(** The file exists and can be read and written. *)
Definition usable (d : Batch.dir) (name : string) : bool :=
  match Batch.lookup name d with
  | Some f => Batch.readable f && Batch.writable f
  | None => false
  end.

(** The number of fixes a report states. *)
Definition report_fixes (r : Batch.report) : nat :=
  match r with
  | Batch.Fixed _ k => k
  | Batch.NoFix _ => 0
  | Batch.Failed _ => 0
  end.

(** The total a run has accumulated when it returns. *)
Definition run_total (r : Batch.run) : option nat :=
  match r with
  | Batch.Returned _ _ _ total => Some total
  | Batch.Uncaught _ _ => None
  end.

(** The directory after the body of a runner's loop has run on one
    file: the body changes nothing when it raises. *)
Definition dir_after (rewrite : string -> string -> option (string * nat))
           (d : Batch.dir) (name : string) : Batch.dir :=
  match Batch.process_file rewrite d name with
  | Some (d', _) => d'
  | None => d
  end.

(** What the loop of fix-yaml-final.py prints for one file: a line when
    it has fixed something. *)
Definition printed_after (rewrite : string -> string -> option (string * nat))
           (d : Batch.dir) (name : string) : list Batch.report :=
  match Batch.process_file rewrite d name with
  | Some (_, fixes) =>
      if (0 <? fixes)%nat then [Batch.Fixed name fixes] else []
  | None => []
  end.

(** The report of a guarded loop on one file. *)
Definition report_after (rewrite : string -> string -> option (string * nat))
           (d : Batch.dir) (name : string) : Batch.report :=
  match Batch.process_file rewrite d name with
  | Some (_, fixes) => Batch.report_of name fixes
  | None => Batch.Failed name
  end.

(** The character is not a backslash. *)
Definition not_backslash (c : ascii) : bool :=
  negb (Ascii.eqb c (ascii_of_nat 92)).

(** The word is not a lone backslash. *)
Definition plain_word (w : string) : bool := negb (String.eqb w backslash).

(** A directory of three workflow files: the second cannot be read. *)
Definition three_dir : Batch.dir :=
  [ ("a.yml", {| Batch.content := doc ["---"; run_line; ""];
                 Batch.readable := true; Batch.writable := true |});
    ("b.yml", {| Batch.content := "name: b";
                 Batch.readable := false; Batch.writable := true |});
    ("c.yml", {| Batch.content := doc ["---"; run_line; ""];
                 Batch.readable := true; Batch.writable := true |}) ].

(** The total of a run that returns is the sum of the numbers of fixes
    of its reports. *)
Definition totals_agree (r : Batch.run) : Prop :=
  match r with
  | Batch.Returned _ _ log total => total = list_sum (map report_fixes log)
  | Batch.Uncaught _ _ => True
  end.

(** The character is not a colon. *)
Definition not_colon (c : ascii) : bool := negb (Ascii.eqb c ":").


(** A directory of three files with the same content: two of them are
    on the list of fix-yaml-targeted.py. *)
Definition same_dir : Batch.dir :=
  [ ("release.yml", {| Batch.content := nine_doc;
                       Batch.readable := true; Batch.writable := true |});
    ("sbom-sca.yml", {| Batch.content := nine_doc;
                        Batch.readable := true; Batch.writable := true |});
    ("scan-to-securityhub.yml",
     {| Batch.content := nine_doc;
        Batch.readable := true; Batch.writable := true |}) ].

(** The character is not a newline. *)
Definition not_nl (c : ascii) : bool := negb (Ascii.eqb c (ascii_of_nat 10)).

(** The text holds no newline. *)
Definition one_line (s : string) : bool := chars_in not_nl s.

(** The lines that the first pass of fix-yaml-aggressive.py appends in
    place of a line that it breaks. *)
Definition aggressive_broken_line (l : string) : list string :=
  match Aggressive.process_line l with
  | Some (out, S _) => out
  | _ => []
  end.

Definition aggressive_broken (D : string) : list string :=
  flat_map aggressive_broken_line (Py.split_char (ascii_of_nat 10) D).

(** The number of blanks that stand immediately before the first comment
    sign of a line; [None] when the line holds no comment sign. *)
Fixpoint comment_gap_from (run : nat) (s : string) : option nat :=
  match s with
  | EmptyString => None
  | String c t =>
      if Ascii.eqb c "#" then Some run
      else comment_gap_from (if Ascii.eqb c " " then S run else 0) t
  end.

Definition comment_gap (s : string) : option nat := comment_gap_from 0 s.

(** The lines that the first pass of fix-yaml-lint-v2.py appends in
    place of a line that it folds, breaks at word boundaries or splits
    after the key of a list item. *)
Definition v2_broken_line (l : string) : list string :=
  if LintV2.truthy_match (Py.rstrip l) then []
  else match LintV2.handle_long (v2_normal l) with
       | LintV2.Continue out (S _) => out
       | _ => []
       end.

Definition v2_broken (D : string) : list string :=
  flat_map v2_broken_line (Py.split_char (ascii_of_nat 10) D).

(** A document with a comment and a protected line that are over the
    budget, and a value that is folded into a line within it. *)
Definition quiet_doc : string :=
  doc [ "---";
        "# This comment is longer than the budget of eighty columns and is kept as it is by every pass";
        "    description: " ++ long_value;
        secret_line;
        "" ].

(** A value that holds a colon and a blank, in a line of 102
    characters. *)
Definition v2_refold_doc : string :=
  doc [ "---";
        "    description: Note: this step performs a very long security scan across all repos in the org now";
        "" ].

Example split_ws_ex : Py.split_ws "  ab  c d " = ["ab"; "c"; "d"].
Proof. reflexivity. Qed.

Example split_str_ex : Py.split_str "ab" "xabyabab" = ["x"; "y"; ""; ""].
Proof. reflexivity. Qed.

Example rstrip_ex : Py.rstrip "  a b  " = "  a b".
Proof. reflexivity. Qed.

Example bracket_sub_ex :
  Lint.bracket_sub 0 "tags: [ a ,b,  c ] and []" = "tags: [a, b, c] and []".
Proof. reflexivity. Qed.

Example unpad_brackets_ex :
  LintFile.unpad_brackets 0 "a: [  x   ] [ ] [y ]" = "a: [x  ] [ ] [y ]".
Proof. reflexivity. Qed.

Example fix_truthy_ex : Comprehensive.fix_truthy "enabled:   Yes" = "enabled: true".
Proof. reflexivity. Qed.

(** fix-yaml-lint.py on a small document: marker, word break, bracket
    spacing, quoted trigger, comment spacing. *)
Example lint_ex :
  Lint.fix_yaml_content
    (doc [ "name: x"; "    description: " ++ long_value;
           "  tags: [ a ,b,  c ]"; "on: push"; "x: 1 # c"; "" ])
  = Some (doc [ "---"; "name: x";
                "    description: This step performs a very long security scan across all repos";
                "      in the org";
                "  tags: [a, b, c]"; "on: " ++ dquote ++ "push" ++ dquote;
                "x: 1  # c"; "" ]).
Proof. vm_compute. reflexivity. Qed.

(** fix-yaml-lint-v2.py on the same lines: the header of the fold is
    built from a key that already ends with its colon. *)
Example v2_ex :
  LintV2.fix_yaml_content
    (doc [ "name: x"; "    description: " ++ long_value; "x: 1 # c"; "" ])
  = Some (doc [ "---"; "name: x"; "    description:: >";
                "      " ++ long_value; "x: 1  # c"; "" ], 3).
Proof. vm_compute. reflexivity. Qed.

(** fix-yaml-aggressive.py: the word break of a plain list item, and the
    fallback break at the last blank of columns 70 to 79. *)
Example aggressive_list_ex :
  Aggressive.process_line
    "  - build and push the multi arch container image to the registry now and then go on"
  = Some ([ "  - build and push the multi arch container image to the registry now and then";
            "    go on" ], 1).
Proof. vm_compute. reflexivity. Qed.

Example aggressive_fallback_ex :
  Aggressive.process_line
    "aaaaaaaaaaaaaaaaaaaaaaaaaaaaaaaaaaaaaaaaaaaaaaaaaaaaaaaaaaaaaaaaaaaaaaaa bbb cc ddddddddd"
  = Some ([ "aaaaaaaaaaaaaaaaaaaaaaaaaaaaaaaaaaaaaaaaaaaaaaaaaaaaaaaaaaaaaaaaaaaaaaaa bbb cc";
            "  ddddddddd" ], 1).
Proof. vm_compute. reflexivity. Qed.

(** fix-yaml-targeted.py: the indentation fix and the fold of a long
    [run:] line. *)
Example targeted_ex :
  Targeted.fix_specific_issues (doc ["jobs:"; "         steps: x  "; run_line])
                               "scan-to-securityhub.yml"
  = (doc [ "jobs:"; "          steps: x"; "      run: >";
           "        echo build and push the multi arch container image to the registry now and wait for the result";
           "" ], 3).
Proof. vm_compute. reflexivity. Qed.

(** fix-yaml-final.py: the break of a long [echo] with a shell
    continuation. *)
Example final_ex :
  Final.final_line_fixes (doc ["---"; run_line; ""]) "b.yml"
  = Some (doc [ "---";
                "      run: echo build and push the multi arch container image to the registry "
                ++ backslash;
                "        now and wait for the result"; "" ], 1).
Proof. vm_compute. reflexivity. Qed.

(** A healthy directory: [main] of fix-yaml-final.py rewrites the file. *)
Example main_final_ex :
  Batch.main_final ["b.yml"] locked_dir
  = Batch.Returned 0
      [ ("a.yml", {| Batch.content := "name: a";
                     Batch.readable := false; Batch.writable := true |});
        ("b.yml", {| Batch.content :=
                       doc [ "---";
                             "      run: echo build and push the multi arch container image to the registry "
                             ++ backslash;
                             "        now and wait for the result"; "" ];
                     Batch.readable := true; Batch.writable := true |}) ]
      [Batch.Fixed "b.yml" 1] 1.
Proof. vm_compute. reflexivity. Qed.


(* ================================================================== *)
(** * Facts about the string primitives *)
(* ================================================================== *)

Section PyFacts.

Lemma len_app (a b : string) : Py.len (a ++ b) = Py.len a + Py.len b.
Proof. induction a as [|c a IH]; simpl; [reflexivity | now rewrite <- IH]. Qed.

Lemma is_empty_true (s : string) : Py.is_empty s = true -> s = EmptyString.
Proof. destruct s; simpl; congruence. Qed.

Lemma is_empty_false_len (s : string) : Py.is_empty s = false -> 0 < Py.len s.
Proof. destruct s; simpl; [congruence | lia]. Qed.

Lemma len_pos_nonempty (s : string) : 0 < Py.len s -> Py.is_empty s = false.
Proof. destruct s; simpl; [lia | reflexivity]. Qed.

Lemma app_empty_r (s : string) : s ++ EmptyString = s.
Proof. induction s; simpl; congruence. Qed.

Lemma app_assoc' (a b c : string) : (a ++ b) ++ c = a ++ b ++ c.
Proof. induction a; simpl; congruence. Qed.

Lemma len_spaces (n : nat) : Py.len (Py.spaces n) = n.
Proof. induction n; simpl; congruence. Qed.

Lemma rstrip_idem (s : string) : Py.rstrip (Py.rstrip s) = Py.rstrip s.
Proof.
  induction s as [|c t IH]; simpl; [reflexivity|].
  destruct (Py.isspace c && Py.is_empty (Py.rstrip t)) eqn:E; simpl.
  - reflexivity.
  - rewrite IH, E. reflexivity.
Qed.

Lemma rstrip_tidy (s : string) : tidy (Py.rstrip s) = true.
Proof.
  unfold tidy. induction s as [|c t IH]; simpl; [reflexivity|].
  destruct (Py.isspace c && Py.is_empty (Py.rstrip t)) eqn:E; simpl.
  - reflexivity.
  - destruct (Py.rstrip t) eqn:R.
    + simpl in E. rewrite andb_true_r in E. now rewrite E.
    + exact IH.
Qed.

Lemma tidy_rstrip (s : string) : tidy s = true -> Py.rstrip s = s.
Proof.
  unfold tidy. induction s as [|c t IH]; simpl; [reflexivity|].
  destruct t as [|c' t'].
  - simpl. intros H. apply negb_true_iff in H. now rewrite H.
  - intros H. rewrite (IH H). simpl. now rewrite andb_false_r.
Qed.

Lemma strip_rstrip (s : string) : Py.strip (Py.rstrip s) = Py.strip s.
Proof. unfold Py.strip. now rewrite rstrip_idem. Qed.

Lemma last_char_app (a b : string) :
  Py.is_empty b = false -> Py.last_char (a ++ b) = Py.last_char b.
Proof.
  intros Hb. induction a as [|c a IH]; simpl; [reflexivity|].
  rewrite IH. destruct (a ++ b) eqn:E; [|reflexivity].
  destruct a; simpl in E; [subst b; discriminate | discriminate].
Qed.

Lemma last_char_drop (n : nat) (s : string) :
  Py.is_empty (Py.drop n s) = false ->
  Py.last_char (Py.drop n s) = Py.last_char s.
Proof.
  revert s. induction n as [|n IH]; intros s H; [reflexivity|].
  destruct s as [|c t]; [reflexivity|]. simpl in *.
  rewrite (IH t H). destruct t; [destruct n; discriminate | reflexivity].
Qed.

Lemma last_char_lstrip (s : string) :
  Py.is_empty (Py.lstrip s) = false ->
  Py.last_char (Py.lstrip s) = Py.last_char s.
Proof.
  induction s as [|c t IH]; [reflexivity|]. simpl.
  destruct (Py.isspace c); [|reflexivity].
  intros H. rewrite (IH H). destruct t; [discriminate | reflexivity].
Qed.

Lemma tidy_app (a b : string) :
  Py.is_empty b = false -> tidy b = true -> tidy (a ++ b) = true.
Proof. intros Hb Ht. unfold tidy in *. now rewrite last_char_app. Qed.

Lemma tidy_drop (n : nat) (s : string) :
  tidy s = true -> tidy (Py.drop n s) = true.
Proof.
  intros H. destruct (Py.is_empty (Py.drop n s)) eqn:E.
  - apply is_empty_true in E. now rewrite E.
  - unfold tidy in *. now rewrite last_char_drop.
Qed.

Lemma tidy_lstrip (s : string) : tidy s = true -> tidy (Py.lstrip s) = true.
Proof.
  intros H. destruct (Py.is_empty (Py.lstrip s)) eqn:E.
  - apply is_empty_true in E. now rewrite E.
  - unfold tidy in *. now rewrite last_char_lstrip.
Qed.

Lemma tidy_not_all_space (s : string) :
  tidy s = true -> Py.is_empty s = false -> Py.all_space s = false.
Proof.
  unfold tidy. induction s as [|c t IH]; [discriminate|].
  intros H _. simpl in *. destruct t as [|c' t'].
  - apply negb_true_iff in H. now rewrite H.
  - rewrite (IH H eq_refl). apply andb_false_r.
Qed.

Lemma words_aux_all_space (s : string) :
  fst (Py.words_aux s) = EmptyString -> snd (Py.words_aux s) = [] ->
  Py.all_space s = true.
Proof.
  induction s as [|c t IH]; [reflexivity|]. simpl.
  destruct (Py.words_aux t) as [w ws]. simpl in IH.
  destruct (Py.isspace c); simpl.
  - intros _ H. destruct w; simpl in H; [now apply IH | discriminate].
  - discriminate.
Qed.

Lemma split_ws_nil (s : string) :
  Py.split_ws s = [] -> Py.all_space s = true.
Proof.
  unfold Py.split_ws. intros H. apply words_aux_all_space;
    destruct (Py.words_aux s) as [w ws]; simpl;
    destruct w; simpl in H; congruence.
Qed.

(** [value.split()] has a first word when [value] is not empty and does
    not end with whitespace. *)
Lemma split_ws_tidy (s : string) :
  tidy s = true -> Py.is_empty s = false -> Py.split_ws s <> [].
Proof.
  intros Ht He Hnil. apply split_ws_nil in Hnil.
  rewrite (tidy_not_all_space s Ht He) in Hnil. discriminate.
Qed.

End PyFacts.

(* ================================================================== *)
(** * No line makes the rewriters raise *)
(* ================================================================== *)

Section Totality.

Lemma find_cons (c : ascii) (t p : string) :
  Py.find (String c t) p =
  if Py.startswith (String c t) p then Some 0
  else option_map S (Py.find t p).
Proof. reflexivity. Qed.

Lemma find_startswith (s p : string) (n : nat) :
  Py.find s p = Some n -> Py.startswith (Py.drop n s) p = true.
Proof.
  revert n. induction s as [|c t IH]; intros n.
  - simpl. destruct p; [|discriminate]. intros [= <-]. reflexivity.
  - rewrite find_cons.
    destruct (Py.startswith (String c t) p) eqn:E.
    + intros [= <-]. exact E.
    + destruct (Py.find t p) as [k|]; [|discriminate].
      intros [= <-]. simpl. now apply IH.
Qed.

Lemma startswith_nonempty (s p : string) :
  Py.startswith s p = true -> Py.is_empty p = false -> Py.is_empty s = false.
Proof. destruct p, s; simpl; congruence. Qed.

Lemma tidy_dquote_end (v : string) : tidy (v ++ dquote) = true.
Proof. apply tidy_app; reflexivity. Qed.

Lemma quote_on_tidy (l : string) :
  tidy l = true -> tidy (Lint.quote_on l) = true.
Proof.
  intros H. unfold Lint.quote_on.
  destruct (Lint.match_on_inline l) as [[indent value]|]; [|exact H].
  destruct (negb _); [|exact H].
  destruct (Py.mem value Lint.trigger_names); [|exact H].
  apply tidy_app; [reflexivity|].
  apply tidy_app; [reflexivity|].
  apply tidy_app; [destruct value; reflexivity|].
  apply tidy_dquote_end.
Qed.

Lemma tidy_insert_blank (l : string) (pos : nat) :
  tidy l = true -> Py.find l "#" = Some pos ->
  tidy (Py.take pos l ++ " " ++ Py.drop pos l) = true.
Proof.
  intros H F. apply find_startswith in F.
  assert (N : Py.is_empty (Py.drop pos l) = false)
    by (eapply startswith_nonempty; [exact F | reflexivity]).
  apply tidy_app; [reflexivity|].
  apply tidy_app; [exact N|]. now apply tidy_drop.
Qed.

Lemma lint_comment_spacing_tidy (l : string) :
  tidy l = true -> tidy (Lint.fix_comment_spacing l) = true.
Proof.
  intros H. unfold Lint.fix_comment_spacing.
  destruct (_ && _); [|exact H].
  destruct (Py.find l "#") as [pos|] eqn:F; [|exact H].
  destruct (Py.endswith _ _); [|exact H].
  destruct (_ =? _)%nat; [|exact H].
  now apply tidy_insert_blank.
Qed.

Lemma v2_comment_spacing_tidy (l : string) :
  tidy l = true -> tidy (fst (LintV2.fix_comment_spacing l)) = true.
Proof.
  intros H. unfold LintV2.fix_comment_spacing.
  destruct (_ && _); [|exact H].
  destruct (Py.find l "#") as [pos|] eqn:F; [|exact H].
  destruct (Py.endswith _ _ && _); [|exact H].
  destruct (_ =? _)%nat; [|exact H].
  now apply tidy_insert_blank.
Qed.

(** A slice of a tidy line that is longer than [n] characters has a
    first word. *)
Lemma words_of_slice (l : string) (k n : nat) :
  tidy l = true -> (n <? Py.len (Py.drop k l))%nat = true ->
  Py.split_ws (Py.drop k l) <> [].
Proof.
  intros H L. apply Nat.ltb_lt in L.
  apply split_ws_tidy; [now apply tidy_drop | apply len_pos_nonempty; lia].
Qed.

Lemma list_item_tidy (l prefix content : string) :
  tidy l = true -> Re.list_item l = Some (prefix, content) ->
  tidy content = true /\ Py.is_empty content = false.
Proof.
  unfold Re.list_item. intros H.
  destruct (_ && _) eqn:E; [|discriminate]. intros [= _ <-].
  apply andb_true_iff in E as [_ E]. apply negb_true_iff in E.
  split; [|exact E]. apply (tidy_drop 2 (Py.lstrip l)). now apply tidy_lstrip.
Qed.

Lemma lint_split_mapping_total (l : string) :
  tidy l = true -> Lint.split_mapping l <> Lint.IndexError.
Proof.
  intros H. unfold Lint.split_mapping.
  destruct (_ && _); [|discriminate].
  destruct (Py.find l ": ") as [p|]; [|discriminate].
  destruct (_ && _); [|discriminate].
  destruct ((40 <? _)%nat && _) eqn:E; [|discriminate].
  apply andb_true_iff in E as [E _].
  pose proof (words_of_slice l _ _ H E) as W.
  destruct (Py.split_ws _); [contradiction | discriminate].
Qed.

Lemma lint_split_list_item_total (l : string) :
  tidy l = true -> Lint.split_list_item l <> Lint.IndexError.
Proof.
  intros H. unfold Lint.split_list_item.
  destruct (_ && _); [|discriminate].
  destruct (Re.list_item l) as [[prefix content]|] eqn:R; [|discriminate].
  destruct (list_item_tidy _ _ _ H R) as [Hc _].
  destruct (Py.contains content ": "); [|discriminate].
  unfold Lint.match_key_val.
  destruct (Re.until_char ":" content) as [k|]; [|discriminate].
  destruct (_ && _); [|discriminate].
  destruct (40 <? _)%nat eqn:E; [|discriminate].
  destruct (Py.contains _ " "); [|discriminate].
  assert (W : Py.split_ws (Py.drop 2 (Py.drop (Py.len k) content)) <> []).
  { apply (words_of_slice _ 2 40); [now apply tidy_drop | exact E]. }
  destruct (Py.split_ws _); [contradiction | discriminate].
Qed.

Lemma lint_handle_long_total (l : string) :
  tidy l = true -> Lint.handle_long l <> Lint.IndexError.
Proof.
  intros H. unfold Lint.handle_long.
  destruct (_ && _); [|discriminate].
  destruct (Lint.expr_protected l); [discriminate|].
  destruct (Lint.shell_protected l); [discriminate|].
  pose proof (lint_split_mapping_total l H).
  pose proof (lint_split_list_item_total l H).
  destruct (Lint.split_mapping l); congruence.
Qed.

(** fix-yaml-lint.py: no iteration of the loop raises. *)
Lemma lint_process_line_total (i : nat) (line : string) :
  exists out, Lint.process_line i line = Some out.
Proof.
  unfold Lint.process_line.
  destruct (Lint.needs_marker i line); [eauto|].
  destruct (Lint.match_on_key _); [eauto|].
  pose proof (lint_handle_long_total _
    (lint_comment_spacing_tidy _ (quote_on_tidy _ (rstrip_tidy line)))) as T.
  destruct (Lint.handle_long _); [eauto | eauto | contradiction].
Qed.

Lemma lint_process_lines_total (lines : list string) (i : nat) :
  exists out, Lint.process_lines i lines = Some out.
Proof.
  revert i. induction lines as [|l r IH]; intros i; simpl; [eauto|].
  destruct (lint_process_line_total i l) as [o ->].
  destruct (IH (S i)) as [os ->]. eauto.
Qed.

Lemma lint_fix_yaml_content_total (content : string) :
  exists result, Lint.fix_yaml_content content = Some result.
Proof.
  unfold Lint.fix_yaml_content.
  destruct (lint_process_lines_total
              (Py.split_char (ascii_of_nat 10) content) 0) as [o ->].
  simpl. eauto.
Qed.

Lemma v2_split_mapping_total (l : string) :
  tidy l = true -> LintV2.split_mapping l <> LintV2.IndexError.
Proof.
  intros H. unfold LintV2.split_mapping.
  destruct (_ && _); [|discriminate].
  destruct (Py.find l ": ") as [p|]; [|discriminate].
  destruct (_ && _); [|discriminate].
  destruct (LintV2.fold_applies _); [discriminate|].
  destruct (_ && (40 <? _)%nat) eqn:E; [|discriminate].
  apply andb_true_iff in E as [_ E].
  pose proof (words_of_slice l _ _ H E) as W.
  destruct (Py.split_ws _) as [|w0 ws]; [contradiction|].
  destruct (LintV2.first_loop _ _ _) as [cur [|x rem]]; discriminate.
Qed.

Lemma v2_split_list_item_total (l : string) :
  LintV2.split_list_item l <> LintV2.IndexError.
Proof.
  unfold LintV2.split_list_item.
  destruct (_ && _); [|discriminate].
  destruct (Re.list_item l) as [[prefix content]|]; [|discriminate].
  destruct (_ && _); [|discriminate].
  destruct (Py.find content ": "); [|discriminate].
  destruct (0 <? _)%nat; [|discriminate].
  destruct (_ && _); discriminate.
Qed.

Lemma v2_handle_long_total (l : string) :
  tidy l = true -> LintV2.handle_long l <> LintV2.IndexError.
Proof.
  intros H. unfold LintV2.handle_long.
  destruct (_ && _); [|discriminate].
  destruct (LintV2.expr_protected l); [discriminate|].
  destruct (LintV2.shell_protected l); [discriminate|].
  pose proof (v2_split_mapping_total l H).
  pose proof (v2_split_list_item_total l).
  destruct (LintV2.split_mapping l); congruence.
Qed.

Lemma v2_rewrite_line_total (line : string) :
  exists out, LintV2.rewrite_line line = Some out.
Proof.
  unfold LintV2.rewrite_line.
  destruct (LintV2.truthy_match _); [eauto|].
  pose proof (v2_comment_spacing_tidy _ (rstrip_tidy line)) as T.
  destruct (LintV2.fix_comment_spacing _) as [l c1]. simpl in T.
  pose proof (v2_handle_long_total l T).
  destruct (LintV2.handle_long l); [eauto | eauto | contradiction].
Qed.

(** fix-yaml-lint-v2.py: no iteration of the loop raises. *)
Lemma v2_process_line_total (i : nat) (line : string) :
  exists out, LintV2.process_line i line = Some out.
Proof.
  unfold LintV2.process_line.
  destruct (v2_rewrite_line_total line) as [[out c] ->].
  destruct (LintV2.needs_marker i line); eauto.
Qed.

Lemma v2_process_lines_total (lines : list string) (i : nat) :
  exists out, LintV2.process_lines i lines = Some out.
Proof.
  revert i. induction lines as [|l r IH]; intros i; simpl; [eauto|].
  destruct (v2_process_line_total i l) as [[o c] ->].
  destruct (IH (S i)) as [[os cs] ->]. eauto.
Qed.

Lemma aggressive_patterns_total (l : string) :
  tidy l = true -> Aggressive.patterns l <> Aggressive.IndexError.
Proof.
  intros H. unfold Aggressive.patterns.
  destruct (_ && _).
  { destruct (Py.find l ": "); [|discriminate].
    destruct (_ <? 60)%nat; [|discriminate].
    destruct (30 <? _)%nat; discriminate. }
  destruct (Py.startswith (Py.lstrip l) "- ").
  { destruct (Re.list_item l) as [[marker content]|] eqn:R; [|discriminate].
    destruct (list_item_tidy _ _ _ H R) as [Hc Hn].
    destruct (Py.contains content ": ").
    - destruct (Py.find content ": "); [|discriminate].
      destruct (30 <? _)%nat; discriminate.
    - pose proof (split_ws_tidy content Hc Hn).
      destruct (Py.split_ws content); [contradiction | discriminate]. }
  destruct (Aggressive.match_env_var l) as [[[sp name] value]|];
    [discriminate|].
  destruct (_ || _).
  { destruct (Py.contains l ": "); [|discriminate].
    destruct (Py.find l ": "); [|discriminate].
    destruct (_ || _); discriminate. }
  destruct (Py.contains l "run:"); [|discriminate].
  destruct (Py.find l "run:"); [|discriminate].
  destruct (40 <? _)%nat; discriminate.
Qed.

(** fix-yaml-aggressive.py: no iteration of the loop raises. *)
Lemma aggressive_process_line_total (line : string) :
  exists out, Aggressive.process_line line = Some out.
Proof.
  unfold Aggressive.process_line.
  destruct (_ <=? 80)%nat; [eauto|].
  destruct (Aggressive.skipped _); [eauto|].
  pose proof (aggressive_patterns_total _ (rstrip_tidy line)).
  destruct (Aggressive.patterns _); [eauto | | contradiction].
  destruct (Aggressive.fallback _); eauto.
Qed.

Lemma aggressive_process_lines_total (lines : list string) :
  exists out, Aggressive.process_lines lines = Some out.
Proof.
  induction lines as [|l r IH]; simpl; [eauto|].
  destruct (aggressive_process_line_total l) as [[o c] ->].
  destruct IH as [[os cs] ->]. eauto.
Qed.

Lemma aggressive_total (content : string) :
  exists result, Aggressive.aggressively_fix_line_lengths content
                 = Some result.
Proof.
  unfold Aggressive.aggressively_fix_line_lengths.
  destruct (aggressive_process_lines_total
              (Py.split_char (ascii_of_nat 10) content)) as [[o c] ->].
  eauto.
Qed.

Lemma v2_total (content : string) :
  exists result, LintV2.fix_yaml_content content = Some result.
Proof.
  unfold LintV2.fix_yaml_content.
  destruct (v2_process_lines_total
              (Py.split_char (ascii_of_nat 10) content) 0) as [[o c] ->].
  destruct (LintV2.finish o). eauto.
Qed.

End Totality.

(* ================================================================== *)
(** * Idempotence of the line-length rewrite *)
(* ================================================================== *)

Lemma aggressive_quiet_lines (lines : list string) :
  forallb (fun l => (Py.len (Py.rstrip l) <=? 80)%nat) lines = true ->
  Aggressive.process_lines lines = Some (map Py.rstrip lines, 0).
Proof.
  induction lines as [|l r IH]; simpl; [reflexivity|].
  intros H. apply andb_true_iff in H as [Hl Hr].
  unfold Aggressive.process_line. rewrite Hl, (IH Hr). reflexivity.
Qed.

Section Settled.

Lemma split_char_cons (c a : ascii) (t : string) :
  Py.split_char c (String a t) =
  if Ascii.eqb a c then EmptyString :: Py.split_char c t
  else match Py.split_char c t with
       | [] => [String a EmptyString]
       | h :: r => String a h :: r
       end.
Proof. reflexivity. Qed.

Lemma concat_cons_nonempty (sep x : string) (l : list string) :
  l <> [] -> String.concat sep (x :: l) = x ++ sep ++ String.concat sep l.
Proof. destruct l; [contradiction | reflexivity]. Qed.

Lemma split_char_nonempty (c : ascii) (s : string) : Py.split_char c s <> [].
Proof.
  destruct s as [|a t]; [discriminate|]. rewrite split_char_cons.
  destruct (Ascii.eqb a c); [discriminate|].
  destruct (Py.split_char c t); discriminate.
Qed.

(** Joining the lines of a text gives the text back. *)
Lemma join_split (c : ascii) (s : string) :
  Py.join (String c EmptyString) (Py.split_char c s) = s.
Proof.
  unfold Py.join. induction s as [|a t IH]; [reflexivity|].
  rewrite split_char_cons. destruct (Ascii.eqb a c) eqn:E.
  - apply Ascii.eqb_eq in E. subst a.
    rewrite (concat_cons_nonempty _ _ _ (split_char_nonempty c t)), IH.
    reflexivity.
  - pose proof (split_char_nonempty c t) as N.
    destruct (Py.split_char c t) as [|h r]; [contradiction|].
    destruct r as [|h' r'].
    + simpl in *. now rewrite IH.
    + rewrite concat_cons_nonempty by discriminate.
      rewrite concat_cons_nonempty in IH by discriminate.
      rewrite <- IH. reflexivity.
Qed.

Lemma v2_comment_spacing_zero (l : string) :
  snd (LintV2.fix_comment_spacing l) = 0 ->
  LintV2.fix_comment_spacing l = (l, 0).
Proof.
  unfold LintV2.fix_comment_spacing.
  destruct (_ && _); [|reflexivity].
  destruct (Py.find l "#"); [|reflexivity].
  destruct (Py.endswith _ _ && _); [|reflexivity].
  destruct (_ =? 1)%nat; [discriminate | reflexivity].
Qed.

Lemma v2_settled_line (l : string) :
  tidy l = true -> (Py.len l <=? 80)%nat = true ->
  snd (LintV2.fix_comment_spacing l) = 0 ->
  LintV2.rewrite_line l = Some ([l], 0).
Proof.
  intros HT HL HC. unfold LintV2.rewrite_line.
  rewrite (tidy_rstrip l HT), String.eqb_refl.
  destruct (LintV2.truthy_match l); [reflexivity|].
  rewrite (v2_comment_spacing_zero l HC). unfold LintV2.handle_long.
  apply Nat.leb_le in HL.
  assert (E : (80 <? Py.len l)%nat = false) by (apply Nat.ltb_ge; exact HL).
  now rewrite E.
Qed.

Lemma v2_settled_line' (l : string) :
  settled_line l = true -> LintV2.rewrite_line l = Some ([l], 0).
Proof.
  unfold settled_line. intros H.
  apply andb_true_iff in H as [H HC]. apply andb_true_iff in H as [HT HL].
  apply Nat.eqb_eq in HC. now apply v2_settled_line.
Qed.

Lemma v2_settled_lines (lines : list string) (i : nat) :
  forallb settled_line lines = true ->
  (i = 0 -> LintV2.needs_marker 0 (hd EmptyString lines) = false) ->
  LintV2.process_lines i lines = Some (lines, 0).
Proof.
  revert i. induction lines as [|l r IH]; intros i H HM; [reflexivity|].
  simpl in H. apply andb_true_iff in H as [Hl Hr].
  cbn [LintV2.process_lines]. unfold LintV2.process_line.
  rewrite (v2_settled_line' l Hl).
  assert (M : LintV2.needs_marker i l = false).
  { destruct i as [|i]; [now apply HM | reflexivity]. }
  rewrite M, (IH (S i) Hr); [reflexivity | discriminate].
Qed.

(** A settled document is returned as it is, with no fix counted. *)
Lemma v2_settled_fixpoint (D : string) :
  settled_v2 D = true -> LintV2.fix_yaml_content D = Some (D, 0).
Proof.
  unfold settled_v2. intros H.
  apply andb_true_iff in H as [H E2]. apply andb_true_iff in H as [H E1].
  apply andb_true_iff in H as [HL HM].
  apply negb_true_iff in HM. apply negb_true_iff in E2.
  unfold LintV2.fix_yaml_content.
  rewrite (v2_settled_lines _ 0 HL (fun _ => HM)).
  assert (J : Py.join nl (Py.split_char (ascii_of_nat 10) D) = D)
    by apply join_split.
  unfold LintV2.finish. cbv zeta. rewrite J, E1, E2. reflexivity.
Qed.

End Settled.

(** C1, counterexample: the first pass of fix-yaml-aggressive.py folds
    the value onto a continuation line of 93 characters, and the second
    pass breaks that line again and reports one change. *)
Lemma aggressive_second_pass_refolds :
  Aggressive.aggressively_fix_line_lengths refold_doc
  = Some (doc [ "    description: >";
                "      " ++ long_value ++ " and every fork"; "" ], 1)
  /\ second_pass Aggressive.aggressively_fix_line_lengths refold_doc
     = Some 1.
Proof. split; vm_compute; reflexivity. Qed.

(** In fix-yaml-lint-v2.py the second pass can report a change even
    though every line of the first pass's output is within the budget:
    the word break rejoins the words with single blanks and so undoes the
    comment spacing that the first pass had just repaired. *)
Lemma v2_second_pass_respaces :
  option_map (fun r => within_budget (fst r))
             (LintV2.fix_yaml_content v2_comment_doc) = Some true
  /\ second_pass LintV2.fix_yaml_content v2_comment_doc = Some 1.
Proof. split; vm_compute; reflexivity. Qed.

(* ================================================================== *)
(** * The budget of the lines a split produces *)
(* ================================================================== *)

Section Budget.

Lemma words_aux_tokens (s : string) :
  no_space (fst (Py.words_aux s)) = true
  /\ Forall (fun w => token w = true) (snd (Py.words_aux s)).
Proof.
  induction s as [|c t [IHw IHws]]; simpl; [split; [reflexivity|constructor]|].
  destruct (Py.words_aux t) as [w ws]. simpl in *.
  destruct (Py.isspace c) eqn:E; simpl.
  - split; [reflexivity|]. destruct w as [|a w']; simpl; [exact IHws|].
    constructor; [exact IHw | exact IHws].
  - split; [|exact IHws]. cbn [no_space]. rewrite E. exact IHw.
Qed.

(** [value.split()] yields tokens. *)
Lemma split_ws_tokens (s : string) :
  Forall (fun w => token w = true) (Py.split_ws s).
Proof.
  unfold Py.split_ws. destruct (words_aux_tokens s) as [Hw Hws].
  destruct (Py.words_aux s) as [w ws]. simpl in *.
  destruct w as [|a w']; simpl; [exact Hws|].
  constructor; [exact Hw | exact Hws].
Qed.

Lemma wrap_loop_cons (cont cur word : string) (r : list string) :
  Lint.wrap_loop cont cur (word :: r) =
  if (Py.len (cur ++ " " ++ word) <=? 80)%nat
  then Lint.wrap_loop cont (cur ++ " " ++ word) r
  else let '(out, last) := Lint.wrap_loop cont (cont ++ word) r in
       (cur :: out, last).
Proof. reflexivity. Qed.

(** The word loop: a line it appends is within the budget unless it is
    the line the loop started with or a continuation line that carries a
    single word. *)
Lemma wrap_loop_budget (Q : string -> Prop) (cont : string) :
  forall (ws : list string) (cur : string) (out : list string)
         (last : string),
    Lint.wrap_loop cont cur ws = (out, last) ->
    (Py.len cur <= 80 \/ Q cur) ->
    (forall w, In w ws -> Q (cont ++ w)) ->
    Forall (fun L => Py.len L <= 80 \/ Q L) (out ++ [last])%list.
Proof.
  induction ws as [|word r IH]; intros cur out last.
  - simpl. intros [= <- <-] Hc _. constructor; [exact Hc | constructor].
  - rewrite wrap_loop_cons.
    destruct (Py.len (cur ++ " " ++ word) <=? 80)%nat eqn:E.
    + intros H _ HQ. apply (IH _ _ _ H).
      * left. now apply Nat.leb_le.
      * intros w Hw. apply HQ. now right.
    + destruct (Lint.wrap_loop cont (cont ++ word) r) as [out' last'] eqn:W.
      intros [= <- <-] Hc HQ. simpl. constructor; [exact Hc|].
      apply (IH _ _ _ W).
      * right. apply HQ. now left.
      * intros w Hw. apply HQ. now right.
Qed.

Lemma Forall_app_l {A} (P : A -> Prop) (l1 l2 : list A) :
  Forall P (l1 ++ l2)%list -> Forall P l1.
Proof. intros H. apply Forall_app in H. tauto. Qed.

Lemma wrap_words_budget (Q : string -> Prop) (cont first : string)
      (ws : list string) :
  (Py.len first <= 80 \/ Q first) ->
  (forall w, In w ws -> Q (cont ++ w)) ->
  Forall (fun L => Py.len L <= 80 \/ Q L) (Lint.wrap_words cont first ws).
Proof.
  intros Hf HQ. unfold Lint.wrap_words.
  destruct (Lint.wrap_loop cont first ws) as [out last] eqn:W.
  pose proof (wrap_loop_budget Q cont ws first out last W Hf HQ) as H.
  destruct (Py.truthy _); [exact H | exact (Forall_app_l _ _ _ H)].
Qed.

Lemma len_take_le (n : nat) (s : string) : Py.len (Py.take n s) <= n.
Proof.
  unfold Py.len. revert s.
  induction n as [|n IH]; intros [|c t]; simpl; try lia.
  specialize (IH t). lia.
Qed.

End Budget.

(** C2, counterexample: fix-yaml-aggressive.py splits the over-budget
    line into a header and a continuation line; the continuation line is
    93 characters long and holds several words. *)
Lemma aggressive_fold_over_budget :
  exists header continuation,
    Aggressive.process_line refold_line = Some ([header; continuation], 1)
    /\ Py.len continuation = 93
    /\ Py.contains (Py.strip continuation) " " = true.
Proof.
  exists "    description: >", ("      " ++ long_value ++ " and every fork").
  repeat split; vm_compute; reflexivity.
Qed.

(** C2 (amended): (1) every line that the word break of fix-yaml-lint.py
    (lines 81-96) produces is at most 80 characters long, unless it
    carries a single token of the value: the first line, made of the key
    and the first word, or a continuation line, made of the indent and
    one word; (2) the fold of fix-yaml-aggressive.py (lines 44-49)
    produces a header of at most 62 characters and one continuation line
    that holds the whole value after the indent, whatever its length. *)
Theorem split_lines_budget :
  (forall (line : string) (colon_pos : nat) (out : list string),
      Py.find line ": " = Some colon_pos ->
      Lint.split_mapping line = Lint.Continue out ->
      Forall (fun L =>
                Py.len L <= 80 \/
                exists w, In w (Py.split_ws (Py.drop (colon_pos + 2) line))
                          /\ token w = true
                          /\ (L = Py.take (colon_pos + 1) line ++ " " ++ w
                              \/ L = Py.spaces (Py.indent_of line + 2) ++ w))
             out)
  /\
  (forall (line : string) (colon_pos : nat),
      Py.contains line ": " = true ->
      Py.startswith (Py.lstrip line) "- " = false ->
      Py.find line ": " = Some colon_pos ->
      colon_pos < 60 ->
      30 < Py.len (Py.drop (colon_pos + 2) line) ->
      Aggressive.patterns line
      = Aggressive.Fixed
          [ Py.take colon_pos line ++ ": >";
            Py.spaces (Py.indent_of line) ++ "  "
            ++ Py.drop (colon_pos + 2) line ]
      /\ Py.len (Py.take colon_pos line ++ ": >") <= 62).
Proof.
  split.
  - intros line colon_pos out F. unfold Lint.split_mapping. rewrite F.
    destruct (_ && _); [|discriminate].
    destruct (_ && _); [|discriminate].
    destruct (_ && _); [|discriminate].
    pose proof (split_ws_tokens (Py.drop (colon_pos + 2) line)) as T.
    destruct (Py.split_ws _) as [|w0 ws] eqn:W; [discriminate|].
    intros [= <-]. rewrite Forall_forall in T.
    apply wrap_words_budget.
    + right. exists w0. split; [now left|]. split; [apply T; now left|].
      now left.
    + intros w Hw. exists w. split; [now right|].
      split; [apply T; now right|]. now right.
  - intros line colon_pos C L F Hp Hv. unfold Aggressive.patterns.
    rewrite C, L, F. simpl negb. cbv iota. simpl andb. cbv iota.
    apply Nat.ltb_lt in Hp. apply Nat.ltb_lt in Hv. rewrite Hp, Hv.
    split; [reflexivity|]. rewrite len_app. simpl.
    apply Nat.ltb_lt in Hp. pose proof (len_take_le colon_pos line). lia.
Qed.

Lemma split_lines_budget_witness :
  Forall (fun L => Py.len L <= 80 \/
            exists w, In w (Py.split_ws (Py.drop (15 + 2) refold_line))
                      /\ token w = true
                      /\ (L = Py.take (15 + 1) refold_line ++ " " ++ w
                          \/ L = Py.spaces (Py.indent_of refold_line + 2) ++ w))
         [ "    description: This step performs a very long security scan across all repos";
           "      in the org and every fork" ]
  /\ Py.len (Py.take 15 refold_line ++ ": >") <= 62.
Proof.
  split.
  - apply (proj1 split_lines_budget refold_line 15); vm_compute; reflexivity.
  - apply (proj2 split_lines_budget refold_line 15);
      try (vm_compute; reflexivity); vm_compute; lia.
Defined.

(* ================================================================== *)
(** * Lines that are passed through: protected lines and comments *)
(* ================================================================== *)

Section PassThrough.

Lemma chars_in_app (p : ascii -> bool) (a b : string) :
  chars_in p (a ++ b) = chars_in p a && chars_in p b.
Proof.
  induction a as [|c a IH]; simpl; [reflexivity|].
  now rewrite IH, andb_assoc.
Qed.

Lemma chars_in_startswith (p : ascii -> bool) (s t : string) :
  chars_in p s = true -> Py.startswith s t = true -> chars_in p t = true.
Proof.
  revert s. induction t as [|a t IH]; intros s Hs H; [reflexivity|].
  destruct s as [|b s]; simpl in *; [discriminate|].
  apply andb_true_iff in H as [Hab Ht].
  apply andb_true_iff in Hs as [Hb Hs].
  apply Ascii.eqb_eq in Hab. subst b. rewrite Hb. simpl. eauto.
Qed.

Lemma contains_cons (c : ascii) (s t : string) :
  Py.contains (String c s) t =
  Py.startswith (String c s) t || Py.contains s t.
Proof. reflexivity. Qed.

Lemma chars_in_contains (p : ascii -> bool) (s t : string) :
  chars_in p s = true -> Py.contains s t = true -> chars_in p t = true.
Proof.
  induction s as [|c s IH]; intros Hs H.
  - simpl in H. rewrite orb_false_r in H.
    now apply (chars_in_startswith p EmptyString).
  - rewrite contains_cons in H. apply orb_true_iff in H as [H|H].
    + now apply (chars_in_startswith p (String c s)).
    + simpl in Hs. apply andb_true_iff in Hs as [_ Hs]. now apply IH.
Qed.

Lemma chars_in_all_space (p : ascii -> bool) (s : string) :
  (forall c, Py.isspace c = true -> p c = true) ->
  Py.all_space s = true -> chars_in p s = true.
Proof.
  intros Hp. induction s as [|c s IH]; simpl; [reflexivity|].
  intros H. apply andb_true_iff in H as [Hc Hs].
  now rewrite (Hp c Hc), IH.
Qed.

Lemma chars_in_lstrip (p : ascii -> bool) (s : string) :
  (forall c, Py.isspace c = true -> p c = true) ->
  chars_in p (Py.lstrip s) = true -> chars_in p s = true.
Proof.
  intros Hp. induction s as [|c s IH]; simpl; [reflexivity|].
  destruct (Py.isspace c) eqn:E; [|exact (fun H => H)].
  intros H. now rewrite (Hp c E), IH.
Qed.

Lemma startswith_split (s k : string) :
  Py.startswith s k = true -> s = k ++ Py.drop (Py.len k) s.
Proof.
  revert s. induction k as [|a k IH]; intros s H; [reflexivity|].
  destruct s as [|b s]; simpl in *; [discriminate|].
  apply andb_true_iff in H as [Hab Hk].
  apply Ascii.eqb_eq in Hab. subst b. f_equal. now apply IH.
Qed.

(** A line made of whitespace, the key [k] and whitespace holds only
    whitespace and the characters of [k]. *)
Lemma key_line_chars (p : ascii -> bool) (k l : string) :
  (forall c, Py.isspace c = true -> p c = true) ->
  chars_in p k = true ->
  Py.startswith (Py.lstrip l) k = true ->
  Py.all_space (Py.drop (Py.len k) (Py.lstrip l)) = true ->
  chars_in p l = true.
Proof.
  intros Hp Hk Hs Ha. apply chars_in_lstrip; [exact Hp|].
  rewrite (startswith_split _ _ Hs), chars_in_app, Hk.
  now apply chars_in_all_space.
Qed.

Lemma match_on_key_chars (l : string) :
  Lint.match_on_key l = true -> chars_in on_key_char l = true.
Proof.
  unfold Lint.match_on_key. intros H. apply andb_true_iff in H as [Hs Ha].
  apply (key_line_chars on_key_char "on:" l); try assumption; [|reflexivity].
  intros c Hc. unfold on_key_char. now rewrite Hc.
Qed.

Lemma no_hash_comment_spacing (l : string) :
  Py.contains l "#" = false -> Lint.fix_comment_spacing l = l.
Proof. intros H. unfold Lint.fix_comment_spacing. now rewrite H. Qed.

Lemma no_hash_comment_spacing_v2 (l : string) :
  Py.contains l "#" = false -> LintV2.fix_comment_spacing l = (l, 0).
Proof. intros H. unfold LintV2.fix_comment_spacing. now rewrite H. Qed.

Lemma chars_exclude (p : ascii -> bool) (l t : string) :
  chars_in p l = true -> chars_in p t = false -> Py.contains l t = false.
Proof.
  intros Hl Ht. destruct (Py.contains l t) eqn:E; [|reflexivity].
  rewrite (chars_in_contains p l t Hl E) in Ht. discriminate.
Qed.

Lemma one_char_not_trigger (c : ascii) :
  Py.mem (String c EmptyString) Lint.trigger_names = false.
Proof.
  unfold Py.mem, Lint.trigger_names. simpl.
  repeat match goal with
         | |- context [Ascii.eqb ?a ?b] => destruct (Ascii.eqb a b)
         end; reflexivity.
Qed.

Lemma lstrip_all_space (s : string) :
  Py.all_space s = true -> Py.lstrip s = EmptyString.
Proof.
  induction s as [|c t IH]; [reflexivity|]. simpl.
  intros H. apply andb_true_iff in H as [Hc Ht]. rewrite Hc. now apply IH.
Qed.

(** The value of an inline [on:] pattern is a single whitespace
    character when only whitespace follows the key. *)
Lemma ws_plus_rest_all_space (s : string) :
  Py.all_space s = true ->
  Re.ws_plus_rest s = None
  \/ exists c, Re.ws_plus_rest s = Some (String c EmptyString).
Proof.
  intros H. unfold Re.ws_plus_rest. rewrite (lstrip_all_space s H).
  destruct (Py.is_empty (Py.leading_ws s)); [now left|].
  cbn [Py.is_empty negb].
  destruct (Py.last_char _) as [c|]; [|now left].
  destruct (2 <=? _)%nat; [right; now exists c | now left].
Qed.

Lemma on_key_not_quoted (l : string) :
  Lint.match_on_key l = true -> Lint.quote_on l = l.
Proof.
  unfold Lint.match_on_key, Lint.quote_on, Lint.match_on_inline.
  intros H. apply andb_true_iff in H as [Hs Ha]. rewrite Hs.
  destruct (ws_plus_rest_all_space _ Ha) as [-> | [c ->]]; [reflexivity|].
  rewrite one_char_not_trigger. now destruct (negb _).
Qed.

Lemma on_key_normal (l : string) :
  Lint.match_on_key l = true ->
  Lint.fix_comment_spacing (Lint.quote_on l) = l.
Proof.
  intros H. rewrite (on_key_not_quoted l H).
  apply no_hash_comment_spacing.
  apply (chars_exclude on_key_char); [now apply match_on_key_chars|].
  reflexivity.
Qed.

Lemma truthy_match_chars (l : string) :
  LintV2.truthy_match l = true -> chars_in truthy_key_char l = true.
Proof.
  unfold LintV2.truthy_match. intros H.
  apply existsb_exists in H as (k & Hk & H).
  apply andb_true_iff in H as [Hs Ha].
  assert (Hp : forall c, Py.isspace c = true -> truthy_key_char c = true)
    by (intros c Hc; unfold truthy_key_char; now rewrite Hc).
  assert (Hlen : Py.len (k ++ ":") = Py.len k + 1)
    by (rewrite len_app; reflexivity).
  apply (key_line_chars truthy_key_char (k ++ ":") l Hp);
    [ | exact Hs | now rewrite Hlen ].
  unfold LintV2.truthy_keys in Hk. simpl in Hk.
  repeat (destruct Hk as [<-|Hk]; [reflexivity|]). contradiction.
Qed.

Lemma truthy_match_normal (l : string) :
  LintV2.truthy_match l = true -> LintV2.fix_comment_spacing l = (l, 0).
Proof.
  intros H. apply no_hash_comment_spacing_v2.
  apply (chars_exclude truthy_key_char); [now apply truthy_match_chars|].
  reflexivity.
Qed.

Lemma startswith_hash (s : string) :
  Py.startswith s "#" = true -> exists t, s = String "#" t.
Proof.
  intros H. exists (Py.drop 1 s). exact (startswith_split s "#" H).
Qed.

Lemma comment_needs_marker (i : nat) (line : string) :
  Py.startswith (Py.strip line) "#" = true ->
  Lint.needs_marker i line = (i =? 0)%nat.
Proof.
  intros H. unfold Lint.needs_marker, Py.truthy.
  destruct (startswith_hash _ H) as [t ->]. simpl.
  now rewrite !andb_true_r.
Qed.

Lemma comment_not_on (l : string) :
  Py.startswith (Py.lstrip l) "#" = true ->
  Py.startswith (Py.lstrip l) "on:" = false.
Proof. intros H. now destruct (startswith_hash _ H) as [t ->]. Qed.

End PassThrough.

(** C3, counterexample: a protected line that ends with two blanks is
    not returned byte for byte; both scripts drop the blanks. *)
Lemma protected_line_loses_blanks :
  Lint.expr_protected (secret_line ++ "  ") = true
  /\ Lint.process_line 1 (secret_line ++ "  ") = Some [secret_line]
  /\ LintV2.process_line 1 (secret_line ++ "  ") = Some ([secret_line], 0)
  /\ secret_line <> secret_line ++ "  ".
Proof.
  repeat split; try (vm_compute; reflexivity).
  intros H. apply (f_equal Py.len) in H. vm_compute in H. discriminate.
Qed.

(** C3 (amended): let N be the line after removal of its trailing
    whitespace and repair of the comment spacing (and, in
    fix-yaml-lint.py, quoting of an inline [on:] value).  When N is longer
    than 80 characters, is not a comment and holds both [${{] and [}}]
    or the shell markers of the script, the script appends exactly N and
    does not split it (fix-yaml-lint.py appends the marker and the
    untouched line when the line is the first one and needs the marker).
    N is the input itself when the input does not end with whitespace and
    holds no [#] (and, in fix-yaml-lint.py, is not an [on:] line). *)
Theorem protected_line_kept :
  (forall (i : nat) (line : string),
      (80 <? Py.len (lint_normal line))%nat = true ->
      Py.startswith (Py.strip (lint_normal line)) "#" = false ->
      Lint.expr_protected (lint_normal line)
      || Lint.shell_protected (lint_normal line) = true ->
      Lint.process_line i line
      = Some (if Lint.needs_marker i line then ["---"; line]
              else [lint_normal line]))
  /\
  (forall (i : nat) (line : string),
      (80 <? Py.len (v2_normal line))%nat = true ->
      Py.startswith (Py.strip (v2_normal line)) "#" = false ->
      LintV2.expr_protected (v2_normal line)
      || LintV2.shell_protected (v2_normal line) = true ->
      option_map fst (LintV2.process_line i line)
      = Some (if LintV2.needs_marker i line then ["---"; v2_normal line]
              else [v2_normal line]))
  /\
  (forall line : string,
      tidy line = true -> Py.contains line "#" = false ->
      v2_normal line = line
      /\ (Py.startswith (Py.lstrip line) "on:" = false ->
          lint_normal line = line)).
Proof.
  split; [|split].
  - intros i line HL HC HP. unfold Lint.process_line.
    destruct (Lint.needs_marker i line); [reflexivity|].
    destruct (Lint.match_on_key (Py.rstrip line)) eqn:K.
    + unfold lint_normal. now rewrite (on_key_normal _ K).
    + fold (lint_normal line). unfold Lint.handle_long.
      rewrite HL, HC. simpl.
      destruct (Lint.expr_protected (lint_normal line)); [reflexivity|].
      simpl in HP. now rewrite HP.
  - intros i line HL HC HP. unfold LintV2.process_line, LintV2.rewrite_line.
    rewrite String.eqb_refl.
    destruct (LintV2.truthy_match (Py.rstrip line)) eqn:K.
    + unfold v2_normal. rewrite (truthy_match_normal _ K). simpl.
      now destruct (LintV2.needs_marker i line).
    + unfold v2_normal in *.
      destruct (LintV2.fix_comment_spacing (Py.rstrip line)) as [N c1].
      simpl in *. unfold LintV2.handle_long. rewrite HL, HC. simpl.
      destruct (LintV2.expr_protected N).
      * now destruct (LintV2.needs_marker i line).
      * simpl in HP. rewrite HP. now destruct (LintV2.needs_marker i line).
  - intros line HT HH. split.
    + unfold v2_normal. rewrite (tidy_rstrip _ HT).
      now rewrite (no_hash_comment_spacing_v2 _ HH).
    + intros HO. unfold lint_normal. rewrite (tidy_rstrip _ HT).
      unfold Lint.quote_on, Lint.match_on_inline. rewrite HO.
      now apply no_hash_comment_spacing.
Qed.

Lemma protected_line_kept_witness :
  Lint.process_line 1 secret_line = Some [secret_line]
  /\ option_map fst (LintV2.process_line 1 secret_line) = Some [secret_line]
  /\ v2_normal secret_line = secret_line
  /\ lint_normal secret_line = secret_line.
Proof.
  assert (N2 : v2_normal secret_line = secret_line
               /\ (Py.startswith (Py.lstrip secret_line) "on:" = false ->
                   lint_normal secret_line = secret_line)).
  { apply (proj2 (proj2 protected_line_kept) secret_line);
      vm_compute; reflexivity. }
  destruct N2 as [N2 N1]. specialize (N1 eq_refl).
  split; [|split; [|split; assumption]].
  - rewrite <- N1 at 2.
    apply (proj1 protected_line_kept 1 secret_line); vm_compute; reflexivity.
  - rewrite <- N2 at 2.
    apply (proj1 (proj2 protected_line_kept) 1 secret_line);
      vm_compute; reflexivity.
Defined.

(** C4, counterexample: a comment line that ends with blanks is not
    returned byte for byte. *)
Lemma comment_loses_blanks :
  Py.startswith (Py.strip "  # a note   ") "#" = true
  /\ Aggressive.process_line "  # a note   " = Some (["  # a note"], 0)
  /\ Lint.process_line 1 "  # a note   " = Some ["  # a note"].
Proof. repeat split; vm_compute; reflexivity. Qed.

(** C4 (amended): for every line whose trimmed text starts with [#],
    whatever its length, the scripts append the line with its trailing
    whitespace removed, and nothing else; fix-yaml-lint.py appends the
    marker and the untouched line when the comment is the first line. *)
Theorem comment_line_kept :
  (forall line : string,
      Py.startswith (Py.strip line) "#" = true ->
      Aggressive.process_line line = Some ([Py.rstrip line], 0))
  /\
  (forall (i : nat) (line : string),
      Py.startswith (Py.strip line) "#" = true ->
      Lint.process_line i line
      = Some (if (i =? 0)%nat then ["---"; line] else [Py.rstrip line])).
Proof.
  split.
  - intros line H. unfold Aggressive.process_line.
    destruct (_ <=? 80)%nat; [reflexivity|].
    unfold Aggressive.skipped. now rewrite strip_rstrip, H.
  - intros i line H. unfold Lint.process_line.
    rewrite (comment_needs_marker i line H).
    destruct (i =? 0)%nat; [reflexivity|].
    assert (HL : Py.startswith (Py.lstrip (Py.rstrip line)) "#" = true)
      by exact H.
    assert (HS : Py.startswith (Py.strip (Py.rstrip line)) "#" = true)
      by now rewrite strip_rstrip.
    pose proof (comment_not_on _ HL) as HO.
    unfold Lint.match_on_key. rewrite HO. simpl.
    unfold Lint.quote_on, Lint.match_on_inline. rewrite HO.
    unfold Lint.fix_comment_spacing. rewrite HS, andb_false_r.
    unfold Lint.handle_long. rewrite HS, andb_false_r.
    unfold Lint.fix_brackets. now rewrite HS, andb_false_r.
Qed.

Lemma comment_line_kept_witness :
  Aggressive.process_line "  # a note   " = Some ([Py.rstrip "  # a note   "], 0)
  /\ Lint.process_line 1 "  # a note   " = Some [Py.rstrip "  # a note   "].
Proof.
  split.
  - apply (proj1 comment_line_kept); vm_compute; reflexivity.
  - apply (proj2 comment_line_kept 1); vm_compute; reflexivity.
Defined.

(* ================================================================== *)
(** * The folded form of a mapping entry *)
(* ================================================================== *)

Section Fold.

Lemma lstrip_spaces_app (n : nat) (s : string) :
  Py.lstrip (Py.spaces n ++ s) = Py.lstrip s.
Proof. induction n as [|n IH]; [reflexivity | exact IH]. Qed.

Lemma lstrip_idem (s : string) : Py.lstrip (Py.lstrip s) = Py.lstrip s.
Proof.
  induction s as [|c t IH]; [reflexivity|]. simpl.
  destruct (Py.isspace c) eqn:E; [exact IH|]. simpl. now rewrite E.
Qed.

Lemma rstrip_spaces (n : nat) : Py.rstrip (Py.spaces n) = EmptyString.
Proof. induction n as [|n IH]; [reflexivity|]. simpl. now rewrite IH. Qed.

Lemma strip_tidy (v : string) : tidy (Py.strip v) = true.
Proof. apply tidy_lstrip, rstrip_tidy. Qed.

(** Trimming a continuation line gives back the trimmed value. *)
Lemma strip_indent (n : nat) (v : string) :
  Py.strip (Py.spaces n ++ Py.strip v) = Py.strip v.
Proof.
  destruct (Py.is_empty (Py.strip v)) eqn:E.
  - apply is_empty_true in E. rewrite E, app_empty_r.
    unfold Py.strip at 1. now rewrite rstrip_spaces.
  - unfold Py.strip at 1.
    rewrite (tidy_rstrip _ (tidy_app _ _ E (strip_tidy v))).
    rewrite lstrip_spaces_app. unfold Py.strip. apply lstrip_idem.
Qed.

Lemma strip_idem (v : string) : Py.strip (Py.strip v) = Py.strip v.
Proof. exact (strip_indent 0 v). Qed.

Lemma join_one (sep s : string) : Py.join sep [s] = s.
Proof. reflexivity. Qed.

End Fold.

(** C5, counterexample: fix-yaml-lint-v2.py folds a value that holds two
    consecutive blanks; it does not leave the line unchanged. *)
Lemma fold_not_refused :
  Py.contains (Py.drop 17 gap_line) "  " = true
  /\ LintV2.process_line 1 gap_line
     = Some ([ "    description:: >";
               "      This step  performs a very long security scan across all repos in the org" ],
             1).
Proof. split; vm_compute; reflexivity. Qed.

(** C5 (amended): the scripts fold a mapping entry whenever their length
    and character tests pass; runs of blanks inside the value are not
    tested.  The fold appends a header and one continuation line that
    holds the trimmed value after the indent, so that joining the
    continuation line(s) with single blanks and trimming gives the
    trimmed value back exactly, for every value. *)
Theorem fold_keeps_value :
  (forall (line : string) (colon_pos : nat),
      Py.contains line ": " = true ->
      Py.startswith (Py.lstrip line) "- " = false ->
      Py.find line ": " = Some colon_pos ->
      0 < colon_pos -> colon_pos < 60 ->
      LintV2.fold_applies (Py.drop (colon_pos + 2) line) = true ->
      exists header continuation,
        LintV2.split_mapping line
        = LintV2.Continue [header; continuation] 1
        /\ Py.strip (Py.join " " [continuation])
           = Py.strip (Py.drop (colon_pos + 2) line))
  /\
  (forall (line : string) (p : nat),
      (80 <? Py.len line)%nat = true ->
      Py.startswith (Py.strip line) "#" = false ->
      Py.contains line " - " = false ->
      Py.contains line "run: |" = false ->
      Py.count_char ":" line = 1 ->
      Py.contains line "|" = false ->
      Py.contains line ">" = false ->
      Py.find line ":" = Some p ->
      60 < Py.len (Py.strip (Py.drop (p + 1) line)) ->
      exists header continuation,
        Comprehensive.handle_long line = [header; continuation]
        /\ Py.strip (Py.join " " [continuation])
           = Py.strip (Py.drop (p + 1) line)).
Proof.
  split.
  - intros line colon_pos C L F H0 H60 HF.
    unfold LintV2.split_mapping. rewrite C, L, F, HF.
    apply Nat.ltb_lt in H0. apply Nat.ltb_lt in H60. rewrite H0, H60.
    cbn [andb negb]. unfold LintV2.fold_lines.
    eexists _, _. split; [reflexivity|].
    rewrite join_one. apply strip_indent.
  - intros line p HL HC H1 H2 H3 H4 H5 F HV.
    unfold Comprehensive.handle_long.
    assert (C : Py.contains line ":" = true).
    { destruct (Py.contains line ":") eqn:E; [reflexivity|].
      exfalso. clear -F E. revert p F.
      induction line as [|c t IH]; intros p F.
      - discriminate.
      - rewrite contains_cons in E. apply orb_false_iff in E as [E1 E2].
        rewrite find_cons, E1 in F.
        destruct (Py.find t ":") as [k|]; [|discriminate].
        now apply (IH E2 k). }
    rewrite HL, C, HC, H1, H2, H3, H4, H5, F.
    apply Nat.ltb_lt in HV. rewrite HV.
    cbn [andb negb orb Nat.eqb].
    eexists _, _. split; [reflexivity|].
    rewrite join_one. apply strip_indent.
Qed.

Lemma fold_keeps_value_witness :
  (exists header continuation,
      LintV2.split_mapping gap_line = LintV2.Continue [header; continuation] 1
      /\ Py.strip (Py.join " " [continuation])
         = Py.strip (Py.drop (15 + 2) gap_line))
  /\
  (exists header continuation,
      Comprehensive.handle_long gap_line = [header; continuation]
      /\ Py.strip (Py.join " " [continuation])
         = Py.strip (Py.drop (15 + 1) gap_line)).
Proof.
  split.
  - apply (proj1 fold_keeps_value gap_line 15);
      try (vm_compute; reflexivity); vm_compute; lia.
  - apply (proj2 fold_keeps_value gap_line 15);
      try (vm_compute; reflexivity); vm_compute; lia.
Defined.

(* ================================================================== *)
(** * The end of the document *)
(* ================================================================== *)

Section Terminator.

Lemma drop_app_len (a b : string) : Py.drop (Py.len a) (a ++ b) = b.
Proof. induction a as [|c a IH]; [reflexivity | exact IH]. Qed.

Lemma take_drop (n : nat) (s : string) : Py.take n s ++ Py.drop n s = s.
Proof.
  revert s. induction n as [|n IH]; intros [|c t]; simpl;
    try reflexivity. now rewrite IH.
Qed.

Lemma endswith_app (s p : string) : Py.endswith (s ++ p) p = true.
Proof.
  unfold Py.endswith. rewrite len_app.
  replace (Py.len s + Py.len p - Py.len p) with (Py.len s) by lia.
  rewrite drop_app_len, String.eqb_refl, andb_true_r.
  apply Nat.leb_le. lia.
Qed.

Lemma endswith_inv (s p : string) :
  Py.endswith s p = true -> exists t, s = t ++ p.
Proof.
  unfold Py.endswith. intros H. apply andb_true_iff in H as [_ H].
  apply String.eqb_eq in H. exists (Py.take (Py.len s - Py.len p) s).
  rewrite <- H at 2. symmetry. apply take_drop.
Qed.

Lemma snoc_inj (a b : string) (c : ascii) :
  a ++ String c EmptyString = b ++ String c EmptyString -> a = b.
Proof.
  revert b. induction a as [|x a IH]; intros [|y b]; simpl; intros H.
  - reflexivity.
  - injection H as _ H. destruct b; discriminate.
  - injection H as _ H. destruct a; discriminate.
  - injection H as -> H. f_equal. now apply IH.
Qed.

Lemma rstrip_char_last (x : ascii) (s : string) :
  Py.last_char (Py.rstrip_char x s) <> Some x.
Proof.
  induction s as [|c t IH]; simpl; [discriminate|].
  destruct (Ascii.eqb c x && Py.is_empty (Py.rstrip_char x t)) eqn:E;
    simpl; [discriminate|].
  destruct (Py.rstrip_char x t) eqn:R; [|exact IH].
  simpl in E. rewrite andb_true_r in E. apply Ascii.eqb_neq in E.
  congruence.
Qed.

Lemma two_newlines_inv (s : string) :
  Py.endswith (s ++ nl) (nl ++ nl) = true -> exists t, s = t ++ nl.
Proof.
  intros H. apply endswith_inv in H as [t H]. exists t.
  apply (snoc_inj _ _ (ascii_of_nat 10)).
  change (String (ascii_of_nat 10) EmptyString) with nl.
  now rewrite H, app_assoc'.
Qed.

(** The ending that lines 131-136 of fix-yaml-lint.py (and lines
    146-152 of fix-yaml-lint-v2.py) give a document: one newline, not
    two. *)
Lemma lint_finish_one_newline (fixed_lines : list string) :
  Py.endswith (Lint.finish fixed_lines) nl = true
  /\ Py.endswith (Lint.finish fixed_lines) (nl ++ nl) = false.
Proof.
  unfold Lint.finish.
  destruct (Py.endswith (Py.join nl fixed_lines) nl) eqn:E1; cbn [negb].
  - destruct (Py.endswith (Py.join nl fixed_lines) (nl ++ nl)) eqn:E2.
    + split; [apply endswith_app|].
      destruct (Py.endswith
                  (Py.rstrip_char (ascii_of_nat 10)
                                  (Py.join nl fixed_lines) ++ nl)
                  (nl ++ nl)) eqn:E3; [|reflexivity].
      apply two_newlines_inv in E3 as [t E3].
      exfalso. apply (rstrip_char_last (ascii_of_nat 10)
                                       (Py.join nl fixed_lines)).
      rewrite E3. now apply last_char_app.
    + now split.
  - split; [apply endswith_app|].
    destruct (Py.endswith (Py.join nl fixed_lines ++ nl) (nl ++ nl))
      eqn:E3; [|reflexivity].
    apply two_newlines_inv in E3 as [t E3].
    rewrite E3, endswith_app in E1. discriminate.
Qed.

(** fix-yaml-lint.py: every result ends with exactly one newline. *)
Lemma lint_result_one_newline (content result : string) :
  Lint.fix_yaml_content content = Some result ->
  Py.endswith result nl = true /\ Py.endswith result (nl ++ nl) = false.
Proof.
  unfold Lint.fix_yaml_content.
  destruct (Lint.process_lines 0 _) as [out|]; [|discriminate].
  intros [= <-]. apply lint_finish_one_newline.
Qed.

End Terminator.

(** C6 (code defect), evaluation at the failing input: on a document
    that ends with a blank line fix-yaml-aggressive.py reports nothing to
    fix and returns the text as it is, ending with two newlines;
    fix-yaml-lint.py on the same text returns it with one. *)
Theorem aggressive_keeps_blank_end :
  Aggressive.aggressively_fix_line_lengths blank_end_doc
  = Some (blank_end_doc, 0)
  /\ Py.endswith blank_end_doc (nl ++ nl) = true
  /\ Lint.fix_yaml_content blank_end_doc = Some (doc ["---"; "name: x"; ""]).
Proof. repeat split; vm_compute; reflexivity. Qed.

(* ================================================================== *)
(** * The document-start marker *)
(* ================================================================== *)

Section Marker.

Lemma lstrip_empty_all_space (s : string) :
  Py.lstrip s = EmptyString -> Py.all_space s = true.
Proof.
  induction s as [|c t IH]; [reflexivity|]. simpl.
  destruct (Py.isspace c); [exact IH | discriminate].
Qed.

(** A blank line is empty once its trailing whitespace is removed. *)
Lemma blank_rstrip (s : string) :
  Py.strip s = EmptyString -> Py.rstrip s = EmptyString.
Proof.
  unfold Py.strip. intros H. apply lstrip_empty_all_space in H.
  destruct (Py.is_empty (Py.rstrip s)) eqn:E; [now apply is_empty_true|].
  rewrite (tidy_not_all_space _ (rstrip_tidy s) E) in H. discriminate.
Qed.

Lemma lint_blank_line (i : nat) (line : string) :
  Py.strip line = EmptyString ->
  Lint.process_line i line = Some [EmptyString].
Proof.
  intros H. unfold Lint.process_line, Lint.needs_marker.
  rewrite H, (blank_rstrip _ H). simpl. now rewrite andb_false_r.
Qed.

Lemma lint_no_marker_any_index (i j : nat) (line : string) :
  Lint.needs_marker 0 line = false ->
  Lint.process_line i line = Lint.process_line j line.
Proof.
  unfold Lint.process_line, Lint.needs_marker. simpl. intros H.
  assert (B : forall k, ((k =? 0)%nat && Py.truthy (Py.strip line)
                         && negb (Py.startswith (Py.strip line) "---"))
                        = false).
  { intros k. rewrite <- andb_assoc, H. apply andb_false_r. }
  now rewrite (B i), (B j).
Qed.

End Marker.

(** C7 (code defect), evaluation at the failing input: the first line
    of the document is blank and the second is not the marker.
    fix-yaml-comprehensive.py and [fix_yaml_file] of fix-yaml-lint.py
    put the marker before the blank line; [fix_yaml_content] of
    fix-yaml-lint.py, which tests [line.strip()] first, and that of
    fix-yaml-lint-v2.py add no marker and return the text as it is. *)
Theorem blank_first_line_gains_marker :
  Py.strip (hd EmptyString (Py.split_char (ascii_of_nat 10) blank_start_doc))
  = EmptyString
  /\ Comprehensive.fixed_content blank_start_doc
     = doc ["---"; ""; "name: x"; ""]
  /\ LintFile.fix_yaml_text blank_start_doc
     = Some (doc ["---"; ""; "name: x"; ""], 1)
  /\ Lint.fix_yaml_content blank_start_doc = Some blank_start_doc
  /\ LintV2.fix_yaml_content blank_start_doc = Some (blank_start_doc, 0).
Proof. repeat split; vm_compute; reflexivity. Qed.

(* ================================================================== *)
(** * A templating expression that is not closed *)
(* ================================================================== *)

(** C8, counterexample: fix-yaml-lint.py breaks the line at a word
    boundary that lies after the opening token, inside the span that runs
    from the token to the end of the line. *)
Lemma open_expr_line_split :
  Py.contains open_expr_line "${{" = true
  /\ Py.contains open_expr_line "}}" = false
  /\ Py.find open_expr_line "${{" = Some 34
  /\ Lint.process_line 1 open_expr_line
     = Some [ "    name: Deploy the service with ${{ format('{0} to {1} on cluster {2} at {3}',";
              "      a, b, c" ].
Proof. repeat split; vm_compute; reflexivity. Qed.

(** C8 (amended): a line that holds [${{] and no [}}] is not protected:
    the scripts protect a line only when both tokens occur in it, so such
    a line goes through the ordinary splitting rules and may be split
    after its opening token.  No line makes an iteration of the rewrite
    loops raise an error. *)
Theorem open_expr_not_protected :
  (forall line : string,
      Py.contains line "${{" = true -> Py.contains line "}}" = false ->
      Lint.expr_protected line = false
      /\ LintV2.expr_protected line = false
      /\ Aggressive.skipped line = Py.startswith (Py.strip line) "#")
  /\ (forall (i : nat) (line : string),
         exists out, Lint.process_line i line = Some out)
  /\ (forall (i : nat) (line : string),
         exists out, LintV2.process_line i line = Some out)
  /\ (forall line : string,
         exists out, Aggressive.process_line line = Some out).
Proof.
  split; [|split; [|split]].
  - intros line HO HC.
    unfold Lint.expr_protected, LintV2.expr_protected, Aggressive.skipped.
    rewrite HO, HC. simpl. now rewrite orb_false_r.
  - exact lint_process_line_total.
  - exact v2_process_line_total.
  - exact aggressive_process_line_total.
Qed.

Lemma open_expr_not_protected_witness :
  Lint.expr_protected open_expr_line = false
  /\ LintV2.expr_protected open_expr_line = false
  /\ Aggressive.skipped open_expr_line
     = Py.startswith (Py.strip open_expr_line) "#".
Proof.
  apply (proj1 open_expr_not_protected open_expr_line);
    vm_compute; reflexivity.
Defined.

(* ================================================================== *)
(** * A file that cannot be processed *)
(* ================================================================== *)

Section Runners.

Variable rewrite : string -> string -> option (string * nat).

Lemma report_of_name (name : string) (fixes : nat) :
  report_name (Batch.report_of name fixes) = name.
Proof. unfold Batch.report_of. now destruct (0 <? fixes)%nat. Qed.

(** A loop wrapped in [try ... except] reports on every file, in
    order, whatever happens to the files before it. *)
Lemma guarded_loop_reports_all (names : list string) :
  forall (d : Batch.dir) (log : list Batch.report) (total : nat),
    map report_name
        (snd (fst (Batch.guarded_loop rewrite names d log total)))
    = (map report_name log ++ names)%list.
Proof.
  induction names as [|name rest IH]; intros d log total; simpl.
  - now rewrite app_nil_r.
  - destruct (Batch.process_file rewrite d name) as [[d' fixes]|];
      rewrite IH, map_app; simpl; rewrite <- app_assoc;
      [now rewrite report_of_name | reflexivity].
Qed.

End Runners.

(** fix-yaml-lint-v2.py: [main] returns, with a report on every file. *)
Lemma main_v2_reports_all (names : list string) (d : Batch.dir) :
  names <> [] ->
  exists d' log total,
    Batch.main_v2 names d = Batch.Returned 0 d' log total
    /\ map report_name log = names.
Proof.
  intros H. unfold Batch.main_v2.
  pose proof (guarded_loop_reports_all
                (fun _ c => LintV2.fix_yaml_content c) names d [] 0) as R.
  destruct (Batch.guarded_loop _ names d [] 0) as [[d' log] total].
  destruct names as [|n r]; [contradiction|]. now exists d', log, total.
Qed.

(** C9 (code defect), evaluation at the failing input: the [main] of
    fix-yaml-final.py and the [main] of fix-yaml-lint.py stop at the
    unreadable first file with an uncaught exception and leave the second
    file as it was; the [main] of fix-yaml-lint-v2.py reports the failure
    and goes on to rewrite the second file. *)
Theorem unreadable_file_ends_batch :
  Batch.main_final ["a.yml"; "b.yml"] locked_dir
  = Batch.Uncaught locked_dir []
  /\ Batch.main_lint ["a.yml"; "b.yml"] locked_dir
     = Batch.Uncaught locked_dir []
  /\ exists d',
      Batch.main_v2 ["a.yml"; "b.yml"] locked_dir
      = Batch.Returned 0 d' [Batch.Failed "a.yml"; Batch.Fixed "b.yml" 1] 1
      /\ option_map Batch.content (Batch.lookup "b.yml" d')
         = Some (doc [ "---"; "      run:: >";
                       "        echo build and push the multi arch container image to the registry now and wait for the result";
                       "" ]).
Proof.
  split; [vm_compute; reflexivity|].
  split; [vm_compute; reflexivity|].
  eexists. split; vm_compute; reflexivity.
Qed.

(* ================================================================== *)
(** * The file name as an input of the rewrite *)
(* ================================================================== *)

Section FileName.

Lemma fix_indent_other (filename line : string) :
  filename <> "scan-to-securityhub.yml" ->
  Targeted.fix_indent filename line = (line, 0).
Proof.
  intros H. unfold Targeted.fix_indent.
  apply String.eqb_neq in H. now rewrite H.
Qed.

Lemma targeted_lines_other (f1 f2 : string) (lines : list string) :
  f1 <> "scan-to-securityhub.yml" -> f2 <> "scan-to-securityhub.yml" ->
  Targeted.process_lines f1 lines = Targeted.process_lines f2 lines.
Proof.
  intros H1 H2. induction lines as [|l r IH]; [reflexivity|].
  cbn [Targeted.process_lines]. rewrite IH. unfold Targeted.process_line.
  now rewrite (fix_indent_other f1 l H1), (fix_indent_other f2 l H2).
Qed.

Lemma lookup_store_other (n name text : string) (d : Batch.dir) :
  n <> name ->
  Batch.lookup name (Batch.store n text d) = Batch.lookup name d.
Proof.
  intros H. induction d as [|[k f] r IH]; [reflexivity|]. simpl.
  destruct (String.eqb k n) eqn:E.
  - apply String.eqb_eq in E. subst k. simpl.
    apply String.eqb_neq in H. now rewrite H.
  - simpl. destruct (String.eqb k name); [reflexivity | exact IH].
Qed.

Lemma process_file_other rewrite (d d' : Batch.dir) (n name : string)
      (fixes : nat) :
  n <> name ->
  Batch.process_file rewrite d n = Some (d', fixes) ->
  Batch.lookup name d' = Batch.lookup name d.
Proof.
  intros H. unfold Batch.process_file, Batch.write_file.
  destruct (Batch.read_file d n); [|discriminate].
  destruct (rewrite n s) as [[fixed k]|]; [|discriminate].
  destruct (0 <? k)%nat; [|now intros [= <- _]].
  destruct (Batch.lookup n d); [|discriminate].
  destruct (Batch.writable f); [|discriminate].
  intros [= <- _]. now apply lookup_store_other.
Qed.

Lemma targeted_loop_other (name : string) (names : list string) :
  ~ In name names ->
  forall (d : Batch.dir) (log : list Batch.report) (total : nat),
    Batch.lookup name
      (fst (fst (Batch.targeted_loop names d log total)))
    = Batch.lookup name d.
Proof.
  induction names as [|n rest IH]; intros H d log total; [reflexivity|].
  assert (Hn : n <> name) by (intros ->; apply H; now left).
  assert (Hr : ~ In name rest) by (intros Hin; apply H; now right).
  cbn [Batch.targeted_loop].
  destruct (negb (Batch.exists_in d n)); [now apply IH|].
  destruct (Batch.process_file _ d n) as [[d' fixes]|] eqn:P.
  - rewrite (IH Hr). exact (process_file_other _ d d' n name fixes Hn P).
  - now apply IH.
Qed.

Lemma targeted_loop_log (all names : list string) :
  incl names all ->
  forall (d : Batch.dir) (log : list Batch.report) (total : nat),
    Forall (fun r => In (report_name r) all) log ->
    Forall (fun r => In (report_name r) all)
           (snd (fst (Batch.targeted_loop names d log total))).
Proof.
  induction names as [|n rest IH]; intros H d log total HL; [exact HL|].
  assert (Hn : In n all) by (apply H; now left).
  assert (Hr : incl rest all) by (intros x Hx; apply H; now right).
  cbn [Batch.targeted_loop].
  destruct (negb (Batch.exists_in d n)); [now apply IH|].
  destruct (Batch.process_file _ d n) as [[d' fixes]|]; apply (IH Hr);
    apply Forall_app; (split; [exact HL|]); constructor;
    try constructor; [now rewrite report_of_name | exact Hn].
Qed.

End FileName.


(* ================================================================== *)
(** * Words are kept by the word breaks *)
(* ================================================================== *)

Section Words.

Lemma words_aux_cons (c : ascii) (t : string) :
  Py.words_aux (String c t) =
  let '(w, ws) := Py.words_aux t in
  if Py.isspace c
  then (EmptyString, if Py.is_empty w then ws else w :: ws)
  else (String c w, ws).
Proof. reflexivity. Qed.

Lemma split_ws_space (c : ascii) (t : string) :
  Py.isspace c = true -> Py.split_ws (String c t) = Py.split_ws t.
Proof.
  intros H. unfold Py.split_ws. rewrite words_aux_cons.
  destruct (Py.words_aux t) as [w ws]. now rewrite H.
Qed.

Lemma words_aux_space_start (c : ascii) (b : string) :
  Py.isspace c = true ->
  Py.words_aux (String c b) = (EmptyString, Py.split_ws b).
Proof.
  intros H. rewrite words_aux_cons. unfold Py.split_ws.
  destruct (Py.words_aux b) as [w ws]. now rewrite H.
Qed.

(** The words of a text cut at a whitespace character. *)
Lemma words_aux_app (a b : string) (c : ascii) :
  Py.isspace c = true ->
  Py.words_aux (a ++ String c b)
  = (fst (Py.words_aux a), (snd (Py.words_aux a) ++ Py.split_ws b)%list).
Proof.
  intros H. induction a as [|x a IH].
  - simpl append. now rewrite words_aux_space_start.
  - change (String x a ++ String c b) with (String x (a ++ String c b)).
    rewrite !words_aux_cons, IH.
    destruct (Py.words_aux a) as [w ws]. simpl fst. simpl snd.
    destruct (Py.isspace x); [|reflexivity].
    now destruct (Py.is_empty w).
Qed.

Lemma split_ws_app (a b : string) (c : ascii) :
  Py.isspace c = true ->
  Py.split_ws (a ++ String c b) = (Py.split_ws a ++ Py.split_ws b)%list.
Proof.
  intros H. unfold Py.split_ws at 1 2. rewrite (words_aux_app a b c H).
  destruct (Py.words_aux a) as [w ws]. simpl.
  now destruct (Py.is_empty w).
Qed.

Lemma words_aux_no_space (w : string) :
  no_space w = true -> Py.words_aux w = (w, []).
Proof.
  induction w as [|c t IH]; [reflexivity|]. simpl no_space.
  intros H. apply andb_true_iff in H as [Hc Ht].
  rewrite words_aux_cons, (IH Ht). apply negb_true_iff in Hc. now rewrite Hc.
Qed.

(** A token is its own single word. *)
Lemma split_ws_token (w : string) : token w = true -> Py.split_ws w = [w].
Proof.
  unfold token. intros H. apply andb_true_iff in H as [He Hn].
  unfold Py.split_ws. rewrite (words_aux_no_space w Hn).
  apply negb_true_iff in He. now rewrite He.
Qed.

Lemma split_ws_spaces_app (n : nat) (s : string) :
  Py.split_ws (Py.spaces n ++ s) = Py.split_ws s.
Proof.
  induction n as [|n IH]; [reflexivity|].
  change (Py.spaces (S n) ++ s) with (String " " (Py.spaces n ++ s)).
  now rewrite split_ws_space.
Qed.

Lemma split_ws_add_word (cur word : string) :
  token word = true ->
  Py.split_ws (cur ++ " " ++ word) = (Py.split_ws cur ++ [word])%list.
Proof.
  intros H. change (cur ++ " " ++ word) with (cur ++ String " " word).
  rewrite split_ws_app by reflexivity. now rewrite (split_ws_token word H).
Qed.

(** The loop of the word break neither loses nor reorders a word: the
    words of the lines it builds are those of the line it started with,
    followed by the words it was given. *)
Lemma wrap_loop_words (n : nat) :
  forall (ws : list string) (cur : string) (out : list string)
         (last : string),
    Forall (fun w => token w = true) ws ->
    Lint.wrap_loop (Py.spaces n) cur ws = (out, last) ->
    flat_map Py.split_ws (out ++ [last])%list
    = (Py.split_ws cur ++ ws)%list.
Proof.
  induction ws as [|word r IH]; intros cur out last HT.
  - simpl. intros [= <- <-]. reflexivity.
  - inversion HT as [|? ? Hw Hr]; subst. rewrite wrap_loop_cons.
    destruct (_ <=? 80)%nat.
    + intros H. rewrite (IH _ _ _ Hr H), split_ws_add_word by exact Hw.
      now rewrite <- app_assoc.
    + destruct (Lint.wrap_loop (Py.spaces n) (Py.spaces n ++ word) r)
        as [out' last'] eqn:W.
      intros [= <- <-]. simpl. rewrite (IH _ _ _ Hr W).
      rewrite split_ws_spaces_app, (split_ws_token word Hw). reflexivity.
Qed.

Lemma flat_map_snoc {A B} (f : A -> list B) (l : list A) (x : A) :
  flat_map f (l ++ [x])%list = (flat_map f l ++ f x)%list.
Proof. rewrite flat_map_app. simpl. now rewrite app_nil_r. Qed.

Lemma all_space_no_words (s : string) :
  Py.all_space s = true -> Py.split_ws s = [].
Proof.
  induction s as [|c t IH]; [reflexivity|]. simpl.
  intros H. apply andb_true_iff in H as [Hc Ht].
  rewrite (split_ws_space c t Hc). now apply IH.
Qed.

Lemma rstrip_empty_all_space (s : string) :
  Py.rstrip s = EmptyString -> Py.all_space s = true.
Proof.
  induction s as [|c t IH]; [reflexivity|]. simpl.
  destruct (Py.isspace c) eqn:E; simpl.
  - destruct (Py.rstrip t) eqn:R; [|discriminate]. intros _. now apply IH.
  - discriminate.
Qed.

Lemma strip_empty_no_words (s : string) :
  Py.truthy (Py.strip s) = false -> Py.split_ws s = [].
Proof.
  unfold Py.truthy. intros H. apply negb_false_iff in H.
  apply is_empty_true in H. apply blank_rstrip in H.
  apply all_space_no_words. now apply rstrip_empty_all_space.
Qed.

Lemma wrap_words_words (n : nat) (first : string) (ws : list string) :
  Forall (fun w => token w = true) ws ->
  flat_map Py.split_ws (Lint.wrap_words (Py.spaces n) first ws)
  = (Py.split_ws first ++ ws)%list.
Proof.
  intros HT. unfold Lint.wrap_words.
  destruct (Lint.wrap_loop (Py.spaces n) first ws) as [out last] eqn:W.
  pose proof (wrap_loop_words n ws first out last HT W) as H.
  destruct (Py.truthy (Py.strip last)) eqn:E; [exact H|].
  rewrite flat_map_snoc, (strip_empty_no_words last E), app_nil_r in H.
  exact H.
Qed.

Lemma drop_drop (n m : nat) (s : string) :
  Py.drop n (Py.drop m s) = Py.drop (m + n) s.
Proof.
  revert s. induction m as [|m IH]; intros s; [reflexivity|].
  destruct s as [|c t]; simpl; [now destruct n | apply IH].
Qed.

Lemma startswith_colon_blank (s : string) :
  Py.startswith s ": " = true ->
  exists r, s = String ":" (String " " r).
Proof.
  intros H. exists (Py.drop 2 s). exact (startswith_split s ": " H).
Qed.

(** A line cut at the blank that follows a colon. *)
Lemma cut_at_colon (line : string) (p : nat) :
  Py.find line ": " = Some p ->
  Py.take (p + 1) line ++ " " ++ Py.drop (p + 2) line = line.
Proof.
  revert p. induction line as [|c t IH]; intros p; [discriminate|].
  rewrite find_cons.
  destruct (Py.startswith (String c t) ": ") eqn:E.
  - intros [= <-]. destruct (startswith_colon_blank _ E) as [r ->].
    reflexivity.
  - destruct (Py.find t ": ") as [k|]; [|discriminate].
    intros [= <-]. simpl. f_equal. now apply IH.
Qed.

(** The key of a line cut at a colon ends with the colon. *)
Lemma key_ends_with_colon (line : string) (p : nat) :
  Py.find line ": " = Some p ->
  Py.last_char (Py.take (p + 1) line) = Some ":"%char.
Proof.
  revert p. induction line as [|c t IH]; intros p; [discriminate|].
  rewrite find_cons.
  destruct (Py.startswith (String c t) ": ") eqn:E.
  - intros [= <-]. destruct (startswith_colon_blank _ E) as [r ->].
    reflexivity.
  - destruct (Py.find t ": ") as [k|] eqn:F; [|discriminate].
    intros [= <-]. simpl. rewrite (IH k eq_refl).
    destruct (Py.take (k + 1) t) eqn:T; [|reflexivity].
    specialize (IH k eq_refl). rewrite T in IH. discriminate.
Qed.

Lemma leading_ws_lstrip (s : string) : Py.leading_ws s ++ Py.lstrip s = s.
Proof.
  induction s as [|c t IH]; [reflexivity|]. simpl.
  destruct (Py.isspace c); [simpl; now rewrite IH | reflexivity].
Qed.

Lemma until_char_prefix (x : ascii) (s k : string) :
  Re.until_char x s = Some k -> s = k ++ Py.drop (Py.len k) s.
Proof.
  revert k. induction s as [|c t IH]; intros k; [discriminate|]. simpl.
  destruct (Ascii.eqb c x); [intros [= <-]; reflexivity|].
  destruct (Re.until_char x t) as [k'|]; [|discriminate].
  intros [= <-]. simpl. f_equal. now apply IH.
Qed.

Lemma spaces_snoc (n : nat) : Py.spaces n ++ " " = Py.spaces (S n).
Proof. induction n as [|n IH]; [reflexivity|]. simpl. now rewrite IH. Qed.

(** A list item is its prefix followed by its content. *)
Lemma list_item_cut (line prefix content : string) :
  Re.list_item line = Some (prefix, content) ->
  prefix = Py.leading_ws line ++ "- " /\ line = prefix ++ content.
Proof.
  unfold Re.list_item.
  destruct (_ && _) eqn:E; [|discriminate]. intros [= <- <-].
  split; [reflexivity|]. apply andb_true_iff in E as [E _].
  apply startswith_split in E. rewrite app_assoc'.
  rewrite <- (leading_ws_lstrip line) at 1. f_equal. exact E.
Qed.

(** The words of a list item: those of its dash and those of its
    content. *)
Lemma list_item_words (line prefix content : string) :
  Re.list_item line = Some (prefix, content) ->
  Py.split_ws line
  = (Py.split_ws (Py.leading_ws line ++ "-") ++ Py.split_ws content)%list.
Proof.
  intros H. destruct (list_item_cut _ _ _ H) as [-> E].
  rewrite E at 1. rewrite <- (split_ws_app _ _ " "%char eq_refl).
  f_equal. now rewrite !app_assoc'.
Qed.

Lemma list_first_words (lw rest : string) :
  Py.split_ws ((lw ++ "- ") ++ rest)
  = (Py.split_ws (lw ++ "-") ++ Py.split_ws rest)%list.
Proof.
  rewrite <- (split_ws_app _ _ " "%char eq_refl). f_equal.
  now rewrite !app_assoc'.
Qed.

End Words.

(** X1: the word break of fix-yaml-lint.py (key-value pairs, lines 74-96,
    and list items, lines 99-123) keeps the words of the line: the words
    of the lines it appends, in order, are the words of the line. *)
Theorem lint_word_break_keeps_words (line : string) (out : list string) :
  Lint.split_mapping line = Lint.Continue out
  \/ Lint.split_list_item line = Lint.Continue out ->
  flat_map Py.split_ws out = Py.split_ws line.
Proof.
  intros [H|H].
  - unfold Lint.split_mapping in H.
    destruct (_ && _); [|discriminate].
    destruct (Py.find line ": ") as [p|] eqn:F; [|discriminate].
    destruct (_ && _); [|discriminate].
    destruct (_ && _); [|discriminate].
    pose proof (split_ws_tokens (Py.drop (p + 2) line)) as T.
    destruct (Py.split_ws (Py.drop (p + 2) line)) as [|w0 ws] eqn:W;
      [discriminate|].
    injection H as <-. inversion T as [|? ? Hw0 Hws]; subst.
    rewrite (wrap_words_words _ _ _ Hws), (split_ws_add_word _ _ Hw0).
    rewrite <- app_assoc. simpl app. rewrite <- W.
    rewrite <- (split_ws_app _ _ " "%char eq_refl).
    change (Py.take (p + 1) line ++ String " " (Py.drop (p + 2) line))
      with (Py.take (p + 1) line ++ " " ++ Py.drop (p + 2) line).
    now rewrite (cut_at_colon line p F).
  - unfold Lint.split_list_item in H.
    destruct (_ && _); [|discriminate].
    destruct (Re.list_item line) as [[prefix content]|] eqn:R;
      [|discriminate].
    destruct (Py.contains content ": "); [|discriminate].
    unfold Lint.match_key_val in H.
    destruct (Re.until_char ":" content) as [k|] eqn:U; [|discriminate].
    destruct (_ && _) eqn:E; [|discriminate].
    destruct (40 <? _)%nat; [|discriminate].
    destruct (Py.contains _ " "); [|discriminate].
    set (val := Py.drop 2 (Py.drop (Py.len k) content)) in *.
    pose proof (split_ws_tokens val) as T.
    destruct (Py.split_ws val) as [|w0 ws] eqn:W; [discriminate|].
    injection H as <-. inversion T as [|? ? Hw0 Hws]; subst.
    rewrite spaces_snoc, (wrap_words_words _ _ _ Hws).
    rewrite (list_item_words _ _ _ R).
    destruct (list_item_cut _ _ _ R) as [-> _].
    apply andb_true_iff in E as [E _]. apply andb_true_iff in E as [_ E].
    apply startswith_split in E.
    change (Py.drop (Py.len ": ") (Py.drop (Py.len k) content)) with val in E.
    assert (C : content = (k ++ ":") ++ String " " val).
    { rewrite (until_char_prefix _ _ _ U) at 1. rewrite E.
      now rewrite app_assoc'. }
    rewrite list_first_words.
    replace ((k ++ ": ") ++ w0) with ((k ++ ":") ++ String " " w0)
      by now rewrite !app_assoc'.
    rewrite C, !(split_ws_app _ _ " "%char eq_refl).
    rewrite (split_ws_token w0 Hw0), W. now rewrite <- !app_assoc.
Qed.

Lemma lint_word_break_keeps_words_witness :
  flat_map Py.split_ws
    [ "    description: This step performs a very long security scan across all repos";
      "      in the org and every fork" ]
  = Py.split_ws refold_line.
Proof.
  apply lint_word_break_keeps_words. left. vm_compute. reflexivity.
Defined.

(** X2: fix-yaml-aggressive.py, pattern 2 (list items, lines 53-83): the
    lines appended for a list item, be it split after its key or broken
    at word boundaries, hold the words of the line, in order. *)
Theorem aggressive_list_keeps_words (line : string) (out : list string) :
  Py.startswith (Py.lstrip line) "- " = true ->
  Aggressive.patterns line = Aggressive.Fixed out ->
  flat_map Py.split_ws out = Py.split_ws line.
Proof.
  intros L. unfold Aggressive.patterns. rewrite L, andb_false_r.
  destruct (Re.list_item line) as [[marker content]|] eqn:R; [|discriminate].
  destruct (list_item_cut _ _ _ R) as [HM HL].
  destruct (Py.contains content ": ").
  - destruct (Py.find content ": ") as [p|] eqn:F; [|discriminate].
    destruct (30 <? _)%nat; [|discriminate]. intros [= <-].
    simpl flat_map. rewrite app_nil_r.
    change (Py.spaces (Py.len marker) ++ "  " ++ Py.drop (p + 2) content)
      with (Py.spaces (Py.len marker) ++ Py.spaces 2
            ++ Py.drop (p + 2) content).
    rewrite !split_ws_spaces_app.
    assert (C : Py.take (p + 1) content
                ++ String " " (Py.drop (p + 2) content) = content)
      by exact (cut_at_colon content p F).
    replace (Py.split_ws line)
      with (Py.split_ws ((marker ++ Py.take (p + 1) content)
                         ++ String " " (Py.drop (p + 2) content)))
      by (now rewrite app_assoc', C, <- HL).
    rewrite !(split_ws_space " "%char) by reflexivity.
    now rewrite (split_ws_app _ _ " "%char eq_refl).
  - pose proof (split_ws_tokens content) as T.
    destruct (Py.split_ws content) as [|w0 ws] eqn:W; [discriminate|].
    intros [= <-]. inversion T as [|? ? Hw0 Hws]; subst marker.
    unfold Aggressive.wrap_words.
    destruct (Lint.wrap_loop _ _ ws) as [o last] eqn:WL.
    rewrite (wrap_loop_words _ _ _ _ _ Hws WL).
    rewrite (list_item_words _ _ _ R), W, list_first_words.
    rewrite (split_ws_token w0 Hw0). now rewrite <- app_assoc.
Qed.

Lemma aggressive_list_keeps_words_witness :
  flat_map Py.split_ws
    [ "  - build and push the multi arch container image to the registry now and then";
      "    go on" ]
  = Py.split_ws
      "  - build and push the multi arch container image to the registry now and then go on".
Proof.
  apply aggressive_list_keeps_words; vm_compute; reflexivity.
Defined.


Section WordsV2.

Lemma snoc_decomp (s : string) :
  Py.is_empty s = false ->
  exists a c, s = a ++ String c EmptyString /\ Py.last_char s = Some c.
Proof.
  induction s as [|x t IH]; [discriminate|]. intros _.
  destruct t as [|y t'].
  - now exists EmptyString, x.
  - destruct (IH eq_refl) as (a & c & E & L).
    exists (String x a), c. split; [simpl; now rewrite <- E | exact L].
Qed.

Lemma split_ws_after_blank (a b : string) :
  ends_blank a = true ->
  Py.split_ws (a ++ b) = (Py.split_ws a ++ Py.split_ws b)%list.
Proof.
  unfold ends_blank. destruct (Py.is_empty a) eqn:E.
  - apply is_empty_true in E. now subst a.
  - destruct (snoc_decomp a E) as (a' & c & -> & L). rewrite L. intros Hc.
    rewrite app_assoc'. simpl append.
    rewrite !(split_ws_app _ _ c Hc). simpl. now rewrite app_nil_r.
Qed.

Lemma rstrip_decomp (s : string) :
  exists t, s = Py.rstrip s ++ t /\ Py.all_space t = true.
Proof.
  induction s as [|c s' (t & E & A)]; [now exists EmptyString|]. simpl.
  destruct (Py.isspace c && Py.is_empty (Py.rstrip s')) eqn:C.
  - exists (String c s'). split; [reflexivity|].
    apply andb_true_iff in C as [Hc He]. simpl. rewrite Hc.
    apply rstrip_empty_all_space. now apply is_empty_true.
  - exists t. split; [simpl; now rewrite <- E | exact A].
Qed.

Lemma split_ws_rstrip (s : string) : Py.split_ws (Py.rstrip s) = Py.split_ws s.
Proof.
  destruct (rstrip_decomp s) as (t & E & A). rewrite E at 2.
  destruct t as [|c t']; [now rewrite app_empty_r|].
  simpl in A. apply andb_true_iff in A as [Hc Ht].
  rewrite (split_ws_app _ _ c Hc), (all_space_no_words t' Ht).
  now rewrite app_nil_r.
Qed.

Lemma ends_blank_spaces (n : nat) : ends_blank (Py.spaces n) = true.
Proof.
  unfold ends_blank. induction n as [|n IH]; [reflexivity|].
  simpl. destruct (Py.spaces n); [reflexivity | exact IH].
Qed.

Lemma ends_blank_snoc (s : string) : ends_blank (s ++ " ") = true.
Proof. unfold ends_blank. now rewrite last_char_app. Qed.

Lemma split_ws_word_blank (w : string) :
  token w = true -> Py.split_ws (w ++ " ") = [w].
Proof.
  intros H. rewrite (split_ws_app w EmptyString " "%char eq_refl).
  now rewrite (split_ws_token w H).
Qed.

Lemma cont_loop_cons (ci cont word : string) (r : list string) :
  LintV2.cont_loop ci cont (word :: r) =
  if (Py.len (cont ++ word ++ " ") <=? 80)%nat
  then LintV2.cont_loop ci (cont ++ word ++ " ") r
  else ((if Py.truthy (Py.strip cont) then [Py.rstrip cont] else [])
        ++ LintV2.cont_loop ci (ci ++ word ++ " ") r)%list.
Proof. reflexivity. Qed.

Lemma flushed_words (cont : string) :
  flat_map Py.split_ws
    (if Py.truthy (Py.strip cont) then [Py.rstrip cont] else [])
  = Py.split_ws cont.
Proof.
  destruct (Py.truthy (Py.strip cont)) eqn:E.
  - simpl. now rewrite app_nil_r, split_ws_rstrip.
  - simpl. symmetry. now apply strip_empty_no_words.
Qed.

(** The continuation loop of fix-yaml-lint-v2.py keeps the words it is
    given. *)
Lemma cont_loop_words (n : nat) :
  forall (ws : list string) (cont : string),
    ends_blank cont = true ->
    Forall (fun w => token w = true) ws ->
    flat_map Py.split_ws (LintV2.cont_loop (Py.spaces n) cont ws)
    = (Py.split_ws cont ++ ws)%list.
Proof.
  induction ws as [|word r IH]; intros cont HB HT.
  - simpl LintV2.cont_loop. rewrite flushed_words. now rewrite app_nil_r.
  - inversion HT as [|? ? Hw Hr]; subst. rewrite cont_loop_cons.
    destruct (_ <=? 80)%nat.
    + rewrite IH; [|rewrite <- app_assoc'; apply ends_blank_snoc | exact Hr].
      rewrite (split_ws_after_blank cont _ HB), (split_ws_word_blank _ Hw).
      now rewrite <- app_assoc.
    + rewrite flat_map_app, flushed_words.
      rewrite IH; [|rewrite <- app_assoc'; apply ends_blank_snoc | exact Hr].
      rewrite split_ws_spaces_app.
      now rewrite (split_ws_word_blank _ Hw).
Qed.

Lemma list_index_at (word : string) (pre r : list string) :
  NoDup (pre ++ word :: r) ->
  Py.list_index word (pre ++ word :: r) = Some (length pre).
Proof.
  induction pre as [|y pre IH]; intros H.
  - simpl. now rewrite String.eqb_refl.
  - simpl in *. inversion H as [|? ? Hy Hr]; subst.
    assert (N : String.eqb y word = false).
    { apply String.eqb_neq. intros ->. apply Hy.
      apply in_or_app. right. now left. }
    now rewrite N, (IH Hr).
Qed.

Lemma skipn_app_len {A} (pre l : list A) : skipn (length pre) (pre ++ l) = l.
Proof. induction pre as [|y pre IH]; [reflexivity | exact IH]. Qed.

Lemma first_loop_cons (words : list string) (cur word : string)
      (r : list string) :
  LintV2.first_loop words cur (word :: r) =
  if (Py.len (cur ++ " " ++ word) <=? 80)%nat
  then LintV2.first_loop words (cur ++ " " ++ word) r
  else match Py.list_index word words with
       | Some k => (cur, skipn k words)
       | None => (cur, [])
       end.
Proof. reflexivity. Qed.

(** The first loop of strategy 2: when the words are pairwise distinct,
    the first line and the remaining words hold the words of the
    value. *)
Lemma first_loop_words :
  forall (ws pre : list string) (cur cur' : string) (rem : list string),
    NoDup (pre ++ ws) ->
    Forall (fun w => token w = true) ws ->
    LintV2.first_loop (pre ++ ws) cur ws = (cur', rem) ->
    (Py.split_ws cur' ++ rem)%list = (Py.split_ws cur ++ ws)%list.
Proof.
  induction ws as [|word r IH]; intros pre cur cur' rem HN HT.
  - simpl. now intros [= <- <-].
  - inversion HT as [|? ? Hw Hr]; subst. rewrite first_loop_cons.
    destruct (_ <=? 80)%nat.
    + replace (pre ++ word :: r)%list with ((pre ++ [word]) ++ r)%list
        by (now rewrite <- app_assoc).
      intros H. apply IH in H;
        [ | now rewrite <- app_assoc | exact Hr ].
      rewrite H, (split_ws_add_word _ _ Hw). now rewrite <- app_assoc.
    + rewrite (list_index_at word pre r HN), skipn_app_len.
      now intros [= <- <-].
Qed.

End WordsV2.


(** X3: fix-yaml-lint-v2.py keeps the words of a line that it breaks:
    (1) strategy 2 (lines 91-118), when the words of the value are
    pairwise distinct and the value is not folded; (2) the split of a
    list item after its key (lines 124-141). *)
Theorem v2_break_keeps_words :
  (forall (line : string) (p : nat) (out : list string) (c : nat),
      Py.find line ": " = Some p ->
      LintV2.fold_applies (Py.drop (p + 2) line) = false ->
      NoDup (Py.split_ws (Py.drop (p + 2) line)) ->
      LintV2.split_mapping line = LintV2.Continue out c ->
      flat_map Py.split_ws out = Py.split_ws line)
  /\
  (forall (line : string) (out : list string) (c : nat),
      LintV2.split_list_item line = LintV2.Continue out c ->
      flat_map Py.split_ws out = Py.split_ws line).
Proof.
  split.
  - intros line p out c F HF HN. unfold LintV2.split_mapping.
    rewrite F, HF.
    destruct (_ && _); [|discriminate].
    destruct (_ && _); [|discriminate].
    destruct (_ && _); [|discriminate].
    pose proof (split_ws_tokens (Py.drop (p + 2) line)) as T.
    destruct (Py.split_ws (Py.drop (p + 2) line)) as [|w0 ws] eqn:W;
      [discriminate|].
    inversion T as [|? ? Hw0 Hws]; subst.
    destruct (LintV2.first_loop _ _ ws) as [cur rem] eqn:FL.
    apply (first_loop_words ws [w0] _ _ _ HN Hws) in FL.
    destruct rem as [|x rem']; [discriminate|].
    remember (LintV2.cont_loop _ _ (x :: rem')) as CL eqn:HCL.
    intros [= <- _].
    assert (TR : Forall (fun w => token w = true) (x :: rem')).
    { rewrite (split_ws_add_word _ _ Hw0), <- app_assoc in FL.
      assert (I : incl (x :: rem') (Py.split_ws cur ++ x :: rem'))
        by (intros y Hy; apply in_or_app; now right).
      rewrite FL in I. rewrite Forall_forall. intros y Hy.
      apply I in Hy. apply in_app_or in Hy as [Hy|Hy].
      - pose proof (split_ws_tokens (Py.take (p + 1) line)) as TK.
        rewrite Forall_forall in TK. now apply TK.
      - rewrite Forall_forall in T. now apply T. }
    cbn [flat_map]. rewrite HCL.
    rewrite (cont_loop_words _ _ _ (ends_blank_spaces _) TR).
    rewrite <- (app_empty_r (Py.spaces _)), split_ws_spaces_app.
    change (Py.split_ws EmptyString) with (@nil string). simpl app at 2.
    rewrite FL, (split_ws_add_word _ _ Hw0), <- app_assoc. simpl app.
    rewrite <- W, <- (split_ws_app _ _ " "%char eq_refl).
    change (Py.take (p + 1) line ++ String " " (Py.drop (p + 2) line))
      with (Py.take (p + 1) line ++ " " ++ Py.drop (p + 2) line).
    now rewrite (cut_at_colon line p F).
  - intros line out c. unfold LintV2.split_list_item.
    destruct (_ && _); [|discriminate].
    destruct (Re.list_item line) as [[prefix content]|] eqn:R;
      [|discriminate].
    destruct (list_item_cut _ _ _ R) as [HM HL].
    destruct (_ && _); [|discriminate].
    destruct (Py.find content ": ") as [p|] eqn:F; [|discriminate].
    destruct (0 <? p)%nat; [|discriminate].
    destruct (_ && _); [|discriminate]. intros [= <- _].
    simpl flat_map. rewrite app_nil_r.
    rewrite split_ws_spaces_app, (split_ws_space " "%char) by reflexivity.
    assert (C : Py.take (p + 1) content
                ++ String " " (Py.drop (p + 2) content) = content)
      by exact (cut_at_colon content p F).
    replace (Py.split_ws line)
      with (Py.split_ws ((prefix ++ Py.take (p + 1) content)
                         ++ String " " (Py.drop (p + 2) content)))
      by (now rewrite app_assoc', C, <- HL).
    now rewrite (split_ws_app _ _ " "%char eq_refl).
Qed.


Lemma v2_break_keeps_words_witness :
  flat_map Py.split_ws
    [ "  description: " ++ dquote
      ++ "This step performs a very long security scan across all repos";
      "    and forks" ++ dquote ]
  = Py.split_ws quoted_line
  /\ flat_map Py.split_ws
       [ "  - description:"; "     " ++ long_value ++ "." ]
     = Py.split_ws item_line.
Proof.
  split.
  - apply (proj1 v2_break_keeps_words quoted_line 13 _ 1);
      try (vm_compute; reflexivity).
    vm_compute.
    repeat (constructor; [simpl; intuition discriminate|]). constructor.
  - apply (proj2 v2_break_keeps_words item_line _ 1).
    vm_compute. reflexivity.
Defined.

(* ================================================================== *)
(** * No trailing whitespace in what fix-yaml-lint-v2.py appends *)
(* ================================================================== *)

Section TidyV2.

Lemma token_tidy (w : string) : no_space w = true -> tidy w = true.
Proof.
  unfold tidy. induction w as [|c t IH]; [reflexivity|]. simpl.
  intros H. apply andb_true_iff in H as [Hc Ht].
  destruct t; [exact Hc | now apply IH].
Qed.

Lemma tidy_add_word (cur word : string) :
  token word = true -> tidy (cur ++ " " ++ word) = true.
Proof.
  unfold token. intros H. apply andb_true_iff in H as [He Hn].
  apply negb_true_iff in He. rewrite <- app_assoc'.
  apply tidy_app; [exact He | now apply token_tidy].
Qed.

Lemma strip_nonempty (s : string) :
  tidy s = true -> Py.is_empty s = false -> Py.is_empty (Py.strip s) = false.
Proof.
  intros HT HE. unfold Py.strip. rewrite (tidy_rstrip s HT).
  destruct (Py.is_empty (Py.lstrip s)) eqn:E; [|reflexivity].
  apply is_empty_true in E. apply lstrip_empty_all_space in E.
  now rewrite (tidy_not_all_space s HT HE) in E.
Qed.

Lemma tidy_key (line : string) (p : nat) :
  Py.find line ": " = Some p ->
  tidy (Py.take (p + 1) line) = true
  /\ Py.is_empty (Py.take (p + 1) line) = false.
Proof.
  intros F. pose proof (key_ends_with_colon line p F) as L.
  unfold tidy. rewrite L. split; [reflexivity|].
  destruct (Py.take (p + 1) line); [discriminate | reflexivity].
Qed.

Lemma first_loop_tidy (words : list string) :
  forall (ws : list string) (cur : string),
    tidy cur = true ->
    Forall (fun w => token w = true) ws ->
    tidy (fst (LintV2.first_loop words cur ws)) = true.
Proof.
  induction ws as [|word r IH]; intros cur HC HT; [exact HC|].
  inversion HT as [|? ? Hw Hr]; subst. rewrite first_loop_cons.
  destruct (_ <=? 80)%nat.
  - apply IH; [now apply tidy_add_word | exact Hr].
  - now destruct (Py.list_index word words).
Qed.

Lemma cont_loop_tidy (ci : string) :
  forall (ws : list string) (cont : string),
    Forall (fun l => tidy l = true) (LintV2.cont_loop ci cont ws).
Proof.
  induction ws as [|word r IH]; intros cont.
  - simpl. destruct (Py.truthy _); repeat constructor. apply rstrip_tidy.
  - rewrite cont_loop_cons. destruct (_ <=? 80)%nat; [apply IH|].
    apply Forall_app. split; [|apply IH].
    destruct (Py.truthy _); repeat constructor. apply rstrip_tidy.
Qed.

Lemma slice_nonempty (n k : nat) (s : string) :
  (n <? Py.len (Py.drop k s))%nat = true ->
  Py.is_empty (Py.drop k s) = false.
Proof. intros H. apply Nat.ltb_lt in H. apply len_pos_nonempty. lia. Qed.

Lemma v2_split_mapping_tidy (l : string) (out : list string) (c : nat) :
  tidy l = true ->
  LintV2.split_mapping l = LintV2.Continue out c ->
  Forall (fun x => tidy x = true) out.
Proof.
  intros HT. unfold LintV2.split_mapping.
  destruct (_ && _); [|discriminate].
  destruct (Py.find l ": ") as [p|] eqn:F; [|discriminate].
  destruct (_ && _); [|discriminate].
  destruct (tidy_key l p F) as [TK NK].
  pose proof (tidy_drop (p + 2) l HT) as TV.
  destruct (LintV2.fold_applies _) eqn:FA.
  - intros [= <- _]. unfold LintV2.fold_lines.
    unfold LintV2.fold_applies in FA.
    apply andb_true_iff in FA as [FA _]. apply andb_true_iff in FA as [FA _].
    apply andb_true_iff in FA as [FA _].
    constructor; [|constructor; [|constructor]].
    + rewrite <- app_assoc'. now apply tidy_app.
    + apply tidy_app; [|apply strip_tidy].
      apply strip_nonempty; [exact TV | exact (slice_nonempty _ _ _ FA)].
  - destruct (_ && _); [|discriminate].
    pose proof (split_ws_tokens (Py.drop (p + 2) l)) as T.
    destruct (Py.split_ws _) as [|w0 ws]; [discriminate|].
    inversion T as [|? ? Hw0 Hws]; subst.
    pose proof (first_loop_tidy (w0 :: ws) ws _
                  (tidy_add_word (Py.take (p + 1) l) w0 Hw0) Hws) as TF.
    destruct (LintV2.first_loop _ _ ws) as [cur rem].
    destruct rem as [|x rem']; [discriminate|].
    remember (LintV2.cont_loop _ _ (x :: rem')) as CL eqn:HCL.
    intros [= <- _]. constructor; [exact TF|]. subst CL.
    apply cont_loop_tidy.
Qed.

Lemma v2_split_list_item_tidy (l : string) (out : list string) (c : nat) :
  tidy l = true ->
  LintV2.split_list_item l = LintV2.Continue out c ->
  Forall (fun x => tidy x = true) out.
Proof.
  intros HT. unfold LintV2.split_list_item.
  destruct (_ && _); [|discriminate].
  destruct (Re.list_item l) as [[prefix content]|] eqn:R; [|discriminate].
  destruct (list_item_tidy _ _ _ HT R) as [TC _].
  destruct (_ && _); [|discriminate].
  destruct (Py.find content ": ") as [p|] eqn:F; [|discriminate].
  destruct (0 <? p)%nat; [|discriminate].
  destruct (_ && _) eqn:E; [|discriminate]. intros [= <- _].
  apply andb_true_iff in E as [E _].
  destruct (tidy_key content p F) as [TK NK].
  constructor; [|constructor; [|constructor]].
  - now apply tidy_app.
  - apply tidy_app; [reflexivity|].
    apply (tidy_app " ");
      [exact (slice_nonempty _ _ _ E) | now apply tidy_drop].
Qed.

Lemma v2_rewrite_line_tidy (line : string) (out : list string) (c : nat) :
  LintV2.rewrite_line line = Some (out, c) ->
  Forall (fun x => tidy x = true) out.
Proof.
  unfold LintV2.rewrite_line.
  destruct (LintV2.truthy_match _).
  { intros [= <- _]. repeat constructor. apply rstrip_tidy. }
  pose proof (v2_comment_spacing_tidy _ (rstrip_tidy line)) as T.
  destruct (LintV2.fix_comment_spacing _) as [l c1]. simpl in T.
  destruct (LintV2.handle_long l) as [o k| |] eqn:H; [| |discriminate].
  - intros [= <- _]. unfold LintV2.handle_long in H.
    destruct (_ && _); [|discriminate].
    destruct (LintV2.expr_protected l);
      [injection H as <- _; now repeat constructor|].
    destruct (LintV2.shell_protected l);
      [injection H as <- _; now repeat constructor|].
    destruct (LintV2.split_mapping l) as [o' k'| |] eqn:M;
      [| |discriminate].
    + injection H as <- _. exact (v2_split_mapping_tidy l _ _ T M).
    + exact (v2_split_list_item_tidy l _ _ T H).
  - intros [= <- _]. now repeat constructor.
Qed.

End TidyV2.

(** X4: fix-yaml-lint-v2.py never appends a line that ends with
    whitespace: whatever the document, each element of [fixed_lines] is
    free of trailing whitespace. *)
Theorem v2_lines_tidy (lines : list string) :
  forall (i : nat) (out : list string) (c : nat),
    LintV2.process_lines i lines = Some (out, c) ->
    Forall (fun x => tidy x = true) out.
Proof.
  induction lines as [|l r IH]; intros i out c.
  - simpl. intros [= <- _]. constructor.
  - cbn [LintV2.process_lines]. unfold LintV2.process_line.
    destruct (LintV2.rewrite_line l) as [[o k]|] eqn:RL; [|discriminate].
    pose proof (v2_rewrite_line_tidy l o k RL) as TL.
    destruct (LintV2.process_lines (S i) r) as [[os cs]|] eqn:PR.
    + specialize (IH (S i) os cs PR).
      destruct (LintV2.needs_marker i l); intros [= <- _];
        [constructor; [reflexivity|]|]; apply Forall_app; now split.
    + destruct (LintV2.needs_marker i l); discriminate.
Qed.

Lemma v2_lines_tidy_witness :
  Forall (fun x => tidy x = true)
         [ "---"; "name: x"; "    description:: >"; "      " ++ long_value ].
Proof.
  apply (v2_lines_tidy ["name: x  "; "    description: " ++ long_value ++ "   "]
                       0 _ 2).
  vm_compute. reflexivity.
Defined.

(* ================================================================== *)
(** * The comment spacing is repaired once *)
(* ================================================================== *)


Section CommentSpacing.

Lemma startswith_one (c a : ascii) (t : string) :
  Py.startswith (String c t) (String a EmptyString) = Ascii.eqb a c.
Proof. simpl. destruct t; apply andb_true_r. Qed.

(** Before the first comment sign there is no comment sign. *)
Lemma find_hash_before (l : string) (pos : nat) :
  Py.find l "#" = Some pos -> chars_in not_hash (Py.take pos l) = true.
Proof.
  revert pos. induction l as [|c t IH]; intros pos; [discriminate|].
  rewrite find_cons, startswith_one.
  destruct (Ascii.eqb "#" c) eqn:E; [now intros [= <-]|].
  destruct (Py.find t "#") as [k|]; [|discriminate].
  intros [= <-]. simpl. unfold not_hash at 1.
  rewrite Ascii.eqb_sym, E. simpl. now apply IH.
Qed.

Lemma find_hash_after (a b : string) :
  chars_in not_hash a = true -> Py.startswith b "#" = true ->
  Py.find (a ++ b) "#" = Some (Py.len a).
Proof.
  intros HA HB. induction a as [|c a IH].
  - simpl append. destruct b as [|x b]; [discriminate|].
    rewrite find_cons, HB. reflexivity.
  - simpl in HA. apply andb_true_iff in HA as [Hc Ha].
    change (String c a ++ b) with (String c (a ++ b)).
    rewrite find_cons, startswith_one.
    unfold not_hash in Hc. apply negb_true_iff in Hc.
    rewrite Ascii.eqb_sym, Hc, (IH Ha). reflexivity.
Qed.

Lemma take_app_len (a b : string) : Py.take (Py.len a) (a ++ b) = a.
Proof. induction a as [|c a IH]; [now destruct b | simpl; now rewrite IH]. Qed.

Lemma rstrip_char_snoc (x : ascii) (s : string) :
  Py.rstrip_char x (s ++ String x EmptyString) = Py.rstrip_char x s.
Proof.
  induction s as [|c t IH]; simpl.
  - now rewrite Ascii.eqb_refl.
  - now rewrite IH.
Qed.

Lemma trailing_blanks_snoc (s : string) :
  Lint.trailing_blanks (s ++ " ") = S (Lint.trailing_blanks s).
Proof.
  unfold Lint.trailing_blanks. rewrite rstrip_char_snoc, len_app. simpl.
  assert (L : Py.len (Py.rstrip_char " " s) <= Py.len s).
  { clear. induction s as [|c t IH]; simpl; [lia|].
    destruct (_ && _); simpl; unfold Py.len in *; lia. }
  lia.
Qed.

Lemma endswith_two_blanks (s : string) :
  Py.endswith s " " = true -> Py.endswith (s ++ " ") "  " = true.
Proof.
  intros H. apply endswith_inv in H as [t ->].
  rewrite app_assoc'. apply endswith_app.
Qed.

(** The line after the repair: the text before the comment sign, one
    more blank, and the comment. *)
Lemma repaired_find (l : string) (pos : nat) :
  Py.find l "#" = Some pos ->
  Py.find ((Py.take pos l ++ " ") ++ Py.drop pos l) "#"
  = Some (Py.len (Py.take pos l ++ " ")).
Proof.
  intros F. apply find_hash_after.
  - rewrite chars_in_app, (find_hash_before l pos F). reflexivity.
  - now apply find_startswith.
Qed.

Lemma lint_repair_cases (l : string) :
  Lint.fix_comment_spacing l = l
  \/ exists pos,
       Py.find l "#" = Some pos
       /\ Lint.trailing_blanks (Py.take pos l) = 1
       /\ Lint.fix_comment_spacing l
          = (Py.take pos l ++ " ") ++ Py.drop pos l.
Proof.
  unfold Lint.fix_comment_spacing.
  destruct (_ && _); [|now left].
  destruct (Py.find l "#") as [pos|]; [|now left].
  destruct (Py.endswith _ _); [|now left].
  destruct (_ =? 1)%nat eqn:B; [|now left].
  right. exists pos. apply Nat.eqb_eq in B.
  now rewrite app_assoc'.
Qed.

Lemma lint_repaired_fixed (l : string) (pos : nat) :
  Py.find l "#" = Some pos ->
  Lint.trailing_blanks (Py.take pos l) = 1 ->
  Lint.fix_comment_spacing ((Py.take pos l ++ " ") ++ Py.drop pos l)
  = (Py.take pos l ++ " ") ++ Py.drop pos l.
Proof.
  intros F B. unfold Lint.fix_comment_spacing.
  destruct (_ && _); [|reflexivity].
  rewrite (repaired_find l pos F), take_app_len.
  destruct (Py.endswith _ _); [|reflexivity].
  now rewrite trailing_blanks_snoc, B.
Qed.

Lemma v2_repair_cases (l : string) :
  LintV2.fix_comment_spacing l = (l, 0)
  \/ exists pos,
       Py.find l "#" = Some pos
       /\ Py.endswith (Py.take pos l) " " = true
       /\ LintV2.fix_comment_spacing l
          = ((Py.take pos l ++ " ") ++ Py.drop pos l, 1).
Proof.
  unfold LintV2.fix_comment_spacing.
  destruct (_ && _); [|now left].
  destruct (Py.find l "#") as [pos|]; [|now left].
  destruct (Py.endswith _ " " && _) eqn:E; [|now left].
  destruct (_ =? 1)%nat; [|now left].
  right. exists pos. apply andb_true_iff in E as [E _].
  now rewrite app_assoc'.
Qed.

Lemma v2_repaired_fixed (l : string) (pos : nat) :
  Py.find l "#" = Some pos ->
  Py.endswith (Py.take pos l) " " = true ->
  LintV2.fix_comment_spacing ((Py.take pos l ++ " ") ++ Py.drop pos l)
  = ((Py.take pos l ++ " ") ++ Py.drop pos l, 0).
Proof.
  intros F E. unfold LintV2.fix_comment_spacing.
  destruct (_ && _); [|reflexivity].
  rewrite (repaired_find l pos F), take_app_len.
  now rewrite (endswith_two_blanks _ E), andb_false_r.
Qed.

End CommentSpacing.

(** X5: the comment spacing of fix-yaml-lint.py (lines 42-58) and of
    fix-yaml-lint-v2.py (lines 37-54) is repaired once: on a line that
    the repair has produced, the repair changes nothing and counts
    nothing. *)
Theorem comment_spacing_once (l : string) :
  Lint.fix_comment_spacing (Lint.fix_comment_spacing l)
  = Lint.fix_comment_spacing l
  /\ LintV2.fix_comment_spacing (fst (LintV2.fix_comment_spacing l))
     = (fst (LintV2.fix_comment_spacing l), 0).
Proof.
  split.
  - destruct (lint_repair_cases l) as [H | (pos & F & B & H)].
    + now rewrite !H.
    + rewrite H. now apply lint_repaired_fixed.
  - destruct (v2_repair_cases l) as [H | (pos & F & E & H)].
    + now rewrite !H.
    + rewrite H. simpl fst. now apply v2_repaired_fixed.
Qed.

(* ================================================================== *)
(** * The result always ends with one newline *)
(* ================================================================== *)

Section Ending.

Lemma v2_finish_lint (fixed_lines : list string) :
  fst (LintV2.finish fixed_lines) = Lint.finish fixed_lines.
Proof.
  unfold LintV2.finish, Lint.finish.
  destruct (negb _); [reflexivity|]. now destruct (Py.endswith _ (nl ++ nl)).
Qed.

End Ending.

(** X6: [fix_yaml_content] of fix-yaml-lint.py (lines 9-136) and of
    fix-yaml-lint-v2.py (lines 9-152) returns on every text, and what it
    returns ends with a newline and not with two. *)
Theorem lint_results_end_with_one_newline (content : string) :
  (exists result,
      Lint.fix_yaml_content content = Some result
      /\ Py.endswith result nl = true
      /\ Py.endswith result (nl ++ nl) = false)
  /\ (exists result fixes,
         LintV2.fix_yaml_content content = Some (result, fixes)
         /\ Py.endswith result nl = true
         /\ Py.endswith result (nl ++ nl) = false).
Proof.
  split.
  - destruct (lint_fix_yaml_content_total content) as [result H].
    exists result. split; [exact H|].
    exact (lint_result_one_newline content result H).
  - unfold LintV2.fix_yaml_content.
    destruct (v2_process_lines_total
                (Py.split_char (ascii_of_nat 10) content) 0)
      as [[fixed_lines c] H].
    rewrite H.
    pose proof (v2_finish_lint fixed_lines) as F.
    pose proof (lint_finish_one_newline fixed_lines) as E.
    destruct (LintV2.finish fixed_lines) as [result c'].
    simpl in F. subst result. now exists (Lint.finish fixed_lines), (c + c').
Qed.

(* ================================================================== *)
(** * fix-yaml-final.py: the rewrite of a text *)
(* ================================================================== *)

Section FinalFacts.

Lemma final_split_long_total (line : string) :
  Final.split_long line <> Final.IndexError.
Proof.
  unfold Final.split_long.
  destruct (80 <? Py.len line)%nat; [|discriminate].
  destruct (Py.contains line "cosign sign" || Py.contains line "curl -"
            || Py.contains line "docker ") eqn:K.
  - destruct (negb _ && _); [|discriminate].
    destruct (Py.split_ws line) as [|w0 ws] eqn:W.
    + exfalso. apply split_ws_nil in W.
      pose proof (chars_in_all_space Py.isspace line (fun c H => H) W) as C.
      apply orb_true_iff in K as [K|K];
        [apply orb_true_iff in K as [K|K]|];
        pose proof (chars_in_contains _ _ _ C K) as B; discriminate.
    + destruct (Final.wrap_loop _ w0 ws). discriminate.
  - destruct (Py.contains line "echo ").
    { destruct (negb _); [|discriminate].
      destruct (Py.find line "echo "); [|discriminate].
      destruct (_ && _); [|discriminate].
      destruct (Py.rfind_char _ _ _); [|discriminate].
      destruct (0 <? _)%nat; discriminate. }
    destruct ((_ || _) && _).
    { destruct (Py.find line ": "); [|discriminate].
      destruct (_ && _); discriminate. }
    destruct (Py.startswith _ _).
    { destruct (Py.find line "run: "); discriminate. }
    destruct (Final.match_env_var line) as [[[sp v] x]|]; discriminate.
Qed.

Lemma final_process_lines_total (lines : list string) :
  exists r, Final.process_lines lines = Some r.
Proof.
  induction lines as [|l r [[outs cs] IH]]; [now eexists|].
  cbn [Final.process_lines]. rewrite IH.
  pose proof (final_split_long_total l) as T.
  destruct (Final.split_long l); [now eexists | now eexists | contradiction].
Qed.

(** With no fix counted, every line went through as it was. *)
Lemma final_process_lines_zero (lines out : list string) :
  Final.process_lines lines = Some (out, 0) -> out = lines.
Proof.
  revert out. induction lines as [|l r IH]; intros out.
  - now intros [= <-].
  - cbn [Final.process_lines].
    destruct (Final.split_long l);
      destruct (Final.process_lines r) as [[outs cs]|]; try discriminate.
    intros [= <- ->]. now rewrite (IH outs eq_refl).
Qed.

Lemma final_short_line (line : string) :
  Py.len line <= 80 -> Final.split_long line = Final.Fallthrough.
Proof.
  intros H. unfold Final.split_long.
  apply Nat.ltb_ge in H. now rewrite H.
Qed.

Lemma final_short_lines (lines : list string) :
  Forall (fun l => Py.len l <= 80) lines ->
  Final.process_lines lines = Some (lines, 0).
Proof.
  induction 1 as [|l r H _ IH]; [reflexivity|].
  cbn [Final.process_lines]. now rewrite (final_short_line l H), IH.
Qed.

Lemma final_total (content filename : string) :
  exists r, Final.final_line_fixes content filename = Some r.
Proof.
  unfold Final.final_line_fixes.
  destruct (final_process_lines_total
              (Py.split_char (ascii_of_nat 10) content)) as [[out c] H].
  rewrite H. now eexists.
Qed.

End FinalFacts.

(** X7: [final_line_fixes] of fix-yaml-final.py (lines 9-98) returns on
    every text: the subscript [words[0]] of line 23 is never out of
    range.  When it counts no fix, the text it returns is the text it
    was given, byte for byte; this is the case whenever no line is longer
    than 80 characters. *)
Theorem final_no_fix_same_text (content filename : string) :
  (exists result fixes,
      Final.final_line_fixes content filename = Some (result, fixes))
  /\ (forall result,
         Final.final_line_fixes content filename = Some (result, 0) ->
         result = content)
  /\ (Forall (fun l => Py.len l <= 80)
             (Py.split_char (ascii_of_nat 10) content) ->
      Final.final_line_fixes content filename = Some (content, 0)).
Proof.
  unfold Final.final_line_fixes. split; [|split].
  - fold (Final.final_line_fixes content filename).
    destruct (final_total content filename) as [[result fixes] H].
    now exists result, fixes.
  - intros result.
    destruct (Final.process_lines _) as [[out c]|] eqn:P; [|discriminate].
    intros [= <- ->]. rewrite (final_process_lines_zero _ _ P).
    apply join_split.
  - intros H. rewrite (final_short_lines _ H).
    f_equal. f_equal. apply join_split.
Qed.

Lemma final_no_fix_same_text_witness :
  Final.final_line_fixes (doc ["---"; "name: x"; "on: push  "; ""]) "a.yml"
  = Some (doc ["---"; "name: x"; "on: push  "; ""], 0).
Proof.
  apply (proj2 (proj2 (final_no_fix_same_text
                         (doc ["---"; "name: x"; "on: push  "; ""])
                         "a.yml"))).
  vm_compute. repeat constructor.
Defined.

(* ================================================================== *)
(** * fix-yaml-final.py: the shell continuation keeps the words *)
(* ================================================================== *)

Section FinalWords.

Lemma final_wrap_loop_cons (cont cur word : string) (r : list string) :
  Final.wrap_loop cont cur (word :: r) =
  if (Py.len (cur ++ " " ++ word) <=? 75)%nat
  then Final.wrap_loop cont (cur ++ " " ++ word) r
  else let '(out, last) := Final.wrap_loop cont (cont ++ word) r in
       ((cur ++ " " ++ backslash) :: out, last).
Proof. reflexivity. Qed.

Lemma final_wrap_loop_words (n : nat) :
  forall (ws : list string) (cur : string) (out : list string)
         (last : string),
    Forall (fun w => token w = true) ws ->
    Final.wrap_loop (Py.spaces n) cur ws = (out, last) ->
    filter plain_word (flat_map Py.split_ws (out ++ [last])%list)
    = filter plain_word (Py.split_ws cur ++ ws)%list.
Proof.
  induction ws as [|word r IH]; intros cur out last HT.
  - simpl. intros [= <- <-]. reflexivity.
  - inversion HT as [|? ? Hw Hr]; subst. rewrite final_wrap_loop_cons.
    destruct (_ <=? 75)%nat.
    + intros H. rewrite (IH _ _ _ Hr H), split_ws_add_word by exact Hw.
      now rewrite <- app_assoc.
    + destruct (Final.wrap_loop (Py.spaces n) (Py.spaces n ++ word) r)
        as [out' last'] eqn:W.
      intros [= <- <-].
      rewrite <- app_comm_cons.
      cbn [flat_map]. rewrite !filter_app, (IH _ _ _ Hr W).
      rewrite (split_ws_app cur backslash " "%char eq_refl).
      change (Py.split_ws backslash) with [backslash].
      rewrite split_ws_spaces_app, (split_ws_token word Hw).
      rewrite !filter_app. cbn [filter]. unfold plain_word at 2.
      rewrite String.eqb_refl. cbn [negb]. rewrite app_nil_r.
      now destruct (plain_word word).
Qed.

Lemma words_aux_chars (p : ascii -> bool) (s : string) :
  chars_in p s = true ->
  chars_in p (fst (Py.words_aux s)) = true
  /\ Forall (fun w => chars_in p w = true) (snd (Py.words_aux s)).
Proof.
  induction s as [|c t IH]; [now split|]. simpl chars_in.
  intros H. apply andb_true_iff in H as [Hc Ht].
  destruct (IH Ht) as [H1 H2]. rewrite words_aux_cons.
  destruct (Py.words_aux t) as [w ws]. simpl in H1, H2.
  destruct (Py.isspace c); simpl.
  - split; [reflexivity|]. destruct (Py.is_empty w); [exact H2|].
    now constructor.
  - now rewrite Hc, H1.
Qed.

Lemma split_ws_chars (p : ascii -> bool) (s : string) :
  chars_in p s = true -> Forall (fun w => chars_in p w = true) (Py.split_ws s).
Proof.
  intros H. destruct (words_aux_chars p s H) as [H1 H2].
  unfold Py.split_ws. destruct (Py.words_aux s) as [w ws].
  simpl in H1, H2. destruct (Py.is_empty w); [exact H2 | now constructor].
Qed.

Lemma no_backslash_chars (s : string) :
  Py.contains s backslash = false -> chars_in not_backslash s = true.
Proof.
  induction s as [|c t IH]; [reflexivity|].
  rewrite contains_cons. intros H. apply orb_false_iff in H as [H1 H2].
  simpl chars_in. rewrite (IH H2), andb_true_r.
  unfold not_backslash. unfold backslash in H1. cbn [Py.startswith] in H1.
  rewrite Ascii.eqb_sym.
  destruct (Ascii.eqb (ascii_of_nat 92) c); [|reflexivity].
  now destruct t.
Qed.

Lemma filter_all {A} (f : A -> bool) (l : list A) :
  Forall (fun x => f x = true) l -> filter f l = l.
Proof.
  induction 1 as [|x l H _ IH]; [reflexivity|]. simpl. now rewrite H, IH.
Qed.

Lemma plain_words (s : string) :
  Py.contains s backslash = false ->
  filter plain_word (Py.split_ws s) = Py.split_ws s.
Proof.
  intros H. apply filter_all.
  pose proof (split_ws_chars _ _ (no_backslash_chars s H)) as F.
  eapply Forall_impl; [|exact F]. intros w C. unfold plain_word.
  destruct (String.eqb w backslash) eqn:E; [|reflexivity].
  apply String.eqb_eq in E. subst w. discriminate.
Qed.

End FinalWords.

(** X8: fix-yaml-final.py, the break of a long shell command (lines
    18-38): a line that names [cosign sign], [curl -] or [docker ] and is
    broken is replaced by lines whose words, the backslashes that end the
    continued lines apart, are the words of the line, in order. *)
Theorem final_continuation_keeps_words (line : string) (out : list string) :
  Py.contains line "cosign sign" || Py.contains line "curl -"
  || Py.contains line "docker " = true ->
  Final.split_long line = Final.Continue out ->
  filter plain_word (flat_map Py.split_ws out)
  = Py.split_ws line.
Proof.
  intros K. unfold Final.split_long.
  destruct (80 <? Py.len line)%nat; [|discriminate]. rewrite K.
  destruct (Py.contains line backslash) eqn:B; [discriminate|].
  cbn [negb andb].
  destruct (Py.contains line " "); [|discriminate].
  pose proof (split_ws_tokens line) as T.
  pose proof (plain_words line B) as P.
  destruct (Py.split_ws line) as [|w0 ws]; [discriminate|].
  inversion T as [|? ? T0 Tr]; subst.
  destruct (Final.wrap_loop _ w0 ws) as [o last] eqn:W.
  pose proof (final_wrap_loop_words _ ws w0 o last Tr W) as L.
  rewrite (split_ws_token w0 T0) in L. simpl app in L at 2.
  rewrite P in L. intros [= <-].
  destruct (Py.truthy (Py.strip last)) eqn:S; [exact L|].
  rewrite flat_map_snoc, (strip_empty_no_words last S), app_nil_r in L.
  exact L.
Qed.

Lemma final_continuation_keeps_words_witness :
  filter plain_word
         (flat_map Py.split_ws
            [ "run: docker build and push the multi arch container image to the registry "
              ++ backslash;
              "        now and wait for the result" ])
  = Py.split_ws
      "      run: docker build and push the multi arch container image to the registry now and wait for the result".
Proof.
  apply final_continuation_keeps_words; vm_compute; reflexivity.
Defined.

(* ================================================================== *)
(** * fix-yaml-final.py: the first line of a broken shell command *)
(* ================================================================== *)

Section FinalIndent.

Lemma startswith_app (a b : string) : Py.startswith (a ++ b) a = true.
Proof.
  induction a as [|c a IH]; [now destruct b|].
  simpl. now rewrite Ascii.eqb_refl, IH.
Qed.

Lemma startswith_app_l (s a b : string) :
  Py.startswith s (a ++ b) = true -> Py.startswith s a = true.
Proof.
  revert s. induction a as [|c a IH]; intros s; [now destruct s|].
  destruct s as [|x s]; [discriminate|]. simpl.
  intros H. apply andb_true_iff in H as [H1 H2]. now rewrite H1, (IH s H2).
Qed.

(** The first line that the loop builds begins with the text the loop
    started with. *)
Lemma final_wrap_loop_head (cont : string) :
  forall (ws : list string) (cur : string) (out : list string)
         (last : string),
    Final.wrap_loop cont cur ws = (out, last) ->
    Py.startswith (hd EmptyString (out ++ [last])%list) cur = true.
Proof.
  induction ws as [|word r IH]; intros cur out last.
  - simpl. intros [= <- <-]. simpl.
    rewrite <- (app_empty_r cur) at 1. apply startswith_app.
  - rewrite final_wrap_loop_cons. destruct (_ <=? 75)%nat.
    + intros H. apply (startswith_app_l _ cur (" " ++ word)).
      exact (IH _ _ _ H).
    + destruct (Final.wrap_loop cont (cont ++ word) r) as [out' last'].
      intros [= <- <-]. simpl hd. apply startswith_app.
Qed.

Lemma final_wrap_loop_last (n : nat) :
  forall (ws : list string) (cur : string) (out : list string)
         (last : string),
    Forall (fun w => token w = true) ws ->
    Py.split_ws cur <> [] ->
    Final.wrap_loop (Py.spaces n) cur ws = (out, last) ->
    Py.split_ws last <> [].
Proof.
  induction ws as [|word r IH]; intros cur out last HT HC.
  - simpl. now intros [= <- <-].
  - inversion HT as [|? ? Hw Hr]; subst. rewrite final_wrap_loop_cons.
    destruct (_ <=? 75)%nat.
    + apply (IH _ _ _ Hr). rewrite split_ws_add_word by exact Hw.
      now destruct (Py.split_ws cur).
    + destruct (Final.wrap_loop (Py.spaces n) (Py.spaces n ++ word) r)
        as [out' last'] eqn:W.
      intros [= <- <-]. apply (IH _ _ _ Hr) in W; [exact W|].
      rewrite split_ws_spaces_app, (split_ws_token word Hw). discriminate.
Qed.

Lemma token_head (w s : string) :
  token w = true -> Py.startswith s w = true -> Py.lstrip s = s.
Proof.
  destruct w as [|c w]; [discriminate|]. unfold token. simpl.
  intros H. apply andb_true_iff in H as [H _].
  apply negb_true_iff in H.
  destruct s as [|x s]; [discriminate|]. simpl.
  intros E. apply andb_true_iff in E as [E _].
  apply Ascii.eqb_eq in E. subst x. now rewrite H.
Qed.

End FinalIndent.

(** X9: fix-yaml-final.py, the break of a long shell command (lines
    22-36): the first line appended begins with the first word of the
    line ([current_line = words[0]]), so the indentation of the line is
    not carried over to it, and the guard of line 35 always holds. *)
Theorem final_continuation_drops_indent (line : string) (out : list string) :
  Py.contains line "cosign sign" || Py.contains line "curl -"
  || Py.contains line "docker " = true ->
  Final.split_long line = Final.Continue out ->
  exists first rest w0 ws,
    out = first :: rest
    /\ Py.split_ws line = w0 :: ws
    /\ Py.startswith first w0 = true
    /\ Py.indent_of first = 0.
Proof.
  intros K. unfold Final.split_long.
  destruct (80 <? Py.len line)%nat; [|discriminate]. rewrite K.
  destruct (negb _ && _); [|discriminate].
  pose proof (split_ws_tokens line) as T.
  destruct (Py.split_ws line) as [|w0 ws]; [discriminate|].
  inversion T as [|? ? T0 Tr]; subst.
  destruct (Final.wrap_loop _ w0 ws) as [o last] eqn:W.
  pose proof (final_wrap_loop_head _ ws w0 o last W) as H.
  assert (N : Py.split_ws w0 <> [])
    by (rewrite (split_ws_token w0 T0); discriminate).
  pose proof (final_wrap_loop_last _ ws w0 o last Tr N W) as L.
  destruct (Py.truthy (Py.strip last)) eqn:S;
    [|now rewrite (strip_empty_no_words last S) in L].
  intros [= <-].
  destruct (o ++ [last])%list as [|first rest] eqn:E;
    [now destruct o|].
  exists first, rest, w0, ws. simpl in H.
  repeat split; [exact H|].
  unfold Py.indent_of. rewrite (token_head w0 first T0 H). lia.
Qed.

Lemma final_continuation_drops_indent_witness :
  exists first rest w0 ws,
    [ "run: docker build and push the multi arch container image to the registry "
      ++ backslash;
      "        now and wait for the result" ] = first :: rest
    /\ Py.split_ws
         "      run: docker build and push the multi arch container image to the registry now and wait for the result"
       = w0 :: ws
    /\ Py.startswith first w0 = true
    /\ Py.indent_of first = 0.
Proof.
  apply final_continuation_drops_indent; vm_compute; reflexivity.
Defined.

(* ================================================================== *)
(** * The runners: one file at a time *)
(* ================================================================== *)

Section Isolation.

Variable rewrite : string -> string -> option (string * nat).

Lemma lookup_store_same (n text : string) (d : Batch.dir) (f : Batch.file) :
  Batch.lookup n d = Some f ->
  Batch.lookup n (Batch.store n text d)
  = Some {| Batch.content := text; Batch.readable := Batch.readable f;
            Batch.writable := Batch.writable f |}.
Proof.
  induction d as [|[k g] r IH]; [discriminate|]. simpl.
  destruct (String.eqb k n) eqn:E.
  - intros [= ->]. simpl. now rewrite E.
  - intros H. simpl. rewrite E. now apply IH.
Qed.

(** What the body does to a file, and what it reports, depends on that
    file alone. *)
Lemma process_file_local (d1 d2 : Batch.dir) (n : string) :
  Batch.lookup n d1 = Batch.lookup n d2 ->
  Batch.lookup n (dir_after rewrite d1 n)
  = Batch.lookup n (dir_after rewrite d2 n)
  /\ report_after rewrite d1 n = report_after rewrite d2 n.
Proof.
  intros H. unfold dir_after, report_after, Batch.process_file,
              Batch.read_file, Batch.write_file.
  rewrite <- H.
  destruct (Batch.lookup n d1) as [f|] eqn:L1;
    [|split; [congruence | reflexivity]].
  destruct (Batch.readable f); [|split; [congruence | reflexivity]].
  destruct (rewrite n (Batch.content f)) as [[fixed k]|];
    [|split; [congruence | reflexivity]].
  destruct (0 <? k)%nat; [|split; [congruence | reflexivity]].
  destruct (Batch.writable f); [|split; [congruence | reflexivity]].
  split; [|reflexivity].
  rewrite (lookup_store_same n fixed d1 f L1).
  symmetry in H. now rewrite (lookup_store_same n fixed d2 f H).
Qed.

Lemma after_other (d : Batch.dir) (m n : string) :
  m <> n -> Batch.lookup n (dir_after rewrite d m) = Batch.lookup n d.
Proof.
  intros H. unfold dir_after.
  destruct (Batch.process_file rewrite d m) as [[d' k]|] eqn:P;
    [|reflexivity].
  exact (process_file_other rewrite d d' m n k H P).
Qed.

Lemma guarded_loop_step (m : string) (rest : list string) (d : Batch.dir)
      (log : list Batch.report) (total : nat) :
  exists total',
    Batch.guarded_loop rewrite (m :: rest) d log total
    = Batch.guarded_loop rewrite rest (dir_after rewrite d m)
                         (log ++ [report_after rewrite d m])%list total'.
Proof.
  cbn [Batch.guarded_loop]. unfold dir_after, report_after.
  destruct (Batch.process_file rewrite d m) as [[d' k]|]; now eexists.
Qed.

Lemma guarded_loop_other (n : string) (names : list string) :
  ~ In n names ->
  forall (d : Batch.dir) (log : list Batch.report) (total : nat),
    Batch.lookup n (fst (fst (Batch.guarded_loop rewrite names d log total)))
    = Batch.lookup n d.
Proof.
  induction names as [|m rest IH]; intros H d log total; [reflexivity|].
  destruct (guarded_loop_step m rest d log total) as [t ->].
  rewrite IH by (intros Hin; apply H; now right).
  apply after_other. intros ->. apply H. now left.
Qed.

Lemma guarded_loop_log_grows (names : list string) :
  forall (d : Batch.dir) (log : list Batch.report) (total : nat)
         (r : Batch.report),
    In r log ->
    In r (snd (fst (Batch.guarded_loop rewrite names d log total))).
Proof.
  induction names as [|m rest IH]; intros d log total r H; [exact H|].
  destruct (guarded_loop_step m rest d log total) as [t ->].
  apply IH. apply in_or_app. now left.
Qed.

Lemma guarded_loop_alone (n : string) (names : list string) :
  NoDup names -> In n names ->
  forall (d : Batch.dir) (log : list Batch.report) (total : nat),
    Batch.lookup n (fst (fst (Batch.guarded_loop rewrite names d log total)))
    = Batch.lookup n (dir_after rewrite d n)
    /\ In (report_after rewrite d n)
          (snd (fst (Batch.guarded_loop rewrite names d log total))).
Proof.
  induction names as [|m rest IH]; intros ND HI d log total;
    [contradiction|].
  inversion ND as [|? ? Hm Hr]; subst.
  destruct (guarded_loop_step m rest d log total) as [t ->].
  destruct (string_dec m n) as [->|Hmn].
  - split.
    + now apply guarded_loop_other.
    + apply guarded_loop_log_grows. apply in_or_app. right. now left.
  - destruct HI as [HI|HI]; [contradiction|].
    destruct (IH Hr HI (dir_after rewrite d m)
                 (log ++ [report_after rewrite d m])%list t) as [I1 I2].
    destruct (process_file_local (dir_after rewrite d m) d n
                                 (after_other d m n Hmn)) as [P1 P2].
    rewrite I1, P1. split; [reflexivity|]. now rewrite <- P2.
Qed.

End Isolation.

(** X10: the [main] of fix-yaml-lint-v2.py (lines 176-195) and of
    fix-yaml-aggressive.py (lines 164-183), whose loop body is wrapped in
    [try ... except]: what a run leaves in a file and reports about it is
    what a run on that file alone leaves and reports, whatever happens to
    the other files; a file that is not visited is left as it was. *)
Theorem guarded_mains_one_file_at_a_time
        (names : list string) (d : Batch.dir) (n : string) :
  NoDup names ->
  (In n names ->
   Batch.lookup n (final_dir (Batch.main_v2 names d))
   = Batch.lookup n (final_dir (Batch.main_v2 [n] d))
   /\ incl (run_log (Batch.main_v2 [n] d))
           (run_log (Batch.main_v2 names d))
   /\ Batch.lookup n (final_dir (Batch.main_aggressive names d))
      = Batch.lookup n (final_dir (Batch.main_aggressive [n] d))
   /\ incl (run_log (Batch.main_aggressive [n] d))
           (run_log (Batch.main_aggressive names d)))
  /\ (~ In n names ->
      Batch.lookup n (final_dir (Batch.main_v2 names d)) = Batch.lookup n d
      /\ Batch.lookup n (final_dir (Batch.main_aggressive names d))
         = Batch.lookup n d).
Proof.
  intros ND. split.
  - intros HI.
    assert (G : forall rewrite,
               Batch.lookup n
                 (fst (fst (Batch.guarded_loop rewrite names d [] 0)))
               = Batch.lookup n
                   (fst (fst (Batch.guarded_loop rewrite [n] d [] 0)))
               /\ incl (snd (fst (Batch.guarded_loop rewrite [n] d [] 0)))
                       (snd (fst (Batch.guarded_loop rewrite names d [] 0)))).
    { intros rewrite.
      destruct (guarded_loop_alone rewrite n names ND HI d [] 0) as [A B].
      rewrite A. cbn [Batch.guarded_loop].
      unfold report_after in B. unfold dir_after.
      destruct (Batch.process_file rewrite d n) as [[d' k]|];
        (split; [reflexivity|]); intros r [<-|[]]; exact B. }
    unfold Batch.main_v2, Batch.main_aggressive.
    destruct names as [|m rest]; [contradiction|].
    destruct (G (fun _ c => LintV2.fix_yaml_content c)) as [V1 V2].
    destruct (G (fun _ c => Aggressive.aggressively_fix_line_lengths c))
      as [A1 A2].
    destruct (Batch.guarded_loop (fun _ c => LintV2.fix_yaml_content c)
                                 (m :: rest) d [] 0) as [[dv lv] tv].
    destruct (Batch.guarded_loop (fun _ c => LintV2.fix_yaml_content c)
                                 [n] d [] 0) as [[dv1 lv1] tv1].
    destruct (Batch.guarded_loop
                (fun _ c => Aggressive.aggressively_fix_line_lengths c)
                (m :: rest) d [] 0) as [[da la] ta].
    destruct (Batch.guarded_loop
                (fun _ c => Aggressive.aggressively_fix_line_lengths c)
                [n] d [] 0) as [[da1 la1] ta1].
    now repeat split.
  - intros HN.
    pose proof (guarded_loop_other
                  (fun _ c => LintV2.fix_yaml_content c) n names HN d [] 0)
      as V.
    pose proof (guarded_loop_other
                  (fun _ c => Aggressive.aggressively_fix_line_lengths c)
                  n names HN d [] 0) as A.
    unfold Batch.main_v2, Batch.main_aggressive.
    destruct (Batch.guarded_loop (fun _ c => LintV2.fix_yaml_content c)
                                 names d [] 0) as [[dv lv] tv].
    destruct (Batch.guarded_loop
                (fun _ c => Aggressive.aggressively_fix_line_lengths c)
                names d [] 0) as [[da la] ta].
    split; [|exact A]. now destruct names.
Qed.

Lemma guarded_mains_one_file_at_a_time_witness :
  Batch.lookup "c.yml"
    (final_dir (Batch.main_v2 ["a.yml"; "b.yml"; "c.yml"] three_dir))
  = Batch.lookup "c.yml" (final_dir (Batch.main_v2 ["c.yml"] three_dir))
  /\ incl (run_log (Batch.main_v2 ["c.yml"] three_dir))
          (run_log (Batch.main_v2 ["a.yml"; "b.yml"; "c.yml"] three_dir))
  /\ Batch.lookup "c.yml"
       (final_dir (Batch.main_aggressive ["a.yml"; "b.yml"; "c.yml"]
                                         three_dir))
     = Batch.lookup "c.yml"
         (final_dir (Batch.main_aggressive ["c.yml"] three_dir))
  /\ incl (run_log (Batch.main_aggressive ["c.yml"] three_dir))
          (run_log (Batch.main_aggressive ["a.yml"; "b.yml"; "c.yml"]
                                          three_dir)).
Proof.
  apply (proj1 (guarded_mains_one_file_at_a_time
                  ["a.yml"; "b.yml"; "c.yml"] three_dir "c.yml"
                  ltac:(repeat (constructor;
                                 [simpl; intuition discriminate|]);
                        constructor))).
  simpl. intuition.
Defined.

(* ================================================================== *)
(** * The runners: a loop that is not guarded *)
(* ================================================================== *)

Section BareLoop.

Variable rewrite : string -> string -> option (string * nat).

Hypothesis rewrite_total :
  forall name text, exists r, rewrite name text = Some r.

(** Writing a file changes neither which files exist nor what may be
    done with them. *)
Lemma store_flags (n text m : string) (d : Batch.dir) :
  option_map Batch.readable (Batch.lookup m (Batch.store n text d))
  = option_map Batch.readable (Batch.lookup m d)
  /\ option_map Batch.writable (Batch.lookup m (Batch.store n text d))
     = option_map Batch.writable (Batch.lookup m d).
Proof.
  induction d as [|[k f] r IH]; [now split|]. simpl.
  destruct (String.eqb k n) eqn:E; simpl.
  - now destruct (String.eqb k m).
  - destruct (String.eqb k m); [now split | exact IH].
Qed.

Lemma process_file_flags (d d' : Batch.dir) (n m : string) (k : nat) :
  Batch.process_file rewrite d n = Some (d', k) ->
  option_map Batch.readable (Batch.lookup m d')
  = option_map Batch.readable (Batch.lookup m d)
  /\ option_map Batch.writable (Batch.lookup m d')
     = option_map Batch.writable (Batch.lookup m d).
Proof.
  unfold Batch.process_file, Batch.write_file.
  destruct (Batch.read_file d n); [|discriminate].
  destruct (rewrite n s) as [[fixed c]|]; [|discriminate].
  destruct (0 <? c)%nat; [|now intros [= <- _]].
  destruct (Batch.lookup n d); [|discriminate].
  destruct (Batch.writable f); [|discriminate].
  intros [= <- _]. apply store_flags.
Qed.

Lemma usable_kept (d d' : Batch.dir) (n m : string) (k : nat) :
  Batch.process_file rewrite d n = Some (d', k) ->
  usable d' m = usable d m.
Proof.
  intros P. destruct (process_file_flags d d' n m k P) as [R W].
  unfold usable.
  destruct (Batch.lookup m d') as [f'|], (Batch.lookup m d) as [f|];
    simpl in R, W; try discriminate; [|reflexivity].
  injection R as R. injection W as W. now rewrite R, W.
Qed.

Lemma unreadable_kept (d d' : Batch.dir) (n m : string) (k : nat) :
  Batch.process_file rewrite d n = Some (d', k) ->
  Batch.read_file d m = None -> Batch.read_file d' m = None.
Proof.
  intros P. destruct (process_file_flags d d' n m k P) as [R _].
  unfold Batch.read_file.
  destruct (Batch.lookup m d') as [f'|], (Batch.lookup m d) as [f|];
    simpl in R; try discriminate; [|reflexivity].
  injection R as R. rewrite R. now destruct (Batch.readable f).
Qed.

(** On a file that exists and may be read and written the body of the
    loop does not raise. *)
Lemma usable_processed (d : Batch.dir) (n : string) :
  usable d n = true ->
  exists d' k, Batch.process_file rewrite d n = Some (d', k).
Proof.
  unfold usable, Batch.process_file, Batch.read_file, Batch.write_file.
  destruct (Batch.lookup n d) as [f|]; [|discriminate].
  intros H. apply andb_true_iff in H as [R W]. rewrite R.
  destruct (rewrite_total n (Batch.content f)) as [[fixed c] ->].
  destruct (0 <? c)%nat; [|now eexists _, _].
  rewrite W. now eexists _, _.
Qed.

Lemma printed_local (d1 d2 : Batch.dir) (n : string) :
  Batch.lookup n d1 = Batch.lookup n d2 ->
  printed_after rewrite d1 n = printed_after rewrite d2 n.
Proof.
  intros H. unfold printed_after, Batch.process_file, Batch.read_file,
              Batch.write_file.
  rewrite <- H.
  destruct (Batch.lookup n d1) as [f|]; [|reflexivity].
  destruct (Batch.readable f); [|reflexivity].
  destruct (rewrite n (Batch.content f)) as [[fixed k]|]; [|reflexivity].
  destruct (0 <? k)%nat eqn:K; [|reflexivity].
  destruct (Batch.writable f); [|reflexivity]. now rewrite K.
Qed.

Lemma printed_fixed (d : Batch.dir) (n : string) :
  Forall (fun r => exists k, r = Batch.Fixed n k /\ 0 < k)
         (printed_after rewrite d n).
Proof.
  unfold printed_after.
  destruct (Batch.process_file rewrite d n) as [[d' k]|]; [|constructor].
  destruct (0 <? k)%nat eqn:K; [|constructor].
  apply Nat.ltb_lt in K. constructor; [now exists k | constructor].
Qed.

Lemma flat_map_same {A B} (f g : A -> list B) (l : list A) :
  (forall x, In x l -> f x = g x) -> flat_map f l = flat_map g l.
Proof.
  induction l as [|x l IH]; intros H; [reflexivity|]. simpl.
  rewrite (H x (or_introl eq_refl)), IH; [reflexivity|].
  intros y Hy. apply H. now right.
Qed.

Lemma bare_loop_stops (bad : string) (post : list string) :
  forall (pre : list string) (d : Batch.dir) (log : list Batch.report)
         (total : nat),
    NoDup pre ->
    forallb (usable d) pre = true ->
    Batch.read_file d bad = None ->
    exists d1 log1 total1,
      Batch.bare_loop rewrite pre d log total
      = Batch.Returned 0 d1 log1 total1
      /\ Batch.bare_loop rewrite (pre ++ bad :: post) d log total
         = Batch.Uncaught d1 log1
      /\ log1 = (log ++ flat_map (printed_after rewrite d) pre)%list
      /\ (forall n, In n pre ->
                    Batch.lookup n d1
                    = Batch.lookup n (dir_after rewrite d n))
      /\ forall n, ~ In n pre -> Batch.lookup n d1 = Batch.lookup n d.
Proof.
  induction pre as [|m rest IH]; intros d log total ND U B.
  - exists d, log, total. cbn [app Batch.bare_loop flat_map].
    unfold Batch.process_file. rewrite B, app_nil_r.
    repeat split; try reflexivity. intros n [].
  - inversion ND as [|? ? Hm Hr]; subst.
    cbn [forallb] in U. apply andb_true_iff in U as [Um Ur].
    destruct (usable_processed d m Um) as (d' & k & P).
    assert (O : forall x, x <> m -> Batch.lookup x d' = Batch.lookup x d).
    { intros x Hx. apply (process_file_other rewrite d d' m x k);
        [congruence | exact P]. }
    assert (Ur' : forallb (usable d') rest = true).
    { clear -Ur P. induction rest as [|x rest IHr]; [reflexivity|].
      cbn [forallb] in *. apply andb_true_iff in Ur as [Ux Ur].
      now rewrite (usable_kept d d' m x k P), Ux, (IHr Ur). }
    destruct (IH d' (if (0 <? k)%nat
                     then (log ++ [Batch.Fixed m k])%list else log)
                 (total + k) Hr Ur' (unreadable_kept d d' m bad k P B))
      as (d1 & log1 & total1 & E1 & E2 & E3 & E4 & E5).
    assert (D : dir_after rewrite d m = d')
      by (unfold dir_after; now rewrite P).
    exists d1, log1, total1. cbn [app Batch.bare_loop]. rewrite P.
    repeat split; [exact E1 | exact E2 | | |].
    + rewrite E3. cbn [flat_map].
      rewrite (flat_map_same (printed_after rewrite d')
                             (printed_after rewrite d) rest).
      * unfold printed_after at 2. rewrite P.
        destruct (0 <? k)%nat; [now rewrite <- app_assoc | reflexivity].
      * intros x Hx. apply printed_local, O. intros ->. contradiction.
    + intros n [<-|Hn].
      * rewrite (E5 m Hm). now rewrite D.
      * assert (Hnm : n <> m) by (intros ->; contradiction).
        rewrite (E4 n Hn).
        exact (proj1 (process_file_local rewrite d' d n (O n Hnm))).
    + intros n Hn. rewrite E5 by (intros Hin; apply Hn; now right).
      apply O. intros ->. apply Hn. now left.
Qed.

End BareLoop.

(** X11: the [main] of fix-yaml-final.py (lines 111-121), whose loop
    body is not wrapped in [try ... except] and prints a line for a file
    only when it has fixed something: when the files before a file that
    cannot be read are pairwise distinct, exist and can be read and
    written, the run ends at that file with an uncaught exception, after
    it has treated the files before it, and printed about them, as runs
    on each of them alone do; what it has printed are lines about fixed
    files, with positive counts; every other file is left as it was. *)
Theorem main_final_stops_at_unreadable_file
        (pre post : list string) (bad : string) (d : Batch.dir) :
  NoDup pre ->
  forallb (usable d) pre = true ->
  Batch.read_file d bad = None ->
  exists d1 log total,
    Batch.main_final pre d = Batch.Returned 0 d1 log total
    /\ Batch.main_final (pre ++ bad :: post) d = Batch.Uncaught d1 log
    /\ log = flat_map (fun n => run_log (Batch.main_final [n] d)) pre
    /\ Forall (fun r => exists n k,
                  r = Batch.Fixed n k /\ In n pre /\ 0 < k) log
    /\ (forall n, In n pre ->
                  Batch.lookup n d1
                  = Batch.lookup n (final_dir (Batch.main_final [n] d)))
    /\ forall n, ~ In n pre -> Batch.lookup n d1 = Batch.lookup n d.
Proof.
  intros ND U B. unfold Batch.main_final.
  set (rw := fun name c => Final.final_line_fixes c name).
  destruct (bare_loop_stops rw (fun name text => final_total text name)
                            bad post pre d [] 0 ND U B)
    as (d1 & log & total & E1 & E2 & E3 & E4 & E5).
  assert (L : forall n, run_log (Batch.bare_loop rw [n] d [] 0)
                        = printed_after rw d n).
  { intros n. cbn [Batch.bare_loop]. unfold printed_after.
    destruct (Batch.process_file rw d n) as [[d' k]|]; [|reflexivity].
    now destruct (0 <? k)%nat. }
  assert (F : forall n, final_dir (Batch.bare_loop rw [n] d [] 0)
                        = dir_after rw d n).
  { intros n. cbn [Batch.bare_loop]. unfold dir_after.
    now destruct (Batch.process_file rw d n) as [[d' k]|]. }
  exists d1, log, total. simpl app in E3.
  repeat split; [exact E1 | exact E2 | | | | exact E5].
  - rewrite E3. apply flat_map_same. intros n _. now rewrite L.
  - rewrite E3. clear. induction pre as [|m rest IH]; [constructor|].
    cbn [flat_map]. apply Forall_app. split.
    + eapply Forall_impl; [|apply printed_fixed].
      intros r (k & -> & K). exists m, k. repeat split; [now left | exact K].
    + eapply Forall_impl; [|exact IH].
      intros r (n & k & -> & I & K). exists n, k.
      repeat split; [now right | exact K].
  - intros n Hn. rewrite F. now apply E4.
Qed.

Lemma main_final_stops_at_unreadable_file_witness :
  exists d1 log total,
    Batch.main_final ["a.yml"] three_dir = Batch.Returned 0 d1 log total
    /\ Batch.main_final (["a.yml"] ++ "b.yml" :: ["c.yml"]) three_dir
       = Batch.Uncaught d1 log
    /\ log = flat_map (fun n => run_log (Batch.main_final [n] three_dir))
                      ["a.yml"]
    /\ Forall (fun r => exists n k,
                  r = Batch.Fixed n k /\ In n ["a.yml"] /\ 0 < k) log
    /\ (forall n, In n ["a.yml"] ->
                  Batch.lookup n d1
                  = Batch.lookup n (final_dir (Batch.main_final [n]
                                                                three_dir)))
    /\ forall n, ~ In n ["a.yml"] ->
                 Batch.lookup n d1 = Batch.lookup n three_dir.
Proof.
  apply main_final_stops_at_unreadable_file;
    [repeat constructor; simpl; tauto | vm_compute; reflexivity
     | vm_compute; reflexivity].
Defined.

(* ================================================================== *)
(** * The runners: the total of the summary *)
(* ================================================================== *)

Section Totals.

Variable rewrite : string -> string -> option (string * nat).

Lemma report_of_fixes (name : string) (fixes : nat) :
  report_fixes (Batch.report_of name fixes) = fixes.
Proof.
  unfold Batch.report_of. destruct (0 <? fixes)%nat eqn:E; [reflexivity|].
  apply Nat.ltb_ge in E. simpl. lia.
Qed.

Lemma sum_snoc (log : list Batch.report) (r : Batch.report) :
  list_sum (map report_fixes (log ++ [r])%list)
  = list_sum (map report_fixes log) + report_fixes r.
Proof. rewrite map_app, list_sum_app. simpl. lia. Qed.


Lemma guarded_loop_total (names : list string) :
  forall (d : Batch.dir) (log : list Batch.report) (total : nat),
    total = list_sum (map report_fixes log) ->
    snd (Batch.guarded_loop rewrite names d log total)
    = list_sum (map report_fixes
                    (snd (fst (Batch.guarded_loop rewrite names d log
                                                  total)))).
Proof.
  induction names as [|n rest IH]; intros d log total H; [exact H|].
  cbn [Batch.guarded_loop].
  destruct (Batch.process_file rewrite d n) as [[d' k]|]; apply IH;
    rewrite sum_snoc, H; [now rewrite report_of_fixes | simpl; lia].
Qed.

Lemma bare_loop_total (names : list string) :
  forall (d : Batch.dir) (log : list Batch.report) (total : nat),
    total = list_sum (map report_fixes log) ->
    totals_agree (Batch.bare_loop rewrite names d log total).
Proof.
  induction names as [|n rest IH]; intros d log total H; [exact H|].
  cbn [Batch.bare_loop].
  destruct (Batch.process_file rewrite d n) as [[d' k]|]; [|exact I].
  apply IH. destruct (0 <? k)%nat eqn:K.
  - rewrite sum_snoc, H. reflexivity.
  - apply Nat.ltb_ge in K. lia.
Qed.

End Totals.

Section TotalsOfLoops.

Lemma lint_loop_total (names : list string) :
  forall (d : Batch.dir) (log : list Batch.report) (total : nat),
    total = list_sum (map report_fixes log) ->
    totals_agree (Batch.lint_loop names d log total).
Proof.
  induction names as [|n rest IH]; intros d log total H; [exact H|].
  cbn [Batch.lint_loop].
  destruct (Batch.lint_file d n) as [[d' k]|]; [|exact I].
  apply IH. now rewrite sum_snoc, H, report_of_fixes.
Qed.

Lemma targeted_loop_total (names : list string) :
  forall (d : Batch.dir) (log : list Batch.report) (total : nat),
    total = list_sum (map report_fixes log) ->
    snd (Batch.targeted_loop names d log total)
    = list_sum (map report_fixes
                    (snd (fst (Batch.targeted_loop names d log total)))).
Proof.
  induction names as [|n rest IH]; intros d log total H; [exact H|].
  cbn [Batch.targeted_loop].
  destruct (negb (Batch.exists_in d n)); [now apply IH|].
  destruct (Batch.process_file _ d n) as [[d' k]|]; apply IH;
    rewrite sum_snoc, H; [now rewrite report_of_fixes | simpl; lia].
Qed.

End TotalsOfLoops.

(** X12: in every runner (fix-yaml-lint-v2.py lines 171-200,
    fix-yaml-aggressive.py lines 158-188, fix-yaml-final.py lines
    106-123, fix-yaml-lint.py lines 259-264, fix-yaml-targeted.py lines
    141-175) the total of the summary of a run that returns is the sum of
    the numbers of fixes reported file by file; a file whose treatment
    failed adds nothing. *)
Theorem summary_total_is_sum_of_reports (names : list string) (d : Batch.dir) :
  totals_agree (Batch.main_v2 names d)
  /\ totals_agree (Batch.main_aggressive names d)
  /\ totals_agree (Batch.main_final names d)
  /\ totals_agree (Batch.main_lint names d)
  /\ totals_agree (Batch.main_targeted d).
Proof.
  repeat split.
  - unfold Batch.main_v2. destruct names as [|n r]; [reflexivity|].
    pose proof (guarded_loop_total (fun _ c => LintV2.fix_yaml_content c)
                  (n :: r) d [] 0 eq_refl) as H.
    destruct (Batch.guarded_loop _ (n :: r) d [] 0) as [[d' log] total].
    exact H.
  - unfold Batch.main_aggressive.
    pose proof (guarded_loop_total
                  (fun _ c => Aggressive.aggressively_fix_line_lengths c)
                  names d [] 0 eq_refl) as H.
    destruct (Batch.guarded_loop _ names d [] 0) as [[d' log] total].
    exact H.
  - now apply bare_loop_total.
  - unfold Batch.main_lint. destruct names as [|n r]; [reflexivity|].
    now apply lint_loop_total.
  - unfold Batch.main_targeted.
    pose proof (targeted_loop_total Targeted.problem_files d [] 0 eq_refl)
      as H.
    destruct (Batch.targeted_loop Targeted.problem_files d [] 0)
      as [[d' log] total].
    exact H.
Qed.

(* ================================================================== *)
(** * fix-yaml-lint.py: the rewrite of a file *)
(* ================================================================== *)

Section LintFileFacts.

Lemma startswith_app_r (a b p : string) :
  Py.startswith a p = true -> Py.startswith (a ++ b) p = true.
Proof.
  revert a. induction p as [|x p IH]; intros a; [now destruct (a ++ b)|].
  destruct a as [|c a]; [discriminate|]. simpl.
  intros H. apply andb_true_iff in H as [H1 H2]. now rewrite H1, (IH a H2).
Qed.

Lemma contains_startswith (s p : string) :
  Py.startswith s p = true -> Py.contains s p = true.
Proof.
  intros H. destruct s as [|c t].
  - cbn [Py.contains]. now rewrite H.
  - now rewrite contains_cons, H.
Qed.

Lemma contains_app_l (a b p : string) :
  Py.contains a p = true -> Py.contains (a ++ b) p = true.
Proof.
  induction a as [|c a IH].
  - simpl Py.contains at 1. rewrite orb_false_r. intros H.
    apply contains_startswith. exact (startswith_app_r EmptyString b p H).
  - rewrite contains_cons. intros H.
    change (String c a ++ b) with (String c (a ++ b)). rewrite contains_cons.
    apply orb_true_iff in H as [H|H].
    + pose proof (startswith_app_r (String c a) b p H) as H'.
      change (String c a ++ b) with (String c (a ++ b)) in H'.
      now rewrite H'.
    + rewrite (IH H). apply orb_true_r.
Qed.

Lemma contains_lstrip (s p : string) :
  Py.contains (Py.lstrip s) p = true -> Py.contains s p = true.
Proof.
  induction s as [|c t IH]; [trivial|]. cbn [Py.lstrip].
  destruct (Py.isspace c); [|trivial].
  intros H. rewrite contains_cons, (IH H). apply orb_true_r.
Qed.

Lemma contains_strip (s p : string) :
  Py.startswith (Py.strip s) p = true -> Py.contains s p = true.
Proof.
  intros H. apply contains_startswith, contains_lstrip in H.
  destruct (rstrip_decomp s) as (t & E & _). rewrite E.
  now apply contains_app_l.
Qed.

Lemma split_str_aux_nonempty (sep : string) (s : string) :
  forall skip, Py.split_str_aux sep skip s <> [].
Proof.
  induction s as [|c t IH]; intros skip; [discriminate|].
  cbn [Py.split_str_aux]. destruct skip as [|k]; [|apply IH].
  destruct (Py.startswith (String c t) sep).
  - now destruct (Py.len sep) as [|[|n]].
  - now destruct (Py.split_str_aux sep 0 t).
Qed.

(** A [split] on a separator that occurs in the text has at least two
    parts. *)
Lemma split_str_two (sep s : string) :
  Py.is_empty sep = false -> Py.contains s sep = true ->
  exists a b r, Py.split_str sep s = a :: b :: r.
Proof.
  intros N. unfold Py.split_str. induction s as [|c t IH].
  - destruct sep; discriminate.
  - rewrite contains_cons. cbn [Py.split_str_aux].
    destruct (Py.startswith (String c t) sep); simpl orb.
    + intros _. destruct (Py.len sep) as [|[|n]].
      * pose proof (split_str_aux_nonempty sep t 0) as P.
        destruct (Py.split_str_aux sep 0 t); [contradiction|].
        now eexists _, _, _.
      * pose proof (split_str_aux_nonempty sep t 0) as P.
        destruct (Py.split_str_aux sep 0 t); [contradiction|].
        now eexists _, _, _.
      * pose proof (split_str_aux_nonempty sep t (S n)) as P.
        destruct (Py.split_str_aux sep (S n) t); [contradiction|].
        now eexists _, _, _.
    + intros H. destruct (IH H) as (a & b & r & ->). now eexists _, _, _.
Qed.

Lemma split_str_item1 (sep s : string) :
  Py.is_empty sep = false -> Py.contains s sep = true ->
  exists v, Py.item 1 (Py.split_str sep s) = Some v.
Proof.
  intros N C. destruct (split_str_two sep s N C) as (a & b & r & ->).
  now exists b.
Qed.

(** The subscripts of lines 183, 194 and 205 are never out of range. *)
Lemma lintfile_fold_long_total (line : string) :
  exists r, LintFile.fold_long line = Some r.
Proof.
  unfold LintFile.fold_long.
  destruct (80 <? _)%nat; [|now eexists].
  destruct (Py.contains line "role-to-assume:") eqn:R; cbn [andb].
  - destruct (Py.contains line "arn:aws:iam::"); cbn [andb].
    + destruct (negb _); [|now eexists].
      destruct (split_str_item1 "role-to-assume:" line eq_refl R) as [v ->].
      now eexists.
    + destruct (Py.contains line "curl -").
      * destruct (negb _); [|now eexists].
        destruct (Py.contains (Py.strip line) "curl -sSfL"); [|now eexists].
        destruct (Py.split_str "curl -sSfL " (Py.strip line))
          as [|a [|b r]]; now eexists.
      * destruct (Py.startswith (Py.strip line) "run:") eqn:S;
          [|now eexists].
        destruct (_ && _); [|now eexists].
        destruct (split_str_item1 "run:" line eq_refl
                                  (contains_strip line "run:" S)) as [v ->].
        now eexists.
  - destruct (Py.contains line "curl -").
    + destruct (negb _); [|now eexists].
      destruct (Py.contains (Py.strip line) "curl -sSfL"); [|now eexists].
      destruct (Py.split_str "curl -sSfL " (Py.strip line))
        as [|a [|b r]]; now eexists.
    + destruct (Py.startswith (Py.strip line) "run:") eqn:S;
        [|now eexists].
      destruct (_ && _); [|now eexists].
      destruct (split_str_item1 "run:" line eq_refl
                                (contains_strip line "run:" S)) as [v ->].
      now eexists.
Qed.

Lemma lintfile_process_lines_total (lines : list string) :
  exists out c, LintFile.process_lines lines = Some (out, c)
                /\ length out = length lines.
Proof.
  induction lines as [|l r (outs & cs & IH & L)]; [now eexists _, _|].
  cbn [LintFile.process_lines]. unfold LintFile.process_line.
  destruct (lintfile_fold_long_total
              (LintFile.fix_brackets (Py.rstrip l ++ nl))) as [[o c] ->].
  rewrite IH. eexists _, _. split; [reflexivity|]. simpl. now rewrite L.
Qed.

Lemma readlines_nonempty (s : string) :
  Py.is_empty s = false -> Py.readlines s <> [].
Proof.
  destruct s as [|c t]; [discriminate|]. intros _. simpl.
  destruct (Ascii.eqb c (ascii_of_nat 10)); [discriminate|].
  now destruct (Py.readlines t).
Qed.

Lemma endswith_app_r (a b p : string) :
  Py.endswith b p = true -> Py.endswith (a ++ b) p = true.
Proof.
  intros H. apply endswith_inv in H as [t ->].
  rewrite <- app_assoc'. apply endswith_app.
Qed.

Lemma final_newline_shape (l : string) (r : list string) :
  exists l' r',
    fst (LintFile.final_newline (l :: r)) = l' :: r'
    /\ (Py.startswith l "---" = true -> Py.startswith l' "---" = true)
    /\ Py.endswith (Py.join EmptyString (l' :: r')) nl = true.
Proof.
  revert l. induction r as [|x r IH]; intros l.
  - cbn [LintFile.final_newline].
    destruct (Py.endswith l nl) eqn:E; eexists _, _; simpl fst;
      (split; [reflexivity|]); unfold Py.join; simpl String.concat.
    + now split.
    + split; [apply startswith_app_r | apply endswith_app].
  - destruct (IH x) as (x' & r' & E & _ & N).
    change (LintFile.final_newline (l :: x :: r))
      with (let '(r1, c) := LintFile.final_newline (x :: r) in
            (l :: r1, c)).
    destruct (LintFile.final_newline (x :: r)) as [r1 c].
    simpl in E. subst r1. exists l, (x' :: r'). simpl fst.
    split; [reflexivity|]. split; [trivial|].
    unfold Py.join in *.
    change (String.concat EmptyString (l :: x' :: r'))
      with (l ++ EmptyString ++ String.concat EmptyString (x' :: r')).
    simpl append at 2. now apply endswith_app_r.
Qed.

End LintFileFacts.

(** X13: [fix_yaml_file] of fix-yaml-lint.py (lines 144-241) does not
    raise between reading and writing: the subscripts of lines 183, 194
    and 205 are never out of range.  An empty file is written back empty
    with no change counted (no marker is added to it); the text written
    for any other file begins with the marker [---] and ends with a
    newline. *)
Theorem lint_file_text_shape (content : string) :
  exists result changes,
    LintFile.fix_yaml_text content = Some (result, changes)
    /\ (content = EmptyString -> result = EmptyString /\ changes = 0)
    /\ (content <> EmptyString ->
        Py.startswith result "---" = true
        /\ Py.endswith result nl = true).
Proof.
  unfold LintFile.fix_yaml_text.
  destruct (lintfile_process_lines_total (Py.readlines content))
    as (out & c & P & L).
  rewrite P.
  destruct (LintFile.add_marker out) as [marked c1] eqn:M.
  destruct (LintFile.final_newline marked) as [ended c2] eqn:F.
  eexists _, _. split; [reflexivity|]. split.
  - intros ->. simpl in P. injection P as <- <-.
    simpl in M. injection M as <- <-. simpl in F. injection F as <- <-.
    now split.
  - intros N.
    assert (R : Py.readlines content <> []).
    { apply readlines_nonempty. destruct content; [contradiction|reflexivity]. }
    destruct out as [|o outs];
      [destruct (Py.readlines content); [contradiction|discriminate]|].
    assert (H : exists m ms, marked = m :: ms
                             /\ Py.startswith m "---" = true).
    { unfold LintFile.add_marker, LintFile.marker_missing in M.
      destruct (Py.startswith o "---") eqn:S; simpl in M;
        injection M as <- _; now eexists _, _. }
    destruct H as (m & ms & -> & S).
    destruct (final_newline_shape m ms) as (l' & r' & E & S' & N').
    rewrite F in E. simpl in E. subst ended.
    split; [|exact N'].
    unfold Py.join. destruct r' as [|x r']; [exact (S' S)|].
    change (String.concat EmptyString (l' :: x :: r'))
      with (l' ++ EmptyString ++ String.concat EmptyString (x :: r')).
    apply startswith_app_r. exact (S' S).
Qed.

Lemma lint_file_text_shape_witness :
  exists result changes,
    LintFile.fix_yaml_text (doc ["name: x"; run_line]) = Some (result, changes)
    /\ Py.startswith result "---" = true
    /\ Py.endswith result nl = true.
Proof.
  destruct (lint_file_text_shape (doc ["name: x"; run_line]))
    as (result & changes & H & _ & S).
  exists result, changes. split; [exact H|]. apply S. discriminate.
Defined.

(* ================================================================== *)
(** * A rewrite that counts no fix *)
(* ================================================================== *)

Section NoFix.

Lemma sum_zero (a b : nat) : a + b = 0 -> a = 0 /\ b = 0.
Proof. lia. Qed.

Lemma aggressive_line_zero (line : string) (out : list string) :
  Aggressive.process_line line = Some (out, 0) -> out = [Py.rstrip line].
Proof.
  unfold Aggressive.process_line.
  destruct (_ <=? 80)%nat; [now intros [= <-]|].
  destruct (Aggressive.skipped _); [now intros [= <-]|].
  destruct (Aggressive.patterns _); try discriminate.
  destruct (Aggressive.fallback _); [discriminate | now intros [= <-]].
Qed.

Lemma aggressive_lines_zero (lines out : list string) :
  Aggressive.process_lines lines = Some (out, 0) ->
  out = map Py.rstrip lines.
Proof.
  revert out. induction lines as [|l r IH]; intros out.
  - now intros [= <-].
  - cbn [Aggressive.process_lines].
    destruct (Aggressive.process_line l) as [[o c]|] eqn:P; [|discriminate].
    destruct (Aggressive.process_lines r) as [[os cs]|]; [|discriminate].
    intros [= <- H]. apply sum_zero in H as [-> ->].
    now rewrite (aggressive_line_zero l o P), (IH os eq_refl).
Qed.

Lemma v2_rewrite_line_zero (line : string) (out : list string) :
  LintV2.rewrite_line line = Some (out, 0) -> out = [Py.rstrip line].
Proof.
  unfold LintV2.rewrite_line. rewrite String.eqb_refl.
  destruct (LintV2.truthy_match _); [now intros [= <-]|].
  destruct (LintV2.fix_comment_spacing (Py.rstrip line)) as [l c1] eqn:C.
  assert (Z : c1 = 0 -> l = Py.rstrip line).
  { intros ->.
    pose proof (v2_comment_spacing_zero (Py.rstrip line)) as Z.
    rewrite C in Z. specialize (Z eq_refl). now injection Z. }
  unfold LintV2.handle_long.
  destruct (_ && _).
  - destruct (LintV2.expr_protected l);
      [intros [= <- H]; simpl in H; apply sum_zero in H as [-> _];
       now rewrite Z|].
    destruct (LintV2.shell_protected l);
      [intros [= <- H]; simpl in H; apply sum_zero in H as [-> _];
       now rewrite Z|].
    pose proof (LintV2.split_mapping l) as o.
    assert (M : forall e k, LintV2.split_mapping l = LintV2.Continue e k ->
                            k = 1).
    { unfold LintV2.split_mapping. intros e k.
      destruct (_ && _); [|discriminate].
      destruct (Py.find l ": "); [|discriminate].
      destruct (_ && _); [|discriminate].
      destruct (LintV2.fold_applies _); [now intros [= _ <-]|].
      destruct (_ && _); [|discriminate].
      destruct (Py.split_ws _); [discriminate|].
      destruct (LintV2.first_loop _ _ _) as [cl [|w r]];
        [discriminate | now intros [= _ <-]]. }
    assert (L : forall e k, LintV2.split_list_item l = LintV2.Continue e k ->
                            k = 1).
    { unfold LintV2.split_list_item. intros e k.
      destruct (_ && _); [|discriminate].
      destruct (Re.list_item l) as [[lp lc]|]; [|discriminate].
      destruct (_ && _); [|discriminate].
      destruct (Py.find lc ": "); [|discriminate].
      destruct (0 <? _)%nat; [|discriminate].
      destruct (_ && _); [now intros [= _ <-] | discriminate]. }
    destruct (LintV2.split_mapping l) as [e k| |] eqn:SM.
    + rewrite (M e k eq_refl). intros [= _ H]. lia.
    + destruct (LintV2.split_list_item l) as [e k| |] eqn:SL.
      * rewrite (L e k eq_refl). intros [= _ H]. lia.
      * intros [= <- H]. simpl in H. now rewrite Z.
      * discriminate.
    + discriminate.
  - intros [= <- H]. simpl in H. now rewrite Z.
Qed.

Lemma v2_lines_zero (lines : list string) :
  forall (i : nat) (out : list string),
    LintV2.process_lines i lines = Some (out, 0) ->
    out = map Py.rstrip lines.
Proof.
  induction lines as [|l r IH]; intros i out.
  - now intros [= <-].
  - cbn [LintV2.process_lines]. unfold LintV2.process_line.
    destruct (LintV2.rewrite_line l) as [[o c]|] eqn:P; [|discriminate].
    destruct (LintV2.needs_marker i l).
    + destruct (LintV2.process_lines (S i) r) as [[os cs]|]; discriminate.
    + destruct (LintV2.process_lines (S i) r) as [[os cs]|] eqn:R;
        [|discriminate].
      intros [= <- H]. apply sum_zero in H as [-> ->].
      now rewrite (v2_rewrite_line_zero l o P), (IH _ os R).
Qed.

Lemma targeted_lines_zero (filename : string) (lines : list string) :
  snd (Targeted.process_lines filename lines) = 0 ->
  fst (Targeted.process_lines filename lines) = map Py.rstrip lines.
Proof.
  induction lines as [|l r IH]; [reflexivity|].
  cbn [Targeted.process_lines]. unfold Targeted.process_line.
  destruct (Targeted.process_lines filename r) as [os cs].
  destruct (Targeted.split_long l); [simpl; discriminate|].
  unfold Targeted.fix_indent.
  destruct (String.eqb filename _); [|simpl; intros ->; simpl in IH;
                                      now rewrite IH].
  destruct (Targeted.nine_spaces l); [|simpl; intros ->; simpl in IH;
                                       now rewrite IH].
  destruct (negb _); [simpl; discriminate|].
  simpl. intros ->. simpl in IH. now rewrite IH.
Qed.

End NoFix.

(** X14: when the rewrite of fix-yaml-aggressive.py (lines 9-146), of
    fix-yaml-lint-v2.py (lines 9-154) or of fix-yaml-targeted.py (lines
    9-116) counts no fix, the text it returns is the text it was given
    with the trailing whitespace of every line removed (and, in
    fix-yaml-aggressive.py, a final newline added when there is none):
    the removal of trailing whitespace is not counted, and [main], which
    writes a file only when the count is positive, does not write this
    text. *)
Theorem no_fix_counted_only_trims (content : string) :
  (forall result,
      Aggressive.aggressively_fix_line_lengths content = Some (result, 0) ->
      result = Aggressive.finish
                 (map Py.rstrip (Py.split_char (ascii_of_nat 10) content)))
  /\ (forall result,
         LintV2.fix_yaml_content content = Some (result, 0) ->
         result = Py.join nl (map Py.rstrip
                                  (Py.split_char (ascii_of_nat 10) content)))
  /\ (forall filename result,
         Targeted.fix_specific_issues content filename = (result, 0) ->
         result = Py.join nl (map Py.rstrip
                                  (Py.split_char (ascii_of_nat 10) content))).
Proof.
  split; [|split].
  - intros result. unfold Aggressive.aggressively_fix_line_lengths.
    destruct (Aggressive.process_lines _) as [[out c]|] eqn:P;
      [|discriminate].
    intros [= <- ->]. now rewrite (aggressive_lines_zero _ _ P).
  - intros result. unfold LintV2.fix_yaml_content.
    destruct (LintV2.process_lines 0 _) as [[out c]|] eqn:P;
      [|discriminate].
    unfold LintV2.finish.
    destruct (negb _); [intros [= _ H]; lia|].
    destruct (Py.endswith _ (nl ++ nl)); [intros [= _ H]; lia|].
    intros [= <- H]. assert (c = 0) as -> by lia.
    now rewrite (v2_lines_zero _ 0 out P).
  - intros filename result. unfold Targeted.fix_specific_issues.
    pose proof (targeted_lines_zero filename
                  (Py.split_char (ascii_of_nat 10) content)) as Z.
    destruct (Targeted.process_lines filename _) as [out c].
    destruct (negb _); [discriminate|].
    intros [= <- ->]. simpl in Z. now rewrite Z.
Qed.

Lemma no_fix_counted_only_trims_witness :
  doc ["---"; "name: x"; ""]
  = Aggressive.finish
      (map Py.rstrip
           (Py.split_char (ascii_of_nat 10) (doc ["---"; "name: x  "; ""])))
  /\ doc ["---"; "name: x"; ""]
     = Py.join nl (map Py.rstrip
                       (Py.split_char (ascii_of_nat 10)
                                      (doc ["---"; "name: x  "; ""]))).
Proof.
  split.
  - apply (proj1 (no_fix_counted_only_trims (doc ["---"; "name: x  "; ""]))).
    vm_compute. reflexivity.
  - apply (proj1 (proj2 (no_fix_counted_only_trims
                           (doc ["---"; "name: x  "; ""])))).
    vm_compute. reflexivity.
Defined.

(* ================================================================== *)
(** * fix-yaml-comprehensive.py: the truthy values *)
(* ================================================================== *)

Section Truthy.

Lemma contains_app_r (a b p : string) :
  Py.startswith b p = true -> Py.contains (a ++ b) p = true.
Proof.
  intros H. induction a as [|c a IH]; [now apply contains_startswith|].
  change (String c a ++ b) with (String c (a ++ b)).
  rewrite contains_cons, IH. apply orb_true_r.
Qed.

Lemma truthy_tail_word (after w : string) :
  Comprehensive.truthy_tail after = Some w ->
  In w Comprehensive.truthy_words
  /\ Py.startswith (Py.lstrip after) w = true
  /\ Py.all_space (Py.drop (Py.len w) (Py.lstrip after)) = true.
Proof.
  unfold Comprehensive.truthy_tail.
  destruct (Py.is_empty _); [discriminate|].
  intros H. apply find_some in H as [H1 H2].
  apply andb_true_iff in H2 as [H2 H3]. now repeat split.
Qed.

Lemma truthy_word_map (w : string) :
  In w Comprehensive.truthy_words ->
  chars_in not_colon w = true
  /\ (Comprehensive.truthy_map w = "true"
      \/ Comprehensive.truthy_map w = "false").
Proof.
  unfold Comprehensive.truthy_words. simpl In.
  intros H.
  repeat (destruct H as [<-|H]; [split; [reflexivity|]; vm_compute; tauto|]).
  contradiction.
Qed.

Lemma space_not_colon (c : ascii) : Py.isspace c = true -> not_colon c = true.
Proof.
  unfold not_colon. destruct (Ascii.eqb c ":") eqn:E; [|reflexivity].
  apply Ascii.eqb_eq in E. subst c. discriminate.
Qed.

(** The pattern does not match at a colon that is followed by another
    colon. *)
Lemma truthy_tail_no_colon (after : string) :
  Py.contains after ":" = true -> Comprehensive.truthy_tail after = None.
Proof.
  intros C. destruct (Comprehensive.truthy_tail after) as [w|] eqn:T;
    [|reflexivity].
  exfalso. destruct (truthy_tail_word after w T) as (I & S & A).
  destruct (truthy_word_map w I) as [W _].
  assert (L : chars_in not_colon (Py.lstrip after) = true).
  { rewrite (startswith_split _ _ S), chars_in_app, W.
    apply (chars_in_all_space not_colon _ space_not_colon A). }
  apply (chars_in_lstrip not_colon _ space_not_colon) in L.
  rewrite (chars_exclude not_colon after ":" L eq_refl) in C. discriminate.
Qed.

Lemma fix_truthy_cons (c : ascii) (t : string) :
  Comprehensive.fix_truthy (String c t) =
  if Ascii.eqb c ":" then
    match Comprehensive.truthy_tail t with
    | Some w => ": " ++ Comprehensive.truthy_map w
    | None => String c (Comprehensive.fix_truthy t)
    end
  else String c (Comprehensive.fix_truthy t).
Proof. reflexivity. Qed.

Lemma fix_truthy_written (prefix v : string) :
  v = "true" \/ v = "false" ->
  Comprehensive.fix_truthy (prefix ++ ": " ++ v) = prefix ++ ": " ++ v.
Proof.
  intros V. induction prefix as [|c p IH].
  - destruct V as [-> | ->]; reflexivity.
  - change (String c p ++ ": " ++ v) with (String c (p ++ ": " ++ v)).
    rewrite fix_truthy_cons, IH.
    destruct (Ascii.eqb c ":"); [|reflexivity].
    rewrite truthy_tail_no_colon; [reflexivity|].
    apply contains_app_r. reflexivity.
Qed.

Lemma all_space_leading_ws (s : string) :
  Py.all_space (Py.leading_ws s) = true.
Proof.
  induction s as [|c t IH]; [reflexivity|]. simpl.
  destruct (Py.isspace c) eqn:E; [simpl; now rewrite E | reflexivity].
Qed.

Lemma leading_ws_all_space_app (b x : string) :
  Py.all_space b = true ->
  Py.leading_ws (b ++ x) = b ++ Py.leading_ws x
  /\ Py.lstrip (b ++ x) = Py.lstrip x.
Proof.
  induction b as [|c b IH]; [now split|]. simpl.
  intros H. apply andb_true_iff in H as [Hc Hb]. rewrite Hc.
  destruct (IH Hb) as [I1 I2]. now rewrite I1, I2.
Qed.

Lemma truthy_tail_blanks (after w : string) :
  Comprehensive.truthy_tail after = Some w ->
  Py.is_empty (Py.leading_ws after) = false.
Proof.
  unfold Comprehensive.truthy_tail.
  now destruct (Py.is_empty (Py.leading_ws after)).
Qed.

(** The word of the pattern is found behind its blanks, whatever blanks
    follow it. *)
Lemma truthy_tail_shape (blanks w trail : string) :
  Py.is_empty blanks = false -> Py.all_space blanks = true ->
  In w Comprehensive.truthy_words -> Py.all_space trail = true ->
  Comprehensive.truthy_tail (blanks ++ w ++ trail) = Some w.
Proof.
  intros N B I T. unfold Comprehensive.truthy_tail.
  destruct (leading_ws_all_space_app blanks (w ++ trail) B) as [-> ->].
  destruct blanks as [|c b]; [discriminate|]. cbn [append Py.is_empty].
  assert (D : forall k : string,
             Py.all_space (Py.drop (Py.len k) (k ++ trail)) = true)
    by (intros k; now rewrite drop_app_len).
  assert (S : forall k : string, Py.startswith (k ++ trail) k = true)
    by (intros k; apply startswith_app).
  unfold Comprehensive.truthy_words in *. simpl In in I.
  repeat (destruct I as [<-|I];
          [match goal with
           | |- context [Py.lstrip (?k ++ trail)] =>
               change (Py.lstrip (k ++ trail)) with (k ++ trail);
               pose proof (D k) as Dk; pose proof (S k) as Sk
           end;
           cbn [find]; cbn [Py.startswith append Ascii.eqb Bool.eqb andb]
             in *;
           rewrite ?Sk; cbn [andb]; rewrite ?Dk; reflexivity|]).
  contradiction.
Qed.

Lemma truthy_map_value (w : string) :
  In w Comprehensive.truthy_words ->
  Comprehensive.truthy_map w
  = if Py.mem (Py.lower w) ["on"; "yes"] then "true" else "false".
Proof.
  unfold Comprehensive.truthy_words. simpl In. intros H.
  repeat (destruct H as [<-|H]; [reflexivity|]). contradiction.
Qed.

(** The substitution at a colon where the pattern matches: the text
    before the colon is kept. *)
Lemma fix_truthy_at (prefix after w : string) :
  Comprehensive.truthy_tail after = Some w ->
  Comprehensive.fix_truthy (prefix ++ ":" ++ after)
  = prefix ++ ": " ++ Comprehensive.truthy_map w.
Proof.
  intros T. induction prefix as [|c p IH].
  - change (EmptyString ++ ":" ++ after) with (String ":" after).
    rewrite fix_truthy_cons, T. reflexivity.
  - change (String c p ++ ":" ++ after) with (String c (p ++ ":" ++ after)).
    rewrite fix_truthy_cons, IH.
    destruct (Ascii.eqb c ":"); [|reflexivity].
    rewrite truthy_tail_no_colon; [reflexivity|].
    apply contains_app_r. exact (startswith_app ":" after).
Qed.

Lemma fix_truthy_cases (s : string) :
  Comprehensive.fix_truthy s = s
  \/ exists prefix blanks w trail,
       s = prefix ++ ":" ++ blanks ++ w ++ trail
       /\ Py.is_empty blanks = false /\ Py.all_space blanks = true
       /\ In w Comprehensive.truthy_words /\ Py.all_space trail = true.
Proof.
  induction s as [|c t IH]; [now left|]. rewrite fix_truthy_cons.
  assert (K : String c (Comprehensive.fix_truthy t) = String c t
              \/ exists prefix blanks w trail,
                  String c t = prefix ++ ":" ++ blanks ++ w ++ trail
                  /\ Py.is_empty blanks = false
                  /\ Py.all_space blanks = true
                  /\ In w Comprehensive.truthy_words
                  /\ Py.all_space trail = true).
  { destruct IH as [-> | (p & b & w & r & -> & H)]; [now left|].
    right. now exists (String c p), b, w, r. }
  destruct (Ascii.eqb c ":") eqn:E; [|exact K].
  destruct (Comprehensive.truthy_tail t) as [w|] eqn:T; [|exact K].
  apply Ascii.eqb_eq in E. subst c.
  destruct (truthy_tail_word t w T) as (I & S & A).
  right. exists EmptyString, (Py.leading_ws t), w,
                (Py.drop (Py.len w) (Py.lstrip t)).
  repeat split;
    [ | exact (truthy_tail_blanks t w T) | apply all_space_leading_ws
      | exact I | exact A ].
  rewrite <- (startswith_split _ _ S). cbn [append]. f_equal.
  symmetry. apply leading_ws_lstrip.
Qed.

End Truthy.

(** X15: fix-yaml-comprehensive.py, the substitution of truthy values
    (lines 44-47).  Wherever the line is cut into a text, a colon, at
    least one whitespace character, one of the twelve words and trailing
    whitespace, the substitution keeps the text before the colon and
    puts a colon, a blank and [true] (for on and yes) or [false] (for
    off and no) after it; a line that cannot be cut so is left as it
    is; on a line it has produced the substitution changes nothing. *)
Theorem truthy_rewrite_once (s : string) :
  (forall prefix blanks w trail : string,
      s = prefix ++ ":" ++ blanks ++ w ++ trail ->
      Py.is_empty blanks = false -> Py.all_space blanks = true ->
      In w Comprehensive.truthy_words -> Py.all_space trail = true ->
      Comprehensive.fix_truthy s
      = prefix ++ ": "
        ++ (if Py.mem (Py.lower w) ["on"; "yes"] then "true" else "false"))
  /\ ((forall prefix blanks w trail : string,
          s = prefix ++ ":" ++ blanks ++ w ++ trail ->
          Py.is_empty blanks = false -> Py.all_space blanks = true ->
          In w Comprehensive.truthy_words -> Py.all_space trail = true ->
          False) ->
      Comprehensive.fix_truthy s = s)
  /\ Comprehensive.fix_truthy (Comprehensive.fix_truthy s)
     = Comprehensive.fix_truthy s.
Proof.
  assert (A : forall prefix blanks w trail : string,
             s = prefix ++ ":" ++ blanks ++ w ++ trail ->
             Py.is_empty blanks = false -> Py.all_space blanks = true ->
             In w Comprehensive.truthy_words -> Py.all_space trail = true ->
             Comprehensive.fix_truthy s
             = prefix ++ ": " ++ Comprehensive.truthy_map w).
  { intros prefix blanks w trail -> N B I T.
    apply fix_truthy_at. now apply truthy_tail_shape. }
  split; [|split].
  - intros prefix blanks w trail E N B I T.
    rewrite <- (truthy_map_value w I). now apply (A prefix blanks w trail).
  - intros H. destruct (fix_truthy_cases s)
      as [E | (p & b & w & r & E & N & B & I & T)]; [exact E|].
    exfalso. exact (H p b w r E N B I T).
  - destruct (fix_truthy_cases s)
      as [E | (p & b & w & r & E & N & B & I & T)]; [now rewrite !E|].
    rewrite (A p b w r E N B I T).
    apply fix_truthy_written. exact (proj2 (truthy_word_map w I)).
Qed.

Lemma truthy_rewrite_once_witness :
  Comprehensive.fix_truthy "enabled:   Yes"
  = "enabled" ++ ": " ++ "true".
Proof.
  apply (proj1 (truthy_rewrite_once "enabled:   Yes")
               "enabled" "   " "Yes" EmptyString);
    try reflexivity.
  simpl. tauto.
Defined.

(* ================================================================== *)
(** * fix-yaml-final.py: the continuation marks *)
(* ================================================================== *)

Section Continuation.

Lemma chars_in_spaces (p : ascii -> bool) (n : nat) :
  p " "%char = true -> chars_in p (Py.spaces n) = true.
Proof.
  intros H. induction n as [|n IH]; [reflexivity|]. simpl.
  now rewrite H, IH.
Qed.

(** The lines the loop closes end with a blank and a backslash; the line
    it is left with holds no backslash when its material holds none. *)
Lemma final_wrap_loop_marks (n : nat) :
  forall (ws : list string) (cur : string) (out : list string)
         (last : string),
    Forall (fun w => chars_in not_backslash w = true) ws ->
    chars_in not_backslash cur = true ->
    Final.wrap_loop (Py.spaces n) cur ws = (out, last) ->
    Forall (fun L => Py.endswith L (" " ++ backslash) = true) out
    /\ chars_in not_backslash last = true.
Proof.
  induction ws as [|word r IH]; intros cur out last HW HC.
  - simpl. intros [= <- <-]. now split.
  - inversion HW as [|? ? Hw Hr]; subst. rewrite final_wrap_loop_cons.
    destruct (_ <=? 75)%nat.
    + apply (IH _ _ _ Hr).
      change (cur ++ " " ++ word) with (cur ++ String " " word).
      rewrite chars_in_app, HC. simpl. exact Hw.
    + destruct (Final.wrap_loop (Py.spaces n) (Py.spaces n ++ word) r)
        as [out' last'] eqn:W.
      intros [= <- <-].
      assert (HS : chars_in not_backslash (Py.spaces n ++ word) = true)
        by (rewrite chars_in_app, Hw, andb_true_r;
            now apply chars_in_spaces).
      destruct (IH _ _ _ Hr HS W) as [I1 I2].
      split; [|exact I2]. constructor; [|exact I1].
      exact (endswith_app cur (" " ++ backslash)).
Qed.

End Continuation.

(** X16: fix-yaml-final.py, the break of a long shell command (lines
    27-36): every line appended but the last ends with a blank and a
    backslash, and the last holds no backslash, so that the lines
    appended form one continued shell line. *)
Theorem final_continuation_marks (line : string) (out : list string) :
  Py.contains line "cosign sign" || Py.contains line "curl -"
  || Py.contains line "docker " = true ->
  Final.split_long line = Final.Continue out ->
  exists init last,
    out = (init ++ [last])%list
    /\ Forall (fun L => Py.endswith L (" " ++ backslash) = true) init
    /\ Py.contains last backslash = false.
Proof.
  intros K. unfold Final.split_long.
  destruct (80 <? Py.len line)%nat; [|discriminate]. rewrite K.
  destruct (Py.contains line backslash) eqn:B; [discriminate|].
  cbn [negb andb].
  destruct (Py.contains line " "); [|discriminate].
  pose proof (split_ws_tokens line) as T.
  pose proof (split_ws_chars _ _ (no_backslash_chars line B)) as C.
  destruct (Py.split_ws line) as [|w0 ws]; [discriminate|].
  inversion T as [|? ? T0 Tr]; subst.
  inversion C as [|? ? C0 Cr]; subst.
  destruct (Final.wrap_loop _ w0 ws) as [o last] eqn:W.
  destruct (final_wrap_loop_marks _ ws w0 o last Cr C0 W) as [M1 M2].
  assert (N : Py.split_ws w0 <> [])
    by (rewrite (split_ws_token w0 T0); discriminate).
  pose proof (final_wrap_loop_last _ ws w0 o last Tr N W) as L.
  destruct (Py.truthy (Py.strip last)) eqn:S;
    [|now rewrite (strip_empty_no_words last S) in L].
  intros [= <-]. exists o, last. repeat split; [exact M1|].
  exact (chars_exclude not_backslash last backslash M2 eq_refl).
Qed.

Lemma final_continuation_marks_witness :
  exists init last,
    [ "run: docker build and push the multi arch container image to the registry "
      ++ backslash;
      "        now and wait for the result" ] = (init ++ [last])%list
    /\ Forall (fun L => Py.endswith L (" " ++ backslash) = true) init
    /\ Py.contains last backslash = false.
Proof.
  apply (final_continuation_marks
           "      run: docker build and push the multi arch container image to the registry now and wait for the result");
    vm_compute; reflexivity.
Defined.

(* ================================================================== *)
(** * fix-yaml-targeted.py: the indentation fix *)
(* ================================================================== *)

Section Indent.

Lemma leading_ws_len (s : string) :
  Py.len (Py.leading_ws s) = Py.indent_of s.
Proof.
  unfold Py.indent_of. rewrite <- (leading_ws_lstrip s) at 2.
  rewrite len_app. lia.
Qed.

Lemma nine_spaces_shifted (line : string) :
  Targeted.nine_spaces line = true ->
  Py.indent_of (" " ++ line) = 10
  /\ Targeted.nine_spaces (" " ++ line) = false.
Proof.
  unfold Targeted.nine_spaces. intros H.
  apply andb_true_iff in H as [H _]. apply Nat.eqb_eq in H.
  rewrite <- !leading_ws_len.
  change (Py.leading_ws (" " ++ line)) with (String " " (Py.leading_ws line)).
  change (Py.len (String " " (Py.leading_ws line)))
    with (S (Py.len (Py.leading_ws line))).
  rewrite H. now split.
Qed.

End Indent.

(** X17: fix-yaml-targeted.py, the indentation fix (lines 98-105): it
    applies to the file [scan-to-securityhub.yml] alone and to a line
    that begins with exactly nine whitespace characters; the line it
    gives begins with ten, and the fix does not apply to its own output,
    whatever the file. *)
Theorem indent_fix_once (filename line : string) :
  (snd (Targeted.fix_indent filename line) = 1
   \/ Targeted.fix_indent filename line = (line, 0))
  /\ (snd (Targeted.fix_indent filename line) = 1 ->
      filename = "scan-to-securityhub.yml"
      /\ Py.indent_of line = 9
      /\ fst (Targeted.fix_indent filename line) = " " ++ line
      /\ Py.indent_of (fst (Targeted.fix_indent filename line)) = 10)
  /\ Targeted.fix_indent filename (fst (Targeted.fix_indent filename line))
     = (fst (Targeted.fix_indent filename line), 0).
Proof.
  unfold Targeted.fix_indent.
  destruct (String.eqb filename "scan-to-securityhub.yml") eqn:E;
    [|split; [now right | split; [discriminate | reflexivity]]].
  apply String.eqb_eq in E.
  destruct (Targeted.nine_spaces line) eqn:N.
  - destruct (nine_spaces_shifted line N) as [T F].
    assert (D : String.eqb (" " ++ line) line = false).
    { apply String.eqb_neq. intros B.
      apply (f_equal Py.len) in B. simpl in B. lia. }
    rewrite D. cbn [negb fst snd]. rewrite F.
    split; [now left|]. split; [|reflexivity].
    intros _. repeat split; [exact E | | exact T].
    unfold Targeted.nine_spaces in N. apply andb_true_iff in N as [N _].
    apply Nat.eqb_eq in N. now rewrite <- leading_ws_len.
  - cbn [fst snd]. rewrite N.
    split; [now right | split; [discriminate | reflexivity]].
Qed.

Lemma indent_fix_once_witness :
  "scan-to-securityhub.yml" = "scan-to-securityhub.yml"
  /\ Py.indent_of "         - name: scan" = 9
  /\ fst (Targeted.fix_indent "scan-to-securityhub.yml"
                              "         - name: scan")
     = " " ++ "         - name: scan"
  /\ Py.indent_of (fst (Targeted.fix_indent "scan-to-securityhub.yml"
                                            "         - name: scan")) = 10.
Proof.
  apply (proj1 (proj2 (indent_fix_once "scan-to-securityhub.yml"
                                       "         - name: scan"))).
  reflexivity.
Defined.

(* ================================================================== *)
(** * Breaks at a blank *)
(* ================================================================== *)

Section BlankBreak.

Lemma drop_app_succ (a r : string) (x : ascii) :
  Py.drop (Py.len a + 1) (a ++ String x r) = r.
Proof.
  induction a as [|c a IH]; [reflexivity|]. exact IH.
Qed.

Lemma rsplit1_cut (x : ascii) (s a b : string) :
  Py.rsplit1 x s = Some (a, b) -> s = a ++ String x b.
Proof.
  revert a b. induction s as [|c t IH]; intros a b; [discriminate|].
  simpl. destruct (Py.rsplit1 x t) as [[a' b']|].
  - intros [= <- <-]. simpl. f_equal. now apply IH.
  - destruct (Ascii.eqb c x) eqn:E; [|discriminate].
    apply Ascii.eqb_eq in E. subst c. now intros [= <- <-].
Qed.

(** The position that [rfind] gives is that of a character [x]: the text
    is cut there. *)
Lemma rfind_char_cut (x : ascii) (s : string) (stop bp : nat) :
  Py.rfind_char x s stop = Some bp ->
  s = Py.take bp s ++ String x (Py.drop (bp + 1) s).
Proof.
  unfold Py.rfind_char.
  destruct (Py.rsplit1 x (Py.take stop s)) as [[a b]|] eqn:R;
    [|discriminate].
  simpl. intros [= <-]. apply rsplit1_cut in R.
  assert (E : s = a ++ String x (b ++ Py.drop stop s)).
  { rewrite <- (take_drop stop s) at 1. rewrite R.
    now rewrite app_assoc'. }
  rewrite E at 2 3. now rewrite take_app_len, drop_app_succ.
Qed.

Lemma get_cut (s : string) (n : nat) (c : ascii) :
  Py.get n s = Some c ->
  s = Py.take n s ++ String c (Py.drop (n + 1) s) /\ n < Py.len s.
Proof.
  unfold Py.get. revert n. induction s as [|x t IH]; intros n.
  - destruct n; discriminate.
  - destruct n as [|n]; simpl.
    + intros [= ->]. split; [reflexivity | lia].
    + intros H. destruct (IH n H) as [E L]. split; [now f_equal | lia].
Qed.

Lemma len_take (n : nat) (s : string) :
  n <= Py.len s -> Py.len (Py.take n s) = n.
Proof.
  revert s. induction n as [|n IH]; intros s; [reflexivity|].
  destruct s as [|c t]; simpl; [lia|]. intros H. rewrite IH; lia.
Qed.

Lemma scan_break_found (line : string) :
  forall (n pos : nat) (acc : option nat) (bp : nat),
    Aggressive.scan_break line pos n acc = Some bp ->
    acc = Some bp
    \/ (pos <= bp < pos + n /\ Py.get bp line = Some " "%char).
Proof.
  induction n as [|n IH]; intros pos acc bp; [now left|].
  cbn [Aggressive.scan_break]. intros H. apply IH in H as [H|[H1 H2]].
  - destruct (Py.get pos line) as [c|] eqn:G; [|now left].
    destruct (Ascii.eqb c " ") eqn:E; [|now left].
    apply Ascii.eqb_eq in E. subst c. injection H as <-.
    right. split; [lia | exact G].
  - right. split; [lia | exact H2].
Qed.

Lemma find_break_found (line : string) (bp : nat) :
  Aggressive.find_break line = Some bp ->
  70 <= bp < 80 /\ Py.get bp line = Some " "%char.
Proof.
  unfold Aggressive.find_break. intros H.
  apply scan_break_found in H as [H|[H1 H2]]; [discriminate|].
  split; [lia | exact H2].
Qed.

Lemma words_of_cut (a b : string) (n : nat) :
  (Py.split_ws a ++ Py.split_ws (Py.spaces n ++ b))%list
  = Py.split_ws (a ++ String " " b).
Proof.
  now rewrite split_ws_spaces_app, (split_ws_app a b " "%char eq_refl).
Qed.

End BlankBreak.

(** X18: fix-yaml-aggressive.py, the fallback (lines 123-136): the line
    is cut at a blank found at one of the positions 70 to 79, so that the
    first of the two lines appended is 70 to 79 characters long, and the
    two lines hold the words of the line, in order. *)
Theorem aggressive_fallback_cut (line : string) (out : list string) :
  Aggressive.fallback line = Some out ->
  exists first second,
    out = [first; second]
    /\ 70 <= Py.len first <= 79
    /\ Py.startswith line first = true
    /\ flat_map Py.split_ws out = Py.split_ws line.
Proof.
  unfold Aggressive.fallback.
  destruct (_ && _); [|discriminate].
  destruct (Aggressive.find_break line) as [bp|] eqn:F; [|discriminate].
  destruct (0 <? bp)%nat; [|discriminate].
  intros [= <-]. apply find_break_found in F as [R G].
  apply get_cut in G as [E L].
  eexists _, _. split; [reflexivity|].
  rewrite (len_take bp line) by lia.
  split; [lia|]. split.
  - rewrite E at 1. apply startswith_app.
  - cbn [flat_map]. rewrite app_nil_r.
    change (Py.spaces (Py.indent_of line) ++ "  " ++ Py.drop (bp + 1) line)
      with (Py.spaces (Py.indent_of line)
            ++ Py.spaces 2 ++ Py.drop (bp + 1) line).
    rewrite (split_ws_spaces_app (Py.indent_of line)).
    exact (eq_trans
             (words_of_cut (Py.take bp line) (Py.drop (bp + 1) line) 2)
             (f_equal Py.split_ws (eq_sym E))).
Qed.

Lemma aggressive_fallback_cut_witness :
  exists first second,
    [ "aaaaaaaaaaaaaaaaaaaaaaaaaaaaaaaaaaaaaaaaaaaaaaaaaaaaaaaaaaaaaaaaaaaaaaaa bbb cc";
      "  ddddddddd" ] = [first; second]
    /\ 70 <= Py.len first <= 79
    /\ Py.startswith
         "aaaaaaaaaaaaaaaaaaaaaaaaaaaaaaaaaaaaaaaaaaaaaaaaaaaaaaaaaaaaaaaaaaaaaaaa bbb cc ddddddddd"
         first = true
    /\ flat_map Py.split_ws
         [ "aaaaaaaaaaaaaaaaaaaaaaaaaaaaaaaaaaaaaaaaaaaaaaaaaaaaaaaaaaaaaaaaaaaaaaaa bbb cc";
           "  ddddddddd" ]
       = Py.split_ws
           "aaaaaaaaaaaaaaaaaaaaaaaaaaaaaaaaaaaaaaaaaaaaaaaaaaaaaaaaaaaaaaaaaaaaaaaa bbb cc ddddddddd".
Proof.
  apply aggressive_fallback_cut. vm_compute. reflexivity.
Defined.

(** X19: fix-yaml-final.py, the break of a long [echo] (lines 41-60):
    the message is cut at a blank, and the two lines appended hold, the
    backslash that ends the first apart, the words of the line, in
    order; the first ends with a blank and a backslash. *)
Theorem final_echo_break_keeps_words (line : string) (out : list string) :
  Py.contains line "cosign sign" || Py.contains line "curl -"
  || Py.contains line "docker " = false ->
  Py.contains line "echo " = true ->
  Final.split_long line = Final.Continue out ->
  filter plain_word (flat_map Py.split_ws out) = Py.split_ws line
  /\ exists first second,
      out = [first; second]
      /\ Py.endswith first (" " ++ backslash) = true.
Proof.
  intros K E. unfold Final.split_long.
  destruct (80 <? Py.len line)%nat; [|discriminate]. rewrite K, E.
  destruct (Py.contains line backslash) eqn:B; [discriminate|].
  cbn [negb].
  destruct (Py.find line "echo ") as [ep|]; [|discriminate].
  destruct (_ && _); [|discriminate].
  destruct (Py.rfind_char _ _ _) as [bp|] eqn:R; [|discriminate].
  destruct (0 <? bp)%nat; [|discriminate].
  intros [= <-]. apply rfind_char_cut in R.
  set (prefix := Py.take (ep + 5) line) in *.
  set (message := Py.drop (ep + 5) line) in *.
  assert (L : line = (prefix ++ Py.take bp message)
                     ++ String " " (Py.drop (bp + 1) message)).
  { rewrite app_assoc', <- R. symmetry. apply take_drop. }
  split.
  - cbn [flat_map]. rewrite app_nil_r.
    change (prefix ++ Py.take bp message ++ " " ++ backslash)
      with (prefix ++ Py.take bp message ++ String " " backslash).
    rewrite <- app_assoc'.
    rewrite (split_ws_app _ backslash " "%char eq_refl).
    change (Py.split_ws backslash) with [backslash].
    rewrite split_ws_spaces_app, !filter_app. cbn [filter].
    unfold plain_word at 2. rewrite String.eqb_refl. cbn [negb].
    rewrite app_nil_r, <- filter_app.
    rewrite <- (split_ws_app _ _ " "%char eq_refl), <- L.
    now apply plain_words.
  - eexists _, _. split; [reflexivity|].
    change (prefix ++ Py.take bp message ++ " " ++ backslash)
      with (prefix ++ Py.take bp message ++ (" " ++ backslash)).
    rewrite <- app_assoc'. apply endswith_app.
Qed.

Lemma final_echo_break_keeps_words_witness :
  filter plain_word
         (flat_map Py.split_ws
            [ "      run: echo build and push the multi arch container image to the registry "
              ++ backslash;
              "        now and wait for the result" ])
  = Py.split_ws run_line
  /\ exists first second,
      [ "      run: echo build and push the multi arch container image to the registry "
        ++ backslash;
        "        now and wait for the result" ] = [first; second]
      /\ Py.endswith first (" " ++ backslash) = true.
Proof.
  apply final_echo_break_keeps_words; vm_compute; reflexivity.
Defined.

(* ================================================================== *)
(** * The file name as an input of the rewrite: the adjustment *)
(* ================================================================== *)

Section NameMatters.

Lemma nonblank_rstrip (s : string) :
  Py.is_empty (Py.lstrip s) = false -> Py.is_empty (Py.rstrip s) = false.
Proof.
  intros H. destruct (Py.is_empty (Py.rstrip s)) eqn:E; [|reflexivity].
  apply is_empty_true, rstrip_empty_all_space, lstrip_all_space in E.
  now rewrite E in H.
Qed.

Lemma rstrip_shifted (line : string) :
  Py.is_empty (Py.lstrip line) = false ->
  Py.rstrip (" " ++ line) = " " ++ Py.rstrip line.
Proof.
  intros H. change (" " ++ line) with (String " " line).
  cbn [Py.rstrip]. now rewrite (nonblank_rstrip line H), andb_false_r.
Qed.

Lemma shifted_differs (line : string) :
  String.eqb (" " ++ line) line = false.
Proof.
  apply String.eqb_neq. intros B.
  apply (f_equal Py.len) in B. simpl in B. lia.
Qed.

Lemma targeted_short_line (line : string) :
  Py.len line <= 80 -> Targeted.split_long line = None.
Proof.
  intros H. unfold Targeted.split_long.
  apply Nat.ltb_ge in H. now rewrite H.
Qed.

(** A line that the long-line block leaves alone: the name of the file
    decides whether a blank is put in front of it. *)
Lemma targeted_line_by_name (filename line : string) :
  Targeted.split_long line = None ->
  Targeted.process_line filename line
  = if String.eqb filename "scan-to-securityhub.yml"
       && (Py.indent_of line =? 9)%nat
       && negb (Py.is_empty (Py.lstrip line))
    then ([" " ++ Py.rstrip line], 1)
    else ([Py.rstrip line], 0).
Proof.
  intros S. unfold Targeted.process_line, Targeted.fix_indent,
              Targeted.nine_spaces.
  rewrite S, leading_ws_len.
  destruct (String.eqb filename "scan-to-securityhub.yml");
    [|reflexivity]. cbn [andb].
  destruct (Py.indent_of line =? 9)%nat; [|reflexivity]. cbn [andb].
  destruct (Py.is_empty (Py.lstrip line)) eqn:E; [reflexivity|].
  cbn [negb]. rewrite shifted_differs. cbn [negb].
  now rewrite (rstrip_shifted line E).
Qed.

End NameMatters.

(** C10: the rewrite of fix-yaml-targeted.py depends on the name of the
    file.  (1) Two files with the same content and different names are
    given different texts: the line that begins with nine blanks comes
    back with ten under the name [scan-to-securityhub.yml] and as it was
    under another name, by the function and by [main].  (2) On a line
    that the long-line block leaves alone (any line of at most 80
    characters) the name decides: under [scan-to-securityhub.yml] a line
    with exactly nine leading whitespace characters and more text gets
    one more blank in front and a fix is counted; under any other name,
    and for any other line, the line only loses its trailing whitespace
    and nothing is counted.  A line that the long-line block splits is
    split in the same way under every name.  So any two names other than
    [scan-to-securityhub.yml] give the same result on every content.
    (3) [main] leaves every file whose name is not on its list as it was
    and reports on listed files only. *)
Theorem rewrite_depends_on_name :
  (Targeted.fix_specific_issues nine_doc "scan-to-securityhub.yml"
   = (doc ["steps:"; "          - name: scan"; ""], 1)
   /\ Targeted.fix_specific_issues nine_doc "sbom-sca.yml" = (nine_doc, 0)
   /\ fst (Targeted.fix_specific_issues nine_doc "scan-to-securityhub.yml")
      <> fst (Targeted.fix_specific_issues nine_doc "sbom-sca.yml")
   /\ Batch.main_targeted same_dir
      = Batch.Returned 0
          [ ("release.yml",
             {| Batch.content := nine_doc;
                Batch.readable := true; Batch.writable := true |});
            ("sbom-sca.yml",
             {| Batch.content := nine_doc;
                Batch.readable := true; Batch.writable := true |});
            ("scan-to-securityhub.yml",
             {| Batch.content := doc ["steps:"; "          - name: scan"; ""];
                Batch.readable := true; Batch.writable := true |}) ]
          [ Batch.Fixed "scan-to-securityhub.yml" 1;
            Batch.NoFix "sbom-sca.yml" ] 1)
  /\ (forall line : string,
         Py.len line <= 80 -> Targeted.split_long line = None)
  /\ (forall filename line : string,
         Targeted.split_long line = None ->
         Targeted.process_line filename line
         = if String.eqb filename "scan-to-securityhub.yml"
              && (Py.indent_of line =? 9)%nat
              && negb (Py.is_empty (Py.lstrip line))
           then ([" " ++ Py.rstrip line], 1)
           else ([Py.rstrip line], 0))
  /\ (forall (filename line : string) (out : list string),
         Targeted.split_long line = Some out ->
         Targeted.process_line filename line = (out, 1))
  /\ (forall content f1 f2,
         f1 <> "scan-to-securityhub.yml" ->
         f2 <> "scan-to-securityhub.yml" ->
         Targeted.fix_specific_issues content f1
         = Targeted.fix_specific_issues content f2)
  /\ (forall (d : Batch.dir) (name : string),
         ~ In name Targeted.problem_files ->
         Batch.lookup name (final_dir (Batch.main_targeted d))
         = Batch.lookup name d)
  /\ (forall d : Batch.dir,
         Forall (fun r => In (report_name r) Targeted.problem_files)
                (run_log (Batch.main_targeted d))).
Proof.
  split; [|split; [|split; [|split; [|split; [|split]]]]].
  - repeat split; try (vm_compute; reflexivity). vm_compute. discriminate.
  - exact targeted_short_line.
  - exact targeted_line_by_name.
  - intros filename line out S. unfold Targeted.process_line. now rewrite S.
  - intros content f1 f2 H1 H2. unfold Targeted.fix_specific_issues.
    now rewrite (targeted_lines_other f1 f2 _ H1 H2).
  - intros d name H. unfold Batch.main_targeted.
    pose proof (targeted_loop_other name _ H d [] 0) as L.
    destruct (Batch.targeted_loop Targeted.problem_files d [] 0)
      as [[d' log] total]. exact L.
  - intros d. unfold Batch.main_targeted.
    pose proof (targeted_loop_log Targeted.problem_files
                  Targeted.problem_files (incl_refl _) d [] 0
                  (Forall_nil _)) as L.
    destruct (Batch.targeted_loop Targeted.problem_files d [] 0)
      as [[d' log] total]. exact L.
Qed.

Lemma rewrite_depends_on_name_witness :
  Targeted.process_line "scan-to-securityhub.yml" "         - name: scan  "
  = ([" " ++ Py.rstrip "         - name: scan  "], 1)
  /\ Targeted.process_line "sbom-sca.yml" "         - name: scan  "
     = ([Py.rstrip "         - name: scan  "], 0)
  /\ Targeted.fix_specific_issues nine_doc "sbom-sca.yml"
     = Targeted.fix_specific_issues nine_doc "release.yml"
  /\ Batch.lookup "release.yml" (final_dir (Batch.main_targeted other_dir))
     = Batch.lookup "release.yml" other_dir.
Proof.
  pose proof rewrite_depends_on_name as (_ & S & L & _ & O & M & _).
  split; [|split; [|split]].
  - apply (L "scan-to-securityhub.yml" "         - name: scan  ").
    apply S. vm_compute. lia.
  - apply (L "sbom-sca.yml" "         - name: scan  ").
    apply S. vm_compute. lia.
  - apply O; discriminate.
  - apply M. vm_compute. intuition discriminate.
Defined.

(* ================================================================== *)
(** * The second pass *)
(* ================================================================== *)

Section Lines.

Lemma one_line_app (a b : string) :
  one_line (a ++ b) = one_line a && one_line b.
Proof. apply chars_in_app. Qed.

Lemma one_line_take (n : nat) (s : string) :
  one_line s = true -> one_line (Py.take n s) = true.
Proof.
  unfold one_line. revert s. induction n as [|n IH]; intros s; [reflexivity|].
  destruct s as [|c t]; [reflexivity|]. simpl.
  intros H. apply andb_true_iff in H as [Hc Ht]. now rewrite Hc, (IH t Ht).
Qed.

Lemma one_line_drop (n : nat) (s : string) :
  one_line s = true -> one_line (Py.drop n s) = true.
Proof.
  unfold one_line. revert s. induction n as [|n IH]; intros s; [trivial|].
  destruct s as [|c t]; [reflexivity|]. simpl.
  intros H. apply andb_true_iff in H as [_ Ht]. exact (IH t Ht).
Qed.

Lemma one_line_lstrip (s : string) :
  one_line s = true -> one_line (Py.lstrip s) = true.
Proof.
  unfold one_line. induction s as [|c t IH]; [reflexivity|].
  cbn [Py.lstrip]. destruct (Py.isspace c); [|trivial].
  simpl. intros H. apply andb_true_iff in H as [_ Ht]. exact (IH Ht).
Qed.

Lemma one_line_rstrip (s : string) :
  one_line s = true -> one_line (Py.rstrip s) = true.
Proof.
  unfold one_line. induction s as [|c t IH]; [reflexivity|].
  simpl. intros H. apply andb_true_iff in H as [Hc Ht].
  destruct (Py.isspace c && Py.is_empty (Py.rstrip t)); [reflexivity|].
  simpl. now rewrite Hc, (IH Ht).
Qed.

Lemma one_line_strip (s : string) :
  one_line s = true -> one_line (Py.strip s) = true.
Proof. intros H. now apply one_line_lstrip, one_line_rstrip. Qed.

Lemma one_line_leading_ws (s : string) :
  one_line s = true -> one_line (Py.leading_ws s) = true.
Proof.
  unfold one_line. induction s as [|c t IH]; [reflexivity|].
  simpl. intros H. apply andb_true_iff in H as [Hc Ht].
  destruct (Py.isspace c); [|reflexivity]. simpl. now rewrite Hc, (IH Ht).
Qed.

Lemma one_line_spaces (n : nat) : one_line (Py.spaces n) = true.
Proof. apply chars_in_spaces. reflexivity. Qed.

Lemma one_line_words (s : string) :
  one_line s = true ->
  Forall (fun w => one_line w = true) (Py.split_ws s).
Proof. apply split_ws_chars. Qed.

Lemma one_line_span (p : ascii -> bool) (s : string) :
  one_line s = true -> one_line (Re.span p s) = true.
Proof.
  unfold one_line. induction s as [|c t IH]; [reflexivity|].
  simpl. intros H. apply andb_true_iff in H as [Hc Ht].
  destruct (p c); [|reflexivity]. simpl. now rewrite Hc, (IH Ht).
Qed.

Lemma one_line_last_char (s : string) (c : ascii) :
  one_line s = true -> Py.last_char s = Some c ->
  one_line (String c EmptyString) = true.
Proof.
  unfold one_line. induction s as [|x t IH]; [discriminate|].
  simpl chars_in. intros H. apply andb_true_iff in H as [Hx Ht].
  destruct t as [|y t'].
  - simpl. intros [= <-]. simpl. now rewrite Hx.
  - intros L. apply (IH Ht). exact L.
Qed.

Lemma one_line_ws_plus_rest (s v : string) :
  one_line s = true -> Re.ws_plus_rest s = Some v -> one_line v = true.
Proof.
  intros H. unfold Re.ws_plus_rest.
  destruct (Py.is_empty (Py.leading_ws s)); [discriminate|].
  destruct (negb (Py.is_empty (Py.lstrip s)));
    [intros [= <-]; now apply one_line_lstrip|].
  destruct (Py.last_char (Py.leading_ws s)) as [c|] eqn:L; [|discriminate].
  destruct (2 <=? _)%nat; [|discriminate]. intros [= <-].
  exact (one_line_last_char _ c (one_line_leading_ws s H) L).
Qed.

(** The lines of a text hold no newline. *)
Lemma lines_one_line (s : string) :
  Forall (fun l => one_line l = true)
         (Py.split_char (ascii_of_nat 10) s).
Proof.
  induction s as [|c t IH]; [repeat constructor|].
  rewrite split_char_cons.
  destruct (Ascii.eqb c (ascii_of_nat 10)) eqn:E;
    [constructor; [reflexivity | exact IH]|].
  destruct (Py.split_char (ascii_of_nat 10) t) as [|h r];
    [repeat constructor; unfold one_line, not_nl; simpl; now rewrite E|].
  inversion IH as [|? ? Hh Hr]; subst. constructor; [|exact Hr].
  unfold one_line, not_nl in *. simpl. now rewrite E, Hh.
Qed.

Lemma split_one_line (s : string) :
  one_line s = true -> Py.split_char (ascii_of_nat 10) s = [s].
Proof.
  unfold one_line, not_nl. induction s as [|c t IH]; [reflexivity|].
  simpl chars_in. intros H. apply andb_true_iff in H as [Hc Ht].
  rewrite split_char_cons. apply negb_true_iff in Hc. rewrite Hc.
  now rewrite (IH Ht).
Qed.

Lemma split_app_nl (x r : string) :
  one_line x = true ->
  Py.split_char (ascii_of_nat 10) (x ++ nl ++ r)
  = x :: Py.split_char (ascii_of_nat 10) r.
Proof.
  unfold one_line, not_nl. induction x as [|c t IH].
  - intros _. change (EmptyString ++ nl ++ r)
      with (String (ascii_of_nat 10) r).
    now rewrite split_char_cons, Ascii.eqb_refl.
  - simpl chars_in. intros H. apply andb_true_iff in H as [Hc Ht].
    change (String c t ++ nl ++ r) with (String c (t ++ nl ++ r)).
    rewrite split_char_cons. apply negb_true_iff in Hc. rewrite Hc.
    now rewrite (IH Ht).
Qed.

(** Joining lines and splitting the text gives the lines back. *)
Lemma split_join (L : list string) :
  Forall (fun l => one_line l = true) L ->
  Py.split_char (ascii_of_nat 10) (Py.join nl L)
  = match L with [] => [EmptyString] | _ => L end.
Proof.
  unfold Py.join. induction 1 as [|x L Hx HL IH]; [reflexivity|].
  destruct L as [|y L'].
  - simpl. now apply split_one_line.
  - change (String.concat nl (x :: y :: L'))
      with (x ++ nl ++ String.concat nl (y :: L')).
    now rewrite (split_app_nl _ _ Hx), IH.
Qed.

Lemma split_snoc_nl (s : string) :
  Py.split_char (ascii_of_nat 10) (s ++ nl)
  = (Py.split_char (ascii_of_nat 10) s ++ [EmptyString])%list.
Proof.
  induction s as [|c t IH]; [reflexivity|].
  change (String c t ++ nl) with (String c (t ++ nl)).
  rewrite !split_char_cons, IH.
  destruct (Ascii.eqb c (ascii_of_nat 10)); [reflexivity|].
  pose proof (split_char_nonempty (ascii_of_nat 10) t) as N.
  now destruct (Py.split_char (ascii_of_nat 10) t).
Qed.

End Lines.

Section Endings.

Lemma split_rstrip_nl (s : string) :
  exists k,
    Py.split_char (ascii_of_nat 10) s
    = (Py.split_char (ascii_of_nat 10) (Py.rstrip_char (ascii_of_nat 10) s)
       ++ repeat EmptyString k)%list.
Proof.
  induction s as [|c t [k IH]]; [now exists 0|].
  cbn [Py.rstrip_char].
  destruct (Ascii.eqb c (ascii_of_nat 10)
            && Py.is_empty (Py.rstrip_char (ascii_of_nat 10) t)) eqn:E.
  - apply andb_true_iff in E as [Ec Et]. apply is_empty_true in Et.
    rewrite Et in IH. exists (S k).
    rewrite split_char_cons, Ec, IH. reflexivity.
  - exists k. rewrite !split_char_cons, IH.
    destruct (Ascii.eqb c (ascii_of_nat 10)); [reflexivity|].
    pose proof (split_char_nonempty
                  (ascii_of_nat 10)
                  (Py.rstrip_char (ascii_of_nat 10) t)) as N.
    now destruct (Py.split_char (ascii_of_nat 10)
                                (Py.rstrip_char (ascii_of_nat 10) t)).
Qed.

Lemma Forall_repeat {A} (P : A -> Prop) (x : A) (k : nat) :
  P x -> Forall P (repeat x k).
Proof. intros H. induction k; now constructor. Qed.

(** The lines of a text that one of the endings has been given: they
    are lines that were joined, or empty; the first is the first that
    was joined. *)
Lemma ended_lines (P : string -> Prop) (L : list string) (R : string) :
  Forall (fun l => one_line l = true) L ->
  R = Py.join nl L \/ R = Py.join nl L ++ nl
  \/ R = Py.rstrip_char (ascii_of_nat 10) (Py.join nl L) ++ nl ->
  Forall P L -> P EmptyString ->
  Forall P (Py.split_char (ascii_of_nat 10) R)
  /\ hd EmptyString (Py.split_char (ascii_of_nat 10) R)
     = hd EmptyString L.
Proof.
  intros HL HR HP HE.
  pose proof (split_join L HL) as SJ.
  assert (PJ : Forall P (Py.split_char (ascii_of_nat 10) (Py.join nl L))
               /\ hd EmptyString
                     (Py.split_char (ascii_of_nat 10) (Py.join nl L))
                  = hd EmptyString L).
  { rewrite SJ. destruct L; [split; [now constructor | reflexivity]|].
    now split. }
  destruct PJ as [PJ HJ].
  assert (HD : forall (a b : list string),
             a <> [] -> hd EmptyString (a ++ b)%list = hd EmptyString a)
    by (intros [|x a] b N; [contradiction | reflexivity]).
  destruct HR as [-> | [-> | ->]].
  - now split.
  - rewrite split_snoc_nl. split.
    + apply Forall_app. split; [exact PJ | now constructor].
    + rewrite HD; [exact HJ | apply split_char_nonempty].
  - rewrite split_snoc_nl.
    destruct (split_rstrip_nl (Py.join nl L)) as [k E].
    rewrite E in PJ, HJ. apply Forall_app in PJ as [PJ _].
    rewrite HD in HJ by apply split_char_nonempty.
    split.
    + apply Forall_app. split; [exact PJ | now constructor].
    + rewrite HD; [exact HJ | apply split_char_nonempty].
Qed.

Lemma aggressive_finish_cases (L : list string) :
  Aggressive.finish L = Py.join nl L
  \/ Aggressive.finish L = Py.join nl L ++ nl
  \/ Aggressive.finish L
     = Py.rstrip_char (ascii_of_nat 10) (Py.join nl L) ++ nl.
Proof.
  unfold Aggressive.finish. destruct (negb _); tauto.
Qed.

Lemma v2_finish_cases (L : list string) :
  fst (LintV2.finish L) = Py.join nl L
  \/ fst (LintV2.finish L) = Py.join nl L ++ nl
  \/ fst (LintV2.finish L)
     = Py.rstrip_char (ascii_of_nat 10) (Py.join nl L) ++ nl.
Proof.
  unfold LintV2.finish. destruct (negb _); [tauto|].
  destruct (Py.endswith _ (nl ++ nl)); tauto.
Qed.

End Endings.

Lemma one_line_cons (c : ascii) (s : string) :
  not_nl c = true -> one_line s = true -> one_line (String c s) = true.
Proof. unfold one_line. simpl. now intros -> ->. Qed.

Create HintDb lines.
#[local] Hint Resolve one_line_take one_line_drop one_line_lstrip
  one_line_rstrip one_line_strip one_line_leading_ws one_line_spaces : lines.

Ltac one_line_parts :=
  repeat (first [ progress rewrite one_line_app
                | match goal with
                  | |- (_ && _) = true => apply andb_true_intro; split
                  | |- one_line (String _ _) = true =>
                      apply one_line_cons; [reflexivity|]
                  end ]);
  try reflexivity; auto with lines.

Ltac one_line_list :=
  repeat (constructor; [one_line_parts|]); try constructor.

Section AggressiveLines.

Lemma wrap_loop_one_line (cont : string) :
  forall (ws : list string) (cur : string) (out : list string)
         (last : string),
    one_line cont = true -> one_line cur = true ->
    Forall (fun w => one_line w = true) ws ->
    Lint.wrap_loop cont cur ws = (out, last) ->
    Forall (fun l => one_line l = true) (out ++ [last])%list.
Proof.
  induction ws as [|word r IH]; intros cur out last HC HI HW.
  - simpl. intros [= <- <-]. now repeat constructor.
  - inversion HW as [|? ? Hw Hr]; subst. rewrite wrap_loop_cons.
    destruct (_ <=? 80)%nat.
    + apply IH; [exact HC | | exact Hr].
      change (cur ++ " " ++ word) with (cur ++ String " " word).
      rewrite one_line_app, HI. unfold one_line in *. simpl. exact Hw.
    + destruct (Lint.wrap_loop cont (cont ++ word) r) as [o l] eqn:W.
      intros [= <- <-]. rewrite <- app_comm_cons.
      constructor; [exact HI|].
      apply (IH (cont ++ word) o l HC); [|exact Hr | exact W].
      now rewrite one_line_app, HC, Hw.
Qed.

Lemma list_item_one_line (line prefix content : string) :
  one_line line = true -> Re.list_item line = Some (prefix, content) ->
  one_line prefix = true /\ one_line content = true.
Proof.
  intros H. unfold Re.list_item.
  destruct (_ && _); [|discriminate]. intros [= <- <-].
  split; [one_line_parts|].
  exact (one_line_drop 2 _ (one_line_lstrip _ H)).
Qed.

Lemma aggressive_env_one_line (line sp name value : string) :
  one_line line = true ->
  Aggressive.match_env_var line = Some (sp, name, value) ->
  one_line sp = true /\ one_line name = true /\ one_line value = true.
Proof.
  intros H. unfold Aggressive.match_env_var.
  pose proof (one_line_lstrip line H) as HL.
  destruct (Py.lstrip line) as [|c t] eqn:E; [discriminate|].
  destruct (_ && _); [|discriminate].
  destruct (Py.startswith _ ":"); [|discriminate].
  destruct (Re.ws_plus_rest _) as [v|] eqn:W; [|discriminate].
  intros [= <- <- <-].
  assert (Hc : one_line (String c EmptyString) = true
               /\ one_line t = true).
  { unfold one_line in *. simpl in HL.
    apply andb_true_iff in HL as [Hc Ht]. simpl. now rewrite Hc. }
  destruct Hc as [Hc Ht].
  assert (Hn : one_line (String c (Re.span Re.upper_digit_us t)) = true).
  { change (String c (Re.span Re.upper_digit_us t))
      with (String c EmptyString ++ Re.span Re.upper_digit_us t).
    rewrite one_line_app, Hc. now apply one_line_span. }
  assert (Hk : one_line (String c (Re.span Re.upper_digit_us t) ++ ":")
               = true) by (now rewrite one_line_app, Hn).
  repeat split.
  - now apply one_line_leading_ws.
  - exact Hk.
  - apply (one_line_ws_plus_rest _ _ (one_line_drop 1 _
             (one_line_drop _ _ HL)) W).
Qed.

Lemma aggressive_patterns_one_line (line : string) (out : list string) :
  one_line line = true ->
  Aggressive.patterns line = Aggressive.Fixed out ->
  Forall (fun l => one_line l = true) out.
Proof.
  intros H. unfold Aggressive.patterns.
  destruct (_ && _).
  { destruct (Py.find line ": "); [|discriminate].
    destruct (_ <? 60)%nat; [|discriminate].
    destruct (30 <? _)%nat; [|discriminate].
    intros [= <-]. one_line_list. }
  destruct (Py.startswith (Py.lstrip line) "- ").
  { destruct (Re.list_item line) as [[marker content]|] eqn:R;
      [|discriminate].
    destruct (list_item_one_line _ _ _ H R) as [HM HC].
    destruct (Py.contains content ": ").
    - destruct (Py.find content ": "); [|discriminate].
      destruct (30 <? _)%nat; [|discriminate].
      intros [= <-]. one_line_list.
    - pose proof (one_line_words content HC) as HW.
      destruct (Py.split_ws content) as [|w0 ws]; [discriminate|].
      inversion HW as [|? ? H0 Hs]; subst.
      intros [= <-]. unfold Aggressive.wrap_words.
      destruct (Lint.wrap_loop _ _ ws) as [o l] eqn:W.
      apply (wrap_loop_one_line (Py.spaces (Py.len marker)) ws
                                (marker ++ w0) o l);
        [| | exact Hs | exact W]; one_line_parts. }
  destruct (Aggressive.match_env_var line) as [[[sp name] value]|] eqn:M.
  { destruct (aggressive_env_one_line _ _ _ _ H M) as (H1 & H2 & H3).
    intros [= <-]. one_line_list. }
  destruct (_ || _).
  { destruct (Py.contains line ": "); [|discriminate].
    destruct (Py.find line ": "); [|discriminate].
    destruct (_ || _); [|discriminate].
    intros [= <-]. one_line_list. }
  destruct (Py.contains line "run:"); [|discriminate].
  destruct (Py.find line "run:"); [|discriminate].
  destruct (40 <? _)%nat; [|discriminate].
  intros [= <-]. one_line_list.
Qed.

Lemma aggressive_line_one_line (l : string) (out : list string) (c : nat) :
  one_line l = true ->
  Aggressive.process_line l = Some (out, c) ->
  Forall (fun e => one_line e = true) out.
Proof.
  intros H. pose proof (one_line_rstrip l H) as HR.
  unfold Aggressive.process_line.
  destruct (_ <=? 80)%nat; [intros [= <- _]; now repeat constructor|].
  destruct (Aggressive.skipped _);
    [intros [= <- _]; now repeat constructor|].
  destruct (Aggressive.patterns (Py.rstrip l)) as [o| |] eqn:P;
    [intros [= <- _]; exact (aggressive_patterns_one_line _ _ HR P)
    | | discriminate].
  unfold Aggressive.fallback.
  destruct (_ && _); [|intros [= <- _]; now repeat constructor].
  destruct (Aggressive.find_break _);
    [|intros [= <- _]; now repeat constructor].
  destruct (0 <? _)%nat; intros [= <- _];
    [one_line_list | now repeat constructor].
Qed.

(** A line within the budget is kept by a pass without a fix. *)
Lemma aggressive_quiet_line (e : string) :
  Py.len (Py.rstrip e) <= 80 ->
  Aggressive.process_line e = Some ([Py.rstrip e], 0).
Proof.
  intros H. unfold Aggressive.process_line.
  apply Nat.leb_le in H. now rewrite H.
Qed.

(** A line that a pass leaves without a fix is left so again. *)
Lemma aggressive_unbroken_again (l : string) (out : list string) :
  Aggressive.process_line l = Some (out, 0) ->
  out = [Py.rstrip l]
  /\ Aggressive.process_line (Py.rstrip l) = Some ([Py.rstrip l], 0).
Proof.
  intros H. pose proof (aggressive_line_zero l out H) as E. subst out.
  split; [reflexivity|].
  unfold Aggressive.process_line in *. now rewrite rstrip_idem.
Qed.

Lemma aggressive_line_count (l : string) (out : list string) (c : nat) :
  Aggressive.process_line l = Some (out, c) -> c = 0 \/ c = 1.
Proof.
  unfold Aggressive.process_line.
  destruct (_ <=? 80)%nat; [intros [= _ <-]; now left|].
  destruct (Aggressive.skipped _); [intros [= _ <-]; now left|].
  destruct (Aggressive.patterns _);
    [intros [= _ <-]; now right | | discriminate].
  destruct (Aggressive.fallback _); intros [= _ <-]; tauto.
Qed.

Lemma aggressive_first_pass (lines : list string) :
  forall (out : list string) (c : nat),
    Forall (fun l => one_line l = true) lines ->
    Aggressive.process_lines lines = Some (out, c) ->
    Forall (fun e => Py.len (Py.rstrip e) <= 80)
           (flat_map aggressive_broken_line lines) ->
    Forall (fun e => one_line e = true) out
    /\ Forall (fun e => exists o, Aggressive.process_line e = Some (o, 0))
              out.
Proof.
  induction lines as [|l r IH]; intros out c HL.
  - intros [= <- _] _. split; constructor.
  - inversion HL as [|? ? Hl Hr]; subst.
    cbn [Aggressive.process_lines flat_map].
    destruct (Aggressive.process_line l) as [[o k]|] eqn:P; [|discriminate].
    destruct (Aggressive.process_lines r) as [[os cs]|]; [|discriminate].
    intros [= <- _] HB. apply Forall_app in HB as [HB1 HB2].
    destruct (IH os cs Hr eq_refl HB2) as [I1 I2].
    split; apply Forall_app; split; try assumption.
    + exact (aggressive_line_one_line l o k Hl P).
    + unfold aggressive_broken_line in HB1. rewrite P in HB1.
      destruct k as [|k].
      * destruct (aggressive_unbroken_again l o P) as [-> Q].
        constructor; [eexists; exact Q | constructor].
      * eapply Forall_impl; [|exact HB1]. intros e He.
        eexists. now apply aggressive_quiet_line.
Qed.

Lemma aggressive_quiet_pass (L : list string) :
  Forall (fun e => exists o, Aggressive.process_line e = Some (o, 0)) L ->
  exists O, Aggressive.process_lines L = Some (O, 0).
Proof.
  induction 1 as [|e L [o He] _ [O IH]]; [now eexists|].
  cbn [Aggressive.process_lines]. rewrite He, IH. now eexists.
Qed.

Lemma aggressive_second_pass (D : string) :
  Forall (fun e => Py.len (Py.rstrip e) <= 80) (aggressive_broken D) ->
  second_pass Aggressive.aggressively_fix_line_lengths D = Some 0.
Proof.
  intros HB. unfold second_pass, Aggressive.aggressively_fix_line_lengths.
  destruct (aggressive_process_lines_total
              (Py.split_char (ascii_of_nat 10) D)) as [[out c] P].
  rewrite P.
  destruct (aggressive_first_pass _ out c (lines_one_line D) P HB)
    as [H1 H2].
  assert (E : exists o, Aggressive.process_line EmptyString = Some (o, 0))
    by now eexists.
  destruct (ended_lines _ out (Aggressive.finish out) H1
                        (aggressive_finish_cases out) H2 E) as [Q _].
  destruct (aggressive_quiet_pass _ Q) as [O ->]. reflexivity.
Qed.

End AggressiveLines.

Section Gap.

Lemma rstrip_char_len (x : ascii) (s : string) :
  Py.len (Py.rstrip_char x s) <= Py.len s.
Proof.
  induction s as [|c t IH]; simpl; [lia|].
  destruct (_ && _); simpl; unfold Py.len in *; lia.
Qed.

Lemma gap_from_find (e : string) :
  forall (run p : nat),
    Py.find e "#" = Some p ->
    comment_gap_from run e
    = Some (if Py.is_empty (Py.rstrip_char " " (Py.take p e))
            then run + Py.len (Py.take p e)
            else Lint.trailing_blanks (Py.take p e)).
Proof.
  induction e as [|c t IH]; intros run p; [discriminate|].
  rewrite find_cons, startswith_one. cbn [comment_gap_from].
  rewrite (Ascii.eqb_sym "#" c).
  destruct (Ascii.eqb c "#"); [intros [= <-]; simpl; f_equal; lia|].
  destruct (Py.find t "#") as [k|] eqn:F; [|discriminate].
  intros [= <-]. rewrite (IH _ k eq_refl). f_equal.
  pose proof (rstrip_char_len " " (Py.take k t)) as L.
  unfold Lint.trailing_blanks.
  change (Py.take (S k) (String c t)) with (String c (Py.take k t)).
  cbn [Py.rstrip_char].
  destruct (Ascii.eqb c " "); cbn [andb];
    destruct (Py.rstrip_char " " (Py.take k t)) as [|a r];
    cbn [Py.is_empty]; unfold Py.len in *; cbn [String.length] in *; lia.
Qed.

(** The gap is the number of blanks that end the text before the first
    comment sign. *)
Lemma gap_find (e : string) (p : nat) :
  Py.find e "#" = Some p ->
  comment_gap e = Some (Lint.trailing_blanks (Py.take p e)).
Proof.
  intros F. unfold comment_gap. rewrite (gap_from_find e 0 p F).
  destruct (Py.is_empty _) eqn:E; [|reflexivity].
  apply is_empty_true in E. unfold Lint.trailing_blanks. rewrite E.
  simpl. f_equal. lia.
Qed.

(** A comment sign that does not follow exactly one blank is left where
    it is. *)
Lemma gap_no_fix (e : string) :
  Py.startswith (Py.strip e) "#" = true \/ comment_gap e <> Some 1 ->
  LintV2.fix_comment_spacing e = (e, 0).
Proof.
  intros H. unfold LintV2.fix_comment_spacing.
  destruct (Py.startswith (Py.strip e) "#");
    [now rewrite andb_false_r|].
  destruct H as [H|H]; [discriminate|].
  destruct (_ && _); [|reflexivity].
  destruct (Py.find e "#") as [p|] eqn:F; [|reflexivity].
  destruct (_ && _); [|reflexivity].
  destruct (_ =? 1)%nat eqn:B; [|reflexivity].
  apply Nat.eqb_eq in B. rewrite (gap_find e p F), B in H. contradiction.
Qed.

End Gap.

Section V2Lines.

Lemma v2_split_mapping_count (l : string) (e : list string) (k : nat) :
  LintV2.split_mapping l = LintV2.Continue e k -> k = 1.
Proof.
  unfold LintV2.split_mapping.
  destruct (_ && _); [|discriminate].
  destruct (Py.find l ": "); [|discriminate].
  destruct (_ && _); [|discriminate].
  destruct (LintV2.fold_applies _); [now intros [= _ <-]|].
  destruct (_ && _); [|discriminate].
  destruct (Py.split_ws _); [discriminate|].
  destruct (LintV2.first_loop _ _ _) as [cl [|w r]];
    [discriminate | now intros [= _ <-]].
Qed.

Lemma v2_split_list_item_count (l : string) (e : list string) (k : nat) :
  LintV2.split_list_item l = LintV2.Continue e k -> k = 1.
Proof.
  unfold LintV2.split_list_item.
  destruct (_ && _); [|discriminate].
  destruct (Re.list_item l) as [[lp lc]|]; [|discriminate].
  destruct (_ && _); [|discriminate].
  destruct (Py.find lc ": "); [|discriminate].
  destruct (0 <? _)%nat; [|discriminate].
  destruct (_ && _); [now intros [= _ <-] | discriminate].
Qed.

(** The long-line block counts nothing only for a line that it keeps. *)
Lemma v2_handle_long_zero (x : string) (o : list string) :
  LintV2.handle_long x = LintV2.Continue o 0 -> o = [x].
Proof.
  unfold LintV2.handle_long.
  destruct (_ && _); [|discriminate].
  destruct (LintV2.expr_protected x); [now intros [= <-]|].
  destruct (LintV2.shell_protected x); [now intros [= <-]|].
  destruct (LintV2.split_mapping x) as [e k| |] eqn:M.
  - rewrite (v2_split_mapping_count x e k M). discriminate.
  - intros H. now apply v2_split_list_item_count in H.
  - discriminate.
Qed.

Lemma hash_not_key_char (y : string) (p : nat) (z : string) :
  Py.find y "#" = Some p ->
  chars_in truthy_key_char (z ++ Py.drop p y) = false.
Proof.
  intros F. apply find_startswith in F.
  rewrite chars_in_app.
  destruct (chars_in truthy_key_char (Py.drop p y)) eqn:C;
    [|apply andb_false_r].
  now pose proof (chars_in_startswith _ _ _ C F).
Qed.

(** Comment spacing does not turn a line into a trigger key. *)
Lemma v2_normal_not_truthy (y : string) :
  LintV2.truthy_match y = false ->
  LintV2.truthy_match (fst (LintV2.fix_comment_spacing y)) = false.
Proof.
  intros H.
  destruct (v2_repair_cases y) as [-> | (p & F & _ & ->)]; [exact H|].
  simpl fst.
  destruct (LintV2.truthy_match ((Py.take p y ++ " ") ++ Py.drop p y))
    eqn:T; [|reflexivity].
  apply truthy_match_chars in T.
  now rewrite (hash_not_key_char y p _ F) in T.
Qed.

Lemma v2_normal_spaced (y : string) :
  LintV2.fix_comment_spacing (fst (LintV2.fix_comment_spacing y))
  = (fst (LintV2.fix_comment_spacing y), 0).
Proof.
  destruct (v2_repair_cases y) as [H | (p & F & E & H)]; rewrite H.
  - exact H.
  - now apply v2_repaired_fixed.
Qed.

(** A line that the first pass appends without breaking it is appended
    as it is by a second pass, with nothing counted. *)
Lemma v2_kept_again (y x : string) (c1 : nat) :
  tidy y = true -> LintV2.truthy_match y = false ->
  LintV2.fix_comment_spacing y = (x, c1) ->
  LintV2.handle_long x = LintV2.Fallthrough
  \/ LintV2.handle_long x = LintV2.Continue [x] 0 ->
  LintV2.rewrite_line x = Some ([x], 0).
Proof.
  intros HT HN HC HH.
  assert (E : x = fst (LintV2.fix_comment_spacing y)) by now rewrite HC.
  pose proof (v2_comment_spacing_tidy y HT) as TX. rewrite <- E in TX.
  pose proof (v2_normal_not_truthy y HN) as NX. rewrite <- E in NX.
  pose proof (v2_normal_spaced y) as SX. rewrite <- E in SX.
  unfold LintV2.rewrite_line.
  rewrite (tidy_rstrip x TX), String.eqb_refl, NX, SX.
  now destruct HH as [-> | ->].
Qed.

Lemma v2_truthy_again (l : string) :
  LintV2.truthy_match (Py.rstrip l) = true ->
  LintV2.rewrite_line (Py.rstrip l) = Some ([Py.rstrip l], 0).
Proof.
  intros H. unfold LintV2.rewrite_line.
  now rewrite rstrip_idem, String.eqb_refl, H.
Qed.

(** A line that is within the budget and well spaced is appended as it
    is. *)
Lemma v2_settled_again (e : string) :
  tidy e = true -> Py.len e <= 80 ->
  Py.startswith (Py.strip e) "#" = true \/ comment_gap e <> Some 1 ->
  LintV2.rewrite_line e = Some ([e], 0).
Proof.
  intros HT HL HG. apply v2_settled_line; [exact HT | now apply Nat.leb_le|].
  now rewrite (gap_no_fix e HG).
Qed.

(** What a second pass does with the lines that the first pass appends
    for one line. *)
Lemma v2_line_again (l : string) (out : list string) (c : nat) :
  LintV2.rewrite_line l = Some (out, c) ->
  Forall (fun e => Py.len e <= 80
                   /\ (Py.startswith (Py.strip e) "#" = true
                       \/ comment_gap e <> Some 1))
         (v2_broken_line l) ->
  Forall (fun e => LintV2.rewrite_line e = Some ([e], 0)) out.
Proof.
  intros R HB. pose proof (v2_rewrite_line_tidy l out c R) as T.
  revert R HB. unfold LintV2.rewrite_line, v2_broken_line, v2_normal.
  rewrite String.eqb_refl.
  destruct (LintV2.truthy_match (Py.rstrip l)) eqn:TM.
  { intros [= <- _] _. constructor; [|constructor].
    now apply v2_truthy_again. }
  destruct (LintV2.fix_comment_spacing (Py.rstrip l)) as [x c1] eqn:C.
  simpl fst.
  destruct (LintV2.handle_long x) as [o k| |] eqn:H; [| |discriminate].
  - destruct k as [|k].
    + pose proof (v2_handle_long_zero x o H) as ->.
      intros [= <- _] _. constructor; [|constructor].
      apply (v2_kept_again (Py.rstrip l) x c1 (rstrip_tidy l) TM C).
      now right.
    + intros [= <- _] HB.
      assert (TB : Forall (fun e => tidy e = true /\ Py.len e <= 80
                             /\ (Py.startswith (Py.strip e) "#" = true
                                 \/ comment_gap e <> Some 1)) o).
      { clear -T HB. induction o as [|e o IH]; [constructor|].
        inversion T; inversion HB; subst.
        constructor; [tauto | now apply IH]. }
      eapply Forall_impl; [|exact TB].
      intros e (H1 & H2 & H3). now apply v2_settled_again.
  - intros [= <- _] _. constructor; [|constructor].
    apply (v2_kept_again (Py.rstrip l) x c1 (rstrip_tidy l) TM C).
    now left.
Qed.

End V2Lines.

Section V2OneLine.

Lemma Forall_skipn {A} (P : A -> Prop) (k : nat) (l : list A) :
  Forall P l -> Forall P (skipn k l).
Proof.
  revert l. induction k as [|k IH]; intros l H; [exact H|].
  destruct l as [|x l]; [constructor|]. inversion H; subst. now apply IH.
Qed.

Lemma first_loop_one_line (words : list string) :
  forall (ws : list string) (cur : string),
    one_line cur = true ->
    Forall (fun w => one_line w = true) words ->
    Forall (fun w => one_line w = true) ws ->
    one_line (fst (LintV2.first_loop words cur ws)) = true
    /\ Forall (fun w => one_line w = true)
              (snd (LintV2.first_loop words cur ws)).
Proof.
  induction ws as [|word r IH]; intros cur HC HA HW;
    [split; [exact HC | constructor]|].
  inversion HW as [|? ? Hw Hr]; subst. rewrite first_loop_cons.
  destruct (_ <=? 80)%nat.
  - apply IH; [|exact HA | exact Hr].
    change (cur ++ " " ++ word) with (cur ++ String " " word).
    rewrite one_line_app, HC. now apply one_line_cons.
  - destruct (Py.list_index word words); simpl;
      (split; [exact HC|]); [now apply Forall_skipn | constructor].
Qed.

Lemma cont_loop_one_line (ci : string) :
  one_line ci = true ->
  forall (ws : list string) (cont : string),
    one_line cont = true ->
    Forall (fun w => one_line w = true) ws ->
    Forall (fun l => one_line l = true) (LintV2.cont_loop ci cont ws).
Proof.
  intros HI. induction ws as [|word r IH]; intros cont HC HW.
  - simpl. destruct (Py.truthy _); repeat constructor.
    now apply one_line_rstrip.
  - inversion HW as [|? ? Hw Hr]; subst. rewrite cont_loop_cons.
    assert (A : forall z, one_line z = true ->
                          one_line (z ++ word ++ " ") = true)
      by (intros z Hz; now rewrite !one_line_app, Hz, Hw).
    destruct (_ <=? 80)%nat; [apply IH; [now apply A | exact Hr]|].
    apply Forall_app. split; [|apply IH; [now apply A | exact Hr]].
    destruct (Py.truthy _); repeat constructor. now apply one_line_rstrip.
Qed.

Lemma v2_split_mapping_one_line (l : string) (out : list string) (c : nat) :
  one_line l = true ->
  LintV2.split_mapping l = LintV2.Continue out c ->
  Forall (fun x => one_line x = true) out.
Proof.
  intros H. unfold LintV2.split_mapping.
  destruct (_ && _); [|discriminate].
  destruct (Py.find l ": ") as [p|]; [|discriminate].
  destruct (_ && _); [|discriminate].
  destruct (LintV2.fold_applies _).
  - intros [= <- _]. unfold LintV2.fold_lines. one_line_list.
  - destruct (_ && _); [|discriminate].
    pose proof (one_line_words _ (one_line_drop (p + 2) l H)) as HW.
    destruct (Py.split_ws _) as [|w0 ws]; [discriminate|].
    inversion HW as [|? ? H0 Hs]; subst.
    assert (HC : one_line (Py.take (p + 1) l ++ " " ++ w0) = true).
    { change (Py.take (p + 1) l ++ " " ++ w0)
        with (Py.take (p + 1) l ++ String " " w0).
      rewrite one_line_app, (one_line_take _ _ H).
      now apply one_line_cons. }
    destruct (first_loop_one_line (w0 :: ws) ws _ HC HW Hs) as [F1 F2].
    destruct (LintV2.first_loop _ _ ws) as [cur rem].
    destruct rem as [|x rem']; [discriminate|].
    remember (LintV2.cont_loop _ _ (x :: rem')) as CL eqn:HCL.
    intros [= <- _]. constructor; [exact F1|]. subst CL.
    apply cont_loop_one_line; [apply one_line_spaces
                              | apply one_line_spaces | exact F2].
Qed.

Lemma v2_split_list_item_one_line (l : string) (out : list string)
      (c : nat) :
  one_line l = true ->
  LintV2.split_list_item l = LintV2.Continue out c ->
  Forall (fun x => one_line x = true) out.
Proof.
  intros H. unfold LintV2.split_list_item.
  destruct (_ && _); [|discriminate].
  destruct (Re.list_item l) as [[prefix content]|] eqn:R; [|discriminate].
  destruct (list_item_one_line _ _ _ H R) as [HP HC].
  destruct (_ && _); [|discriminate].
  destruct (Py.find content ": "); [|discriminate].
  destruct (0 <? _)%nat; [|discriminate].
  destruct (_ && _); [|discriminate]. intros [= <- _]. one_line_list.
Qed.

Lemma v2_spacing_one_line (y : string) :
  one_line y = true ->
  one_line (fst (LintV2.fix_comment_spacing y)) = true.
Proof.
  intros H.
  destruct (v2_repair_cases y) as [-> | (p & _ & _ & ->)]; [exact H|].
  simpl fst. one_line_parts.
Qed.

Lemma v2_rewrite_one_line (l : string) (out : list string) (c : nat) :
  one_line l = true ->
  LintV2.rewrite_line l = Some (out, c) ->
  Forall (fun x => one_line x = true) out.
Proof.
  intros HL. unfold LintV2.rewrite_line.
  destruct (LintV2.truthy_match _).
  { intros [= <- _]. repeat constructor. now apply one_line_rstrip. }
  pose proof (v2_spacing_one_line _ (one_line_rstrip l HL)) as T.
  destruct (LintV2.fix_comment_spacing _) as [x c1]. simpl in T.
  destruct (LintV2.handle_long x) as [o k| |] eqn:H; [| |discriminate].
  - intros [= <- _]. unfold LintV2.handle_long in H.
    destruct (_ && _); [|discriminate].
    destruct (LintV2.expr_protected x);
      [injection H as <- _; now repeat constructor|].
    destruct (LintV2.shell_protected x);
      [injection H as <- _; now repeat constructor|].
    destruct (LintV2.split_mapping x) as [o' k'| |] eqn:M;
      [| |discriminate].
    + injection H as <- _. exact (v2_split_mapping_one_line x _ _ T M).
    + exact (v2_split_list_item_one_line x _ _ T H).
  - intros [= <- _]. now repeat constructor.
Qed.

End V2OneLine.

Section V2Marker.

Lemma marked_app (a b : string) :
  Py.startswith (Py.lstrip a) "---" = true ->
  Py.startswith (Py.lstrip (a ++ b)) "---" = true.
Proof.
  induction a as [|c a IH]; [discriminate|].
  change (String c a ++ b) with (String c (a ++ b)). cbn [Py.lstrip].
  destruct (Py.isspace c); [exact IH|].
  intros H. exact (startswith_app_r (String c a) b "---" H).
Qed.

(** The text up to a character that is neither whitespace nor a dash
    still begins with the marker. *)
Lemma marked_take (h : ascii) (n : string) :
  Py.isspace h = false -> Ascii.eqb h "-" = false ->
  forall (y : string) (p q : nat),
    Py.find y (String h n) = Some p -> p <= q ->
    Py.startswith (Py.lstrip y) "---" = true ->
    Py.startswith (Py.lstrip (Py.take q y)) "---" = true.
Proof.
  intros Hs Hd. induction y as [|c t IH]; intros p q F Hq M;
    [discriminate|].
  cbn [Py.lstrip] in M. destruct (Py.isspace c) eqn:S.
  - rewrite find_cons in F. cbn [Py.startswith] in F.
    destruct (Ascii.eqb h c) eqn:E;
      [apply Ascii.eqb_eq in E; subst; congruence|].
    cbn [andb] in F.
    destruct (Py.find t (String h n)) as [k|] eqn:Ft; [|discriminate].
    injection F as <-. destruct q as [|q]; [lia|].
    cbn [Py.take Py.lstrip]. rewrite S.
    apply (IH k q eq_refl); [lia | exact M].
  - apply startswith_split in M.
    set (r := Py.drop (Py.len "---") (String c t)) in M.
    change ("---" ++ r) with (String "-" (String "-" (String "-" r))) in M.
    clearbody r. rewrite M in F |- *. clear M IH S.
    rewrite !find_cons in F. cbn [Py.startswith] in F.
    rewrite Hd in F. cbn [andb] in F.
    destruct (Py.find r (String h n)) as [k|]; simpl in F; [|discriminate].
    injection F as <-.
    destruct q as [|[|[|q]]]; try lia.
    cbn [Py.take]. simpl. now destruct (Py.take q r).
Qed.

Lemma marked_not_item (x : string) :
  Py.startswith (Py.lstrip x) "---" = true ->
  Py.startswith (Py.lstrip x) "- " = false.
Proof.
  intros M. apply startswith_split in M. rewrite M. reflexivity.
Qed.

Lemma marked_no_marker (s : string) :
  tidy s = true -> Py.startswith (Py.lstrip s) "---" = true ->
  LintV2.needs_marker 0 s = false.
Proof.
  intros T M. unfold LintV2.needs_marker, Py.strip.
  rewrite (tidy_rstrip s T), M. apply andb_false_r.
Qed.

Lemma no_marker_cases (l : string) :
  LintV2.needs_marker 0 l = false ->
  Py.strip l = EmptyString \/ Py.startswith (Py.strip l) "---" = true.
Proof.
  unfold LintV2.needs_marker, Py.truthy. cbn [Nat.eqb andb].
  destruct (Py.strip l) as [|c t]; [now left|].
  cbn [Py.is_empty negb andb]. intros H. right.
  now apply negb_false_iff in H.
Qed.

Lemma first_loop_head (words : list string) :
  forall (ws : list string) (cur : string),
    exists z, fst (LintV2.first_loop words cur ws) = cur ++ z.
Proof.
  induction ws as [|word r IH]; intros cur.
  - exists EmptyString. simpl. now rewrite app_empty_r.
  - rewrite first_loop_cons. destruct (_ <=? 80)%nat.
    + destruct (IH (cur ++ " " ++ word)) as [z ->].
      exists (" " ++ word ++ z). now rewrite !app_assoc'.
    + exists EmptyString. rewrite app_empty_r.
      now destruct (Py.list_index word words).
Qed.

Lemma v2_spacing_marked (y : string) :
  Py.startswith (Py.lstrip y) "---" = true ->
  Py.startswith (Py.lstrip (fst (LintV2.fix_comment_spacing y))) "---"
  = true.
Proof.
  intros M.
  destruct (v2_repair_cases y) as [-> | (p & F & _ & ->)]; [exact M|].
  simpl fst. apply marked_app, marked_app.
  exact (marked_take "#" EmptyString eq_refl eq_refl y p p F (le_n p) M).
Qed.

Lemma v2_split_mapping_head (x : string) (out : list string) (c : nat) :
  Py.startswith (Py.lstrip x) "---" = true ->
  LintV2.split_mapping x = LintV2.Continue out c ->
  exists e r, out = e :: r
              /\ Py.startswith (Py.lstrip e) "---" = true.
Proof.
  intros M. unfold LintV2.split_mapping.
  destruct (_ && _); [|discriminate].
  destruct (Py.find x ": ") as [p|] eqn:F; [|discriminate].
  destruct (_ && _); [|discriminate].
  assert (MK : Py.startswith (Py.lstrip (Py.take (p + 1) x)) "---" = true).
  { apply (marked_take ":" " " eq_refl eq_refl x p (p + 1) F);
      [lia | exact M]. }
  destruct (LintV2.fold_applies _).
  - intros [= <- _]. unfold LintV2.fold_lines. eexists _, _.
    split; [reflexivity|]. rewrite lstrip_spaces_app.
    apply marked_app. unfold Py.strip.
    destruct (tidy_key x p F) as [TK _].
    now rewrite (tidy_rstrip _ TK), lstrip_idem.
  - destruct (_ && _); [|discriminate].
    destruct (Py.split_ws _) as [|w0 ws]; [discriminate|].
    destruct (first_loop_head (w0 :: ws) ws
                              (Py.take (p + 1) x ++ " " ++ w0)) as [z Z].
    destruct (LintV2.first_loop _ _ ws) as [cur rem]. simpl in Z.
    destruct rem as [|a rem']; [discriminate|].
    remember (LintV2.cont_loop _ _ (a :: rem')) as CL eqn:HCL.
    intros [= <- _]. exists cur, CL. split; [reflexivity|].
    rewrite Z, app_assoc'. now apply marked_app.
Qed.

Lemma v2_split_list_item_unmarked (x : string) (out : list string)
      (c : nat) :
  Py.startswith (Py.lstrip x) "---" = true ->
  LintV2.split_list_item x <> LintV2.Continue out c.
Proof.
  intros M. unfold LintV2.split_list_item.
  now rewrite (marked_not_item x M).
Qed.

(** When the first line needs no marker, the first line that is
    appended for it needs none. *)
Lemma v2_head_marker (l : string) (out : list string) (c : nat) :
  LintV2.rewrite_line l = Some (out, c) ->
  LintV2.needs_marker 0 l = false ->
  exists e r, out = e :: r /\ LintV2.needs_marker 0 e = false.
Proof.
  intros R K. pose proof (v2_rewrite_line_tidy l out c R) as T.
  revert R. apply no_marker_cases in K as [K|K].
  - unfold LintV2.rewrite_line. rewrite (blank_rstrip l K).
    intros [= <- _]. now exists EmptyString, [].
  - assert (M : Py.startswith (Py.lstrip (Py.rstrip l)) "---" = true)
      by exact K.
    unfold LintV2.rewrite_line.
    destruct (LintV2.truthy_match _).
    { intros [= <- _]. eexists _, _. split; [reflexivity|].
      apply marked_no_marker; [apply rstrip_tidy | exact M]. }
    pose proof (v2_spacing_marked _ M) as MX.
    pose proof (v2_comment_spacing_tidy _ (rstrip_tidy l)) as TX.
    destruct (LintV2.fix_comment_spacing _) as [x c1]. simpl in MX, TX.
    destruct (LintV2.handle_long x) as [o k| |] eqn:H; [| |discriminate].
    + intros [= <- _]. unfold LintV2.handle_long in H.
      destruct (_ && _); [|discriminate].
      destruct (LintV2.expr_protected x);
        [injection H as <- _; eexists _, _; split;
         [reflexivity | now apply marked_no_marker]|].
      destruct (LintV2.shell_protected x);
        [injection H as <- _; eexists _, _; split;
         [reflexivity | now apply marked_no_marker]|].
      destruct (LintV2.split_mapping x) as [o' k'| |] eqn:SM;
        [| |discriminate].
      * injection H as <- _.
        destruct (v2_split_mapping_head x _ _ MX SM) as (e & r & -> & ME).
        exists e, r. split; [reflexivity|].
        inversion T; subst. now apply marked_no_marker.
      * exfalso. exact (v2_split_list_item_unmarked x _ _ MX H).
    + intros [= <- _]. eexists _, _. split; [reflexivity|].
      now apply marked_no_marker.
Qed.

End V2Marker.

Section V2Passes.

Lemma v2_first_pass (lines : list string) :
  forall (i : nat) (out : list string) (c : nat),
    Forall (fun l => one_line l = true) lines ->
    LintV2.process_lines i lines = Some (out, c) ->
    Forall (fun e => Py.len e <= 80
                     /\ (Py.startswith (Py.strip e) "#" = true
                         \/ comment_gap e <> Some 1))
           (flat_map v2_broken_line lines) ->
    Forall (fun e => LintV2.rewrite_line e = Some ([e], 0))
      out
    /\ Forall (fun e => one_line e = true) out
    /\ (i = 0 -> LintV2.needs_marker 0 (hd EmptyString out) = false).
Proof.
  induction lines as [|l r IH]; intros i out c HL.
  - intros [= <- _] _. repeat split; constructor.
  - inversion HL as [|? ? Hl Hr]; subst.
    cbn [LintV2.process_lines flat_map]. unfold LintV2.process_line.
    destruct (LintV2.rewrite_line l) as [[o k]|] eqn:R; [|discriminate].
    intros P HB. apply Forall_app in HB as [HB1 HB2].
    pose proof (v2_line_again l o k R HB1) as Q1.
    pose proof (v2_rewrite_one_line l o k Hl R) as O1.
    destruct (LintV2.needs_marker i l) eqn:N.
    + destruct (LintV2.process_lines (S i) r) as [[os cs]|] eqn:PR;
        [|discriminate].
      injection P as <- _.
      destruct (IH (S i) os cs Hr PR HB2) as (I1 & I2 & _).
      repeat split.
      * constructor; [reflexivity|]. apply Forall_app. now split.
      * constructor; [reflexivity|]. apply Forall_app. now split.
    + destruct (LintV2.process_lines (S i) r) as [[os cs]|] eqn:PR;
        [|discriminate].
      injection P as <- _.
      destruct (IH (S i) os cs Hr PR HB2) as (I1 & I2 & _).
      repeat split; try (apply Forall_app; now split).
      intros ->. destruct (v2_head_marker l o k R N) as (e & t & -> & K).
      exact K.
Qed.

Lemma v2_quiet_pass (L : list string) :
  forall i : nat,
    Forall (fun e => LintV2.rewrite_line e = Some ([e], 0))
      L ->
    (i = 0 -> LintV2.needs_marker 0 (hd EmptyString L) = false) ->
    LintV2.process_lines i L = Some (L, 0).
Proof.
  induction L as [|e L IH]; intros i HQ HK; [reflexivity|].
  inversion HQ as [|? ? He HL]; subst.
  cbn [LintV2.process_lines]. unfold LintV2.process_line.
  cbv beta in He. rewrite He.
  assert (N : LintV2.needs_marker i e = false).
  { destruct i as [|i]; [now apply HK | reflexivity]. }
  rewrite N, (IH (S i) HL); [reflexivity | discriminate].
Qed.

Lemma v2_second_pass (D : string) :
  Forall (fun e => Py.len e <= 80
                     /\ (Py.startswith (Py.strip e) "#" = true
                         \/ comment_gap e <> Some 1))
           (v2_broken D) ->
  second_pass LintV2.fix_yaml_content D = Some 0.
Proof.
  intros HB. unfold second_pass.
  unfold LintV2.fix_yaml_content at 1.
  destruct (v2_process_lines_total (Py.split_char (ascii_of_nat 10) D) 0)
    as [[out c] P].
  rewrite P.
  destruct (v2_first_pass _ 0 out c (lines_one_line D) P HB)
    as (Q & O & K).
  pose proof (v2_finish_lint out) as FL.
  pose proof (lint_finish_one_newline out) as [E1 E2].
  pose proof (v2_finish_cases out) as FC.
  destruct (LintV2.finish out) as [D1 c'] eqn:F. simpl in FL, FC.
  rewrite <- FL in E1, E2.
  destruct (ended_lines (fun e => LintV2.rewrite_line e = Some ([e], 0)) out D1 O FC Q eq_refl) as [Q2 H2].
  cbn [option_map].
  unfold LintV2.fix_yaml_content.
  rewrite (v2_quiet_pass _ 0 Q2); [|intros _; rewrite H2; now apply K].
  unfold LintV2.finish.
  rewrite (join_split (ascii_of_nat 10) D1 : Py.join nl _ = D1).
  now rewrite E1, E2.
Qed.

End V2Passes.

(** C1, a second counterexample: in fix-yaml-lint-v2.py a folded value
    that holds a colon and a blank and is over the budget is folded again
    by the second pass. *)
Lemma v2_second_pass_refolds :
  LintV2.fix_yaml_content v2_refold_doc
  = Some (doc [ "---"; "    description:: >";
                "      Note: this step performs a very long security scan across all repos in the org now";
                "" ], 1)
  /\ second_pass LintV2.fix_yaml_content v2_refold_doc = Some 1.
Proof. split; vm_compute; reflexivity. Qed.

(** C1 (amended): for every document, when each of the lines that the
    first pass appends in place of a line it folds or breaks is within
    the budget of 80 columns, the second pass of fix-yaml-aggressive.py
    reports zero lines changed; so does the second pass of
    fix-yaml-lint-v2.py when, in addition, the first comment sign of such
    a line does not follow exactly one blank (or the line is a comment).
    Lines that the first pass keeps as they are, comments and protected
    lines among them, may be over the budget. *)
Theorem second_pass_quiet :
  (forall D : string,
      Forall (fun e => Py.len (Py.rstrip e) <= 80) (aggressive_broken D) ->
      second_pass Aggressive.aggressively_fix_line_lengths D = Some 0)
  /\
  (forall D : string,
      Forall (fun e => Py.len e <= 80
                       /\ (Py.startswith (Py.strip e) "#" = true
                           \/ comment_gap e <> Some 1))
             (v2_broken D) ->
      second_pass LintV2.fix_yaml_content D = Some 0).
Proof.
  split; [exact aggressive_second_pass | exact v2_second_pass].
Qed.

(** A document with a comment and a protected line over the budget, in
    which the first pass folds a value. *)
Lemma second_pass_quiet_witness :
  second_pass Aggressive.aggressively_fix_line_lengths quiet_doc = Some 0
  /\ second_pass LintV2.fix_yaml_content quiet_doc = Some 0.
Proof.
  split.
  - apply (proj1 second_pass_quiet quiet_doc). vm_compute.
    repeat (constructor; [lia|]). constructor.
  - apply (proj2 second_pass_quiet quiet_doc). vm_compute.
    repeat (constructor; [split; [lia | right; discriminate]|]).
    constructor.
Defined.
